(** * travis: the net/cmt/stake JSON-RPC services and the init command

    A shallow embedding of [modules/vm/ethereum/api.go] (package [ethereum])
    and of the node-initialisation command (package [commands]).

    Both files are glue over go-ethereum, Tendermint, the Cosmos SDK and
    go-wire.  The calls into those libraries are the fields of a record of
    library operations ([Libs], [InitLibs]); every theorem holds for all
    implementations of them.  What is modelled concretely is what the two
    files themselves do: which structs they build, in which order they call
    the libraries, which errors they return and where they can panic. *)

From Stdlib Require Import ZArith Lia List Ascii String.
From Stdlib Require Import Strings.Byte.
From stdpp Require Import base option list gmap strings.

Local Open Scope string_scope.
Local Open Scope Z_scope.

(** ** Go values shared by the two packages *)

(** [[]byte]. *)
Abbreviation bytes := (list Byte.byte).

(** A non-nil Go [error]; a Go [error] result is an [option error], with
    [None] for [nil]. *)
Inductive error : Type := Err (msg : string).

(** [uint32(v)]: the value a [uint32] variable holds after storing [v]. *)
Definition uint32 (v : Z) : Z := v mod 2 ^ 32.

(** *** [fmt.Sprintf("%d", _)]

    Decimal formatting as in [strconv]: digits are produced from the least
    significant one by repeated division by ten.  Twenty digits are enough
    for every 64-bit value. *)

Definition digit (d : Z) : ascii := ascii_of_nat (48 + Z.to_nat d).

Fixpoint formatBits (fuel : nat) (u : Z) (acc : string) : string :=
  match fuel with
  | O => acc
  | S fuel' =>
      if u <? 10 then String (digit u) acc
      else formatBits fuel' (u / 10) (String (digit (u mod 10)) acc)
  end.

(** [%d] of an unsigned value. *)
Definition Sprintf_d (u : Z) : string := formatBits 20 u "".

(** [%d] of a signed value. *)
Definition Sprintf_d_signed (i : Z) : string :=
  if i <? 0 then "-" +:+ Sprintf_d (- i) else Sprintf_d i.

(** Reading a decimal numeral: the value of a string of digits, most
    significant first, and [None] when a character is not a digit. *)
Definition digit_value (c : ascii) : option Z :=
  let n := Z.of_nat (nat_of_ascii c) in
  if (48 <=? n) && (n <=? 57) then Some (n - 48) else None.

Fixpoint decimal_value (acc : Z) (s : string) : option Z :=
  match s with
  | EmptyString => Some acc
  | String c s' =>
      match digit_value c with
      | Some d => decimal_value (acc * 10 + d) s'
      | None => None
      end
  end.

(** A numeral is canonical when it is not empty and has no leading zero,
    the numeral ["0"] apart. *)
Definition canonical (s : string) : bool :=
  match s with
  | EmptyString => false
  | String c EmptyString => true
  | String c _ => negb (Ascii.eqb c "0")
  end.

(** *** Effects

    A computation threads a state and either returns, panics (a run-time
    panic or an explicit [panic]), or ends the process ([os.Exit]). *)

Inductive Res (A : Type) : Type :=
  | Ret (a : A)
  | Panic (msg : string)
  | Exit (msg : string).

Arguments Ret {A} a.
Arguments Panic {A} msg.
Arguments Exit {A} msg.

Definition M (S A : Type) : Type := S -> Res A * S.

Definition ret {S A} (a : A) : M S A := fun s => (Ret a, s).

Definition panic {S A} (msg : string) : M S A := fun s => (Panic msg, s).

Definition exit {S A} (msg : string) : M S A := fun s => (Exit msg, s).

Definition bind {S A B} (c : M S A) (k : A -> M S B) : M S B :=
  fun s =>
    match c s with
    | (Ret a, s') => k a s'
    | (Panic msg, s') => (Panic msg, s')
    | (Exit msg, s') => (Exit msg, s')
    end.

Notation "x <- c ;; k" := (bind c (fun x => k))
  (at level 100, c at next level, right associativity).

Definition nil_dereference : string :=
  "invalid memory address or nil pointer dereference".

Definition index_out_of_range : string := "index out of range".

Module ethereum.

(** ** [NetRPCService] *)

Record NetRPCService : Type := { networkVersion : Z (* uint64 *) }.

Definition NewNetRPCService (networkVersion : Z) : NetRPCService :=
  {| networkVersion := networkVersion |}.

Definition Listening (s : NetRPCService) : bool := true.

Definition PeerCount (s : NetRPCService) : Z := 0.

Definition Version (s : NetRPCService) : string :=
  Sprintf_d (networkVersion s).

(** ** Values exchanged with the libraries *)

(** [abci.ResponseQuery], the fields the services read. *)
Record ResponseQuery : Type := { Value : bytes; Height : Z (* int64 *) }.

(** [ctypes.ResultABCIQuery]. *)
Record ResultABCIQuery : Type := { Response : ResponseQuery }.

(** [rpcclient.ABCIQueryOptions]. *)
Record ABCIQueryOptions : Type := { opt_Height : Z; opt_Trusted : bool }.

(** [types.Block]: the transaction count of its header and the
    transactions of its data. *)
Record Block : Type := { NumTxs : Z (* int64 *); Txs : list bytes }.

(** [ctypes.ResultBlock]; [rb_Block] is a pointer and may be [nil]. *)
Record ResultBlock : Type := { rb_Block : option Block }.

(** The transactions of the application ([sdk.Tx]).  The first five are
    the stake transactions, then the nonce and chain wrappers.  A signature
    wrapper ([auth.OneSig]) is held by pointer: [SigTx r] is the wrapping of
    the object at address [r] of the heap.  [EmptyTx] is [sdk.Tx{}]. *)
Inductive Tx (PubKey Actor : Type) : Type :=
  | EmptyTx
  | TxDeclare (pubKey : PubKey)
  | TxProposeSlot (pubKey : PubKey) (amount proposedRoi : Z)
  | TxAcceptSlot (amount : Z) (slotId : string)
  | TxWithdrawSlot (amount : Z) (slotId : string)
  | TxCancelSlot (pubKey : PubKey) (slotId : string)
  | NonceTx (sequence : Z) (signers : list Actor) (tx : Tx PubKey Actor)
  | ChainTx (chainID : string) (expiresAt : Z) (tx : Tx PubKey Actor)
  | SigTx (r : nat).

Arguments EmptyTx {PubKey Actor}.
Arguments TxDeclare {PubKey Actor} pubKey.
Arguments TxProposeSlot {PubKey Actor} pubKey amount proposedRoi.
Arguments TxAcceptSlot {PubKey Actor} amount slotId.
Arguments TxWithdrawSlot {PubKey Actor} amount slotId.
Arguments TxCancelSlot {PubKey Actor} pubKey slotId.
Arguments NonceTx {PubKey Actor} sequence signers tx.
Arguments ChainTx {PubKey Actor} chainID expiresAt tx.
Arguments SigTx {PubKey Actor} r.

(** An [auth.OneSig] object: the wrapped transaction and the signature
    state, which [Sign] fills in. *)
Record OneSig (PubKey Actor Sig : Type) : Type :=
  { os_Tx : Tx PubKey Actor; os_Sig : Sig }.

Arguments os_Tx {PubKey Actor Sig} o.
Arguments os_Sig {PubKey Actor Sig} o.

(** The payload of a query result ([interface{}]): what the five query
    methods decode into. *)
Inductive Data (PubKey Candidate Slot SlotDelegate : Type) : Type :=
  | DPubKeys (pks : list PubKey)
  | DCandidate (c : Candidate)
  | DSlot (s : Slot)
  | DSlotDelegates (ds : list SlotDelegate).

Arguments DPubKeys {PubKey Candidate Slot SlotDelegate} pks.
Arguments DCandidate {PubKey Candidate Slot SlotDelegate} c.
Arguments DSlot {PubKey Candidate Slot SlotDelegate} s.
Arguments DSlotDelegates {PubKey Candidate Slot SlotDelegate} ds.

(** ** The libraries and the node behind the services

    A Go function returning [(T, error)] is a function into
    [T * option error]; where [T] is a pointer or an interface that the
    caller dereferences, it is [option T * option error], [None] being
    [nil]. *)
Record Libs : Type := {
  (* carriers *)
  PubKey : Type;            (* crypto.PubKey *)
  Actor : Type;             (* sdk.Actor *)
  Address : Type;           (* common.Address *)
  Wallet : Type;            (* a non-nil accounts.Wallet *)
  EthTx : Type;             (* types.Transaction *)
  Sig : Type;               (* the signature state of an auth.OneSig *)
  Candidate : Type;         (* stake.Candidate *)
  Slot : Type;              (* stake.Slot *)
  SlotDelegate : Type;      (* *stake.SlotDelegate *)
  ResultTx : Type;          (* ctypes.ResultTx *)
  ResultBroadcastTxCommit : Type;
  (* the backend *)
  chainID : string;         (* s.backend.chainID *)
  (* s.backend.localClient *)
  client_Block : Z -> option ResultBlock * option error;
  client_Tx : bytes -> bool -> option ResultTx * option error;
  client_ABCIQuery : string -> bytes -> option ResultABCIQuery * option error;
  client_ABCIQueryWithOptions :
    string -> bytes -> ABCIQueryOptions -> option ResultABCIQuery * option error;
  client_BroadcastTxCommit :
    bytes -> option ResultBroadcastTxCommit * option error;
  (* cast, hex, tmlibs/common, tendermint/types *)
  cast_ToInt64 : Z -> Z;
  hex_DecodeString : string -> bytes * option error;
  hex_EncodeToString : bytes -> string;
  cmn_StripHex : string -> string;
  tx_Hash : bytes -> bytes;
  (* go-ethereum: common, core/types, accounts *)
  common_HexToAddress : string -> Address;
  common_zeroAddress : Address;           (* common.Address([20]byte{}) *)
  address_Bytes : Address -> bytes;
  types_NewTransaction : Z -> Address -> Z -> Z -> Z -> bytes -> EthTx;
  am_Find : Address -> option Wallet * option error;
  wallet_SignTx : Wallet -> Address -> EthTx -> Z -> option EthTx * option error;
  (* modules/stake, modules/nonce, modules/auth, modules/coin, sdk *)
  stake_GetPubKey : string -> PubKey * option error;
  stake_Name : string;
  stake_CandidatesPubKeysKey : bytes;
  stake_GetCandidateKey : PubKey -> bytes;
  stake_GetDelegatorBondsKey : Actor -> bytes;
  nonce_NameNonce : string;
  nonce_GetSeqKey : list Actor -> bytes;
  stack_PrefixedKey : string -> bytes -> bytes;
  auth_SigPerm : bytes -> Actor;
  auth_emptySig : Sig;                    (* the state auth.NewSig starts in *)
  onesig_SignBytes : OneSig PubKey Actor Sig -> bytes;
  onesig_Sign : OneSig PubKey Actor Sig -> option EthTx -> Sig * option error;
  commands_ParseActor : string -> Actor * option error;
  coin_ChainAddr : Actor -> Actor;
  client_ErrNoData : error;
  zeroCandidate : Candidate;              (* var candidate stake.Candidate *)
  zeroSlot : Slot;                        (* var slot stake.Slot *)
  (* methods of sdk.Tx and go-wire; they read through the pointers of the
     transaction, hence the heap *)
  tx_ValidateBasic :
    list (OneSig PubKey Actor Sig) -> Tx PubKey Actor -> option error;
  wire_BinaryBytes : list (OneSig PubKey Actor Sig) -> Tx PubKey Actor -> bytes;
  wire_ReadUint32 : bytes -> Z * option error;
  wire_ReadData :
    bytes -> Data PubKey Candidate Slot SlotDelegate ->
    Data PubKey Candidate Slot SlotDelegate * option error;
}.

(** ** Effects of a request

    A request calls the local consensus client, allocates and mutates
    [auth.OneSig] objects, and may panic (a [nil] dereference or an index
    out of range).  The state records the heap of [OneSig] objects and the
    calls made to the client, oldest first. *)

Inductive Call : Type :=
  | CallBlock (height : Z)
  | CallTx (hash : bytes) (prove : bool)
  | CallABCIQuery (path : string) (key : bytes)
  | CallABCIQueryWithOptions (path : string) (key : bytes) (o : ABCIQueryOptions)
  | CallBroadcastTxCommit (tx : bytes).


Record St (O : Type) : Type := { heap : list O; calls : list Call }.

Arguments heap {O} s.
Arguments calls {O} s.

(** Recording a call to the client. *)
Definition called {O} (c : Call) : M (St O) unit :=
  fun s => (Ret tt, {| heap := heap s; calls := calls s ++ [c] |}).

Definition get_heap {O} : M (St O) (list O) := fun s => (Ret (heap s), s).

(** [&T{...}]: a new object, at an address that was not in use. *)
Definition alloc {O} (o : O) : M (St O) nat :=
  fun s => (Ret (length (heap s)), {| heap := heap s ++ [o]; calls := calls s |}).

(** Reading through a pointer. *)
Definition deref {O} (r : nat) : M (St O) O :=
  fun s =>
    match heap s !! r with
    | Some o => (Ret o, s)
    | None => (Panic nil_dereference, s)
    end.

(** Writing through a pointer. *)
Definition store {O} (r : nat) (o : O) : M (St O) unit :=
  fun s => (Ret tt, {| heap := <[r := o]> (heap s); calls := calls s |}).

(** ** The services *)

Record DeclareCandidacyArgs : Type :=
  { dc_Sequence : Z (* uint32 *); dc_From : string; dc_PubKey : string }.

Record ProposeSlotArgs : Type :=
  { ps_Sequence : Z (* uint32 *); ps_From : string; ps_PubKey : string;
    ps_Amount : Z; ps_ProposedRoi : Z }.

Record AcceptSlotArgs : Type :=
  { as_Sequence : Z (* uint32 *); as_From : string; as_Amount : Z;
    as_SlotId : string }.

Record WithdrawSlotArgs : Type :=
  { ws_Sequence : Z (* uint32 *); ws_From : string; ws_Amount : Z;
    ws_SlotId : string }.

Record CancelSlotArgs : Type :=
  { cs_Sequence : Z (* uint32 *); cs_From : string; cs_PubKey : string;
    cs_SlotId : string }.

Record StakeQueryResult (D : Type) : Type :=
  { sqr_Height : Z (* int64 *); sqr_Data : D }.

Arguments sqr_Height {D} s.
Arguments sqr_Data {D} s.

Section Services.

Context (L : Libs).

Abbreviation tx_t := (Tx (PubKey L) (Actor L)).
Abbreviation onesig_t := (OneSig (PubKey L) (Actor L) (Sig L)).
Abbreviation data_t :=
  (Data (PubKey L) (Candidate L) (Slot L) (SlotDelegate L)).
Abbreviation m := (M (St onesig_t)).

(** *** [CmtRPCService] *)

Definition GetBlock (height : Z) : m (option ResultBlock * option error) :=
  let h := cast_ToInt64 L height in
  _ <- called (CallBlock h) ;;
  ret (client_Block L h).

Definition GetTransaction (hash : string)
  : m (option (ResultTx L) * option error) :=
  let (bkey, err) := hex_DecodeString L (cmn_StripHex L hash) in
  match err with
  | Some e => ret (None, Some e)
  | None =>
      _ <- called (CallTx bkey false) ;;
      ret (client_Tx L bkey false)
  end.

(** [block.Block.Txs[index]] with an [int64] index: a run-time panic
    unless [0 <= index < len(Txs)]. *)
Definition index_Txs (txs : list bytes) (index : Z) : m bytes :=
  if index <? 0 then panic index_out_of_range
  else
    match txs !! Z.to_nat index with
    | Some t => ret t
    | None => panic index_out_of_range
    end.

Definition GetTransactionFromBlock (height index : Z)
  : m (option (ResultTx L) * option error) :=
  let h := cast_ToInt64 L height in
  _ <- called (CallBlock h) ;;
  let (block, err) := client_Block L h in
  match err with
  | Some e => ret (None, Some e)
  | None =>
      match block with
      | None => panic nil_dereference
      | Some rb =>
          match rb_Block rb with
          | None => panic nil_dereference
          | Some b =>
              if index >=? NumTxs b then
                ret (None,
                     Some (Err ("No transaction in block " +:+ Sprintf_d height
                                +:+ ", index " +:+ Sprintf_d_signed index
                                +:+ ". ")))
              else
                t <- index_Txs (Txs b) index ;;
                GetTransaction (hex_EncodeToString L (tx_Hash L t))
          end
      end
  end.

(** *** [StakeRPCService] *)

Definition getChainID : string * option error :=
  if String.eqb (chainID L) "" then
    ("", Some (Err "Empty chain id. Please wait for tendermint to finish starting up. "))
  else (chainID L, None).

Definition getSignerAct (address : string) : Actor L :=
  let signer := common_HexToAddress L address in
  auth_SigPerm L (address_Bytes L signer).

(** [getSequence] writes through its [sequence] pointer: the result is the
    error and the value the pointer holds afterwards. *)
Definition getSequence (signers : list (Actor L)) (sequence : Z)
  : m (option error * Z) :=
  let key := stack_PrefixedKey L (nonce_NameNonce L) (nonce_GetSeqKey L signers) in
  _ <- called (CallABCIQuery "/key" key) ;;
  let (result, err) := client_ABCIQuery L "/key" key in
  match err with
  | Some e => ret (Some e, sequence)
  | None =>
      match result with
      | None => panic nil_dereference
      | Some r =>
          if (length (Value (Response r)) =? 0)%nat then ret (None, sequence)
          else
            let (v, err) := wire_ReadUint32 L (Value (Response r)) in
            ret (err, uint32 v)
      end
  end.

(** [auth.NewSig(tx).Wrap()]: a new, unsigned [OneSig] object and the
    transaction that points to it. *)
Definition auth_NewSig_Wrap (tx : tx_t) : m tx_t :=
  r <- alloc {| os_Tx := tx; os_Sig := auth_emptySig L |} ;;
  ret (SigTx r).

(** [data] is the [OneSig] object at address [r]; [data.Sign] fills in its
    signature state in place.  The error of [s.am.Find] is overwritten
    unread, and a [nil] wallet makes [wallet.SignTx] panic. *)
Definition sign (r : nat) (address : string) : m (option error) :=
  data <- deref r ;;
  let ethTx :=
    types_NewTransaction L 0 (common_zeroAddress L) 0 0 0
      (onesig_SignBytes L data) in
  let addr := common_HexToAddress L address in
  let account := addr in
  let (wallet, _) := am_Find L account in
  match wallet with
  | None => panic nil_dereference
  | Some w =>
      let (signed, err) := wallet_SignTx L w account ethTx 15 in
      match err with
      | Some e => ret (Some e)
      | None =>
          let (sg, err) := onesig_Sign L data signed in
          _ <- store r {| os_Tx := os_Tx data; os_Sig := sg |} ;;
          ret err
      end
  end.

(** Only a signature wrapper is [keys.Signable]. *)
Definition signTx (tx : tx_t) (address : string) : m (option error) :=
  h <- get_heap ;;
  let err := tx_ValidateBasic L h tx in
  match err with
  | Some e => ret (Some e)
  | None =>
      match tx with
      | SigTx r =>
          if String.eqb address "" then
            ret (Some (Err "address is required to sign tx"))
          else
            err' <- sign r address ;;
            match err' with
            | Some e => ret (Some e)
            | None => ret err
            end
      | _ => ret err
      end
  end.

Definition wrapAndSignTx (tx : tx_t) (address : string) (sequence : Z)
  : m (tx_t * option error) :=
  let signers := [getSignerAct address] in
  sq <- (if sequence <=? 0 then
           r <- getSequence signers sequence ;;
           match fst r with
           | Some e => ret (inl e)
           | None => ret (inr (uint32 (snd r + 1)))
           end
         else ret (inr sequence)) ;;
  match sq with
  | inl e => ret (EmptyTx, Some e)
  | inr sequence =>
      let tx := NonceTx sequence signers tx in
      let (chainID, err) := getChainID in
      match err with
      | Some e => ret (EmptyTx, Some e)
      | None =>
          let tx := ChainTx chainID 0 tx in
          tx <- auth_NewSig_Wrap tx ;;
          err <- signTx tx address ;;
          match err with
          | Some e => ret (EmptyTx, Some e)
          | None => ret (tx, err)
          end
      end
  end.

Definition broadcastTx (tx : tx_t)
  : m (option (ResultBroadcastTxCommit L) * option error) :=
  h <- get_heap ;;
  let key := wire_BinaryBytes L h tx in
  _ <- called (CallBroadcastTxCommit key) ;;
  ret (client_BroadcastTxCommit L key).

Definition prepareDeclareCandidacyTx (args : DeclareCandidacyArgs)
  : m (tx_t * option error) :=
  let (pubKey, err) := stake_GetPubKey L (dc_PubKey args) in
  match err with
  | Some e => ret (EmptyTx, Some e)
  | None =>
      let tx := TxDeclare pubKey in
      wrapAndSignTx tx (dc_From args) (dc_Sequence args)
  end.

Definition DeclareCandidacy (args : DeclareCandidacyArgs)
  : m (option (ResultBroadcastTxCommit L) * option error) :=
  r <- prepareDeclareCandidacyTx args ;;
  match snd r with
  | Some e => ret (None, Some e)
  | None => broadcastTx (fst r)
  end.

Definition prepareProposeSlotTx (args : ProposeSlotArgs)
  : m (tx_t * option error) :=
  let (pubKey, err) := stake_GetPubKey L (ps_PubKey args) in
  match err with
  | Some e => ret (EmptyTx, Some e)
  | None =>
      let tx := TxProposeSlot pubKey (ps_Amount args) (ps_ProposedRoi args) in
      wrapAndSignTx tx (ps_From args) (ps_Sequence args)
  end.

Definition ProposeSlot (args : ProposeSlotArgs)
  : m (option (ResultBroadcastTxCommit L) * option error) :=
  r <- prepareProposeSlotTx args ;;
  match snd r with
  | Some e => ret (None, Some e)
  | None => broadcastTx (fst r)
  end.

Definition prepareAcceptSlotTx (args : AcceptSlotArgs)
  : m (tx_t * option error) :=
  let tx := TxAcceptSlot (as_Amount args) (as_SlotId args) in
  wrapAndSignTx tx (as_From args) (as_Sequence args).

Definition AcceptSlot (args : AcceptSlotArgs)
  : m (option (ResultBroadcastTxCommit L) * option error) :=
  r <- prepareAcceptSlotTx args ;;
  match snd r with
  | Some e => ret (None, Some e)
  | None => broadcastTx (fst r)
  end.

Definition prepareWithdrawSlotTx (args : WithdrawSlotArgs)
  : m (tx_t * option error) :=
  let tx := TxWithdrawSlot (ws_Amount args) (ws_SlotId args) in
  wrapAndSignTx tx (ws_From args) (ws_Sequence args).

Definition WithdrawSlot (args : WithdrawSlotArgs)
  : m (option (ResultBroadcastTxCommit L) * option error) :=
  r <- prepareWithdrawSlotTx args ;;
  match snd r with
  | Some e => ret (None, Some e)
  | None => broadcastTx (fst r)
  end.

Definition prepareCancelSlotTx (args : CancelSlotArgs)
  : m (tx_t * option error) :=
  let (pubKey, err) := stake_GetPubKey L (cs_PubKey args) in
  match err with
  | Some e => ret (EmptyTx, Some e)
  | None =>
      let tx := TxCancelSlot pubKey (cs_SlotId args) in
      wrapAndSignTx tx (cs_From args) (cs_Sequence args)
  end.

Definition CancelSlot (args : CancelSlotArgs)
  : m (option (ResultBroadcastTxCommit L) * option error) :=
  r <- prepareCancelSlotTx args ;;
  match snd r with
  | Some e => ret (None, Some e)
  | None => broadcastTx (fst r)
  end.

(** *** Stake queries *)

Definition get (path : string) (key : bytes) (height : Z)
  : m (bytes * Z * option error) :=
  let o := {| opt_Height := height; opt_Trusted := true |} in
  _ <- called (CallABCIQueryWithOptions path key o) ;;
  let (resp, err) := client_ABCIQueryWithOptions L path key o in
  match resp with
  | None => ret ([], height, err)
  | Some r => ret (Value (Response r), Height (Response r), err)
  end.

(** [getParsed] decodes into the object [data] points to: the result is
    the height, the error and the object afterwards. *)
Definition getParsed (path : string) (key : bytes) (data : data_t) (height : Z)
  : m (Z * option error * data_t) :=
  r <- get path key (cast_ToInt64 L height) ;;
  let '(bs, h, err) := r in
  match err with
  | Some e => ret (0, Some e, data)
  | None =>
      if (length bs =? 0)%nat then ret (h, Some (client_ErrNoData L), data)
      else
        let (data', err) := wire_ReadData L bs data in
        match err with
        | Some e => ret (0, Some e, data')
        | None => ret (h, None, data')
        end
  end.

Definition QueryValidators (height : Z)
  : m (option (StakeQueryResult data_t) * option error) :=
  let pks := DPubKeys [] in
  let key := stack_PrefixedKey L (stake_Name L) (stake_CandidatesPubKeysKey L) in
  r <- getParsed "/key" key pks height ;;
  let '(h, err, pks) := r in
      match err with
      | Some e => ret (None, Some e)
      | None => ret (Some {| sqr_Height := h; sqr_Data := pks |}, None)
      end.

Definition QueryValidator (pubkey : string) (height : Z)
  : m (option (StakeQueryResult data_t) * option error) :=
  let (pk, err) := stake_GetPubKey L pubkey in
  match err with
  | Some e => ret (None, Some e)
  | None =>
      let candidate := DCandidate (zeroCandidate L) in
      let key := stack_PrefixedKey L (stake_Name L) (stake_GetCandidateKey L pk) in
      r <- getParsed "/key" key candidate height ;;
      let '(h, err, candidate) := r in
      match err with
      | Some e => ret (None, Some e)
      | None => ret (Some {| sqr_Height := h; sqr_Data := candidate |}, None)
      end
  end.

Definition QuerySlots (address : string) (height : Z)
  : m (option (StakeQueryResult data_t) * option error) :=
  let (delegator, err) := commands_ParseActor L address in
  match err with
  | Some e => ret (None, Some e)
  | None =>
      let delegator := coin_ChainAddr L delegator in
      let candidates := DPubKeys [] in
      let key :=
        stack_PrefixedKey L (stake_Name L)
          (stake_GetDelegatorBondsKey L delegator) in
      r <- getParsed "/key" key candidates height ;;
      let '(h, err, candidates) := r in
      match err with
      | Some e => ret (None, Some e)
      | None => ret (Some {| sqr_Height := h; sqr_Data := candidates |}, None)
      end
  end.

Definition QuerySlot (slotId : string) (height : Z)
  : m (option (StakeQueryResult data_t) * option error) :=
  let slot := DSlot (zeroSlot L) in
  r <- getParsed "/slot" (list_byte_of_string slotId) slot height ;;
  let '(h, err, slot) := r in
      match err with
      | Some e => ret (None, Some e)
      | None => ret (Some {| sqr_Height := h; sqr_Data := slot |}, None)
      end.

Definition QueryDelegator (address : string) (height : Z)
  : m (option (StakeQueryResult data_t) * option error) :=
  let slotDelegates := DSlotDelegates [] in
  r <- getParsed "/delegator" (list_byte_of_string address) slotDelegates height ;;
  let '(h, err, slotDelegates) := r in
      match err with
      | Some e => ret (None, Some e)
      | None => ret (Some {| sqr_Height := h; sqr_Data := slotDelegates |}, None)
      end.

(** *** The method table

    The stake submission methods and the stake query methods, as the RPC
    server dispatches them. *)

Inductive Submission : Type :=
  | SubmitDeclareCandidacy (args : DeclareCandidacyArgs)
  | SubmitProposeSlot (args : ProposeSlotArgs)
  | SubmitAcceptSlot (args : AcceptSlotArgs)
  | SubmitWithdrawSlot (args : WithdrawSlotArgs)
  | SubmitCancelSlot (args : CancelSlotArgs).

Definition submit (q : Submission)
  : m (option (ResultBroadcastTxCommit L) * option error) :=
  match q with
  | SubmitDeclareCandidacy args => DeclareCandidacy args
  | SubmitProposeSlot args => ProposeSlot args
  | SubmitAcceptSlot args => AcceptSlot args
  | SubmitWithdrawSlot args => WithdrawSlot args
  | SubmitCancelSlot args => CancelSlot args
  end.

(** The [prepare...Tx] method behind each submission method. *)
Definition prepare (q : Submission) : m (tx_t * option error) :=
  match q with
  | SubmitDeclareCandidacy args => prepareDeclareCandidacyTx args
  | SubmitProposeSlot args => prepareProposeSlotTx args
  | SubmitAcceptSlot args => prepareAcceptSlotTx args
  | SubmitWithdrawSlot args => prepareWithdrawSlotTx args
  | SubmitCancelSlot args => prepareCancelSlotTx args
  end.

Inductive Query : Type :=
  | AskValidators (height : Z)
  | AskValidator (pubkey : string) (height : Z)
  | AskSlots (address : string) (height : Z)
  | AskSlot (slotId : string) (height : Z)
  | AskDelegator (address : string) (height : Z).

Definition query (q : Query)
  : m (option (StakeQueryResult data_t) * option error) :=
  match q with
  | AskValidators height => QueryValidators height
  | AskValidator pubkey height => QueryValidator pubkey height
  | AskSlots address height => QuerySlots address height
  | AskSlot slotId height => QuerySlot slotId height
  | AskDelegator address height => QueryDelegator address height
  end.

(** *** Reading a request and its trace *)

(** The stake transaction a submission carries, built from its arguments. *)
Definition innerTx (q : Submission) : tx_t :=
  match q with
  | SubmitDeclareCandidacy args =>
      TxDeclare (fst (stake_GetPubKey L (dc_PubKey args)))
  | SubmitProposeSlot args =>
      TxProposeSlot (fst (stake_GetPubKey L (ps_PubKey args)))
        (ps_Amount args) (ps_ProposedRoi args)
  | SubmitAcceptSlot args => TxAcceptSlot (as_Amount args) (as_SlotId args)
  | SubmitWithdrawSlot args => TxWithdrawSlot (ws_Amount args) (ws_SlotId args)
  | SubmitCancelSlot args =>
      TxCancelSlot (fst (stake_GetPubKey L (cs_PubKey args))) (cs_SlotId args)
  end.

Definition submission_From (q : Submission) : string :=
  match q with
  | SubmitDeclareCandidacy args => dc_From args
  | SubmitProposeSlot args => ps_From args
  | SubmitAcceptSlot args => as_From args
  | SubmitWithdrawSlot args => ws_From args
  | SubmitCancelSlot args => cs_From args
  end.

Definition submission_Sequence (q : Submission) : Z :=
  match q with
  | SubmitDeclareCandidacy args => dc_Sequence args
  | SubmitProposeSlot args => ps_Sequence args
  | SubmitAcceptSlot args => as_Sequence args
  | SubmitWithdrawSlot args => ws_Sequence args
  | SubmitCancelSlot args => cs_Sequence args
  end.

(** The store key of the nonce of the signer of [address]. *)
Definition sequenceKey (address : string) : bytes :=
  stack_PrefixedKey L (nonce_NameNonce L)
    (nonce_GetSeqKey L [getSignerAct address]).

(** The unsigned signature wrapper of a submission whose nonce is
    [sequence]: the stake transaction in a nonce transaction signed for by
    the one actor of the sender, in a chain transaction for the chain of the
    backend that never expires, in a signature wrapper without signature. *)
Definition wrapped (q : Submission) (sequence : Z) : onesig_t :=
  {| os_Tx :=
       ChainTx (chainID L) 0
         (NonceTx sequence [getSignerAct (submission_From q)] (innerTx q));
     os_Sig := auth_emptySig L |}.

(** [sg] is the signature state of [unsigned] once signed for [address]:
    the account manager finds a wallet for the account of [address], the
    wallet signs for that account (chain id 15) the Ethereum transaction
    that carries the sign bytes of [unsigned], and [Sign] accepts the
    result. *)
Definition SignedFor (address : string) (unsigned : onesig_t) (sg : Sig L)
  : Prop :=
  let addr := common_HexToAddress L address in
  exists w signed,
    fst (am_Find L addr) = Some w /\
    wallet_SignTx L w addr
      (types_NewTransaction L 0 (common_zeroAddress L) 0 0 0
         (onesig_SignBytes L unsigned)) 15 = (signed, None) /\
    onesig_Sign L unsigned signed = (sg, None).

(** What the store holds under the nonce key of the signer of [address]:
    [Some v] when the value of the key decodes to the [uint32] [v], [None]
    when the key holds nothing. *)
Definition StoredSequence (address : string) (stored : option Z) : Prop :=
  exists r,
    client_ABCIQuery L "/key" (sequenceKey address) = (Some r, None) /\
    match stored with
    | None => Value (Response r) = []
    | Some v =>
        Value (Response r) <> [] /\
        exists v0, wire_ReadUint32 L (Value (Response r)) = (v0, None) /\
                   v = uint32 v0
    end.

(** [t] is [tx] prepared for [address] with the requested [sequence],
    between the states [s] and [s']: [t] points to a new [OneSig] object
    that wraps [tx] in a nonce transaction of the one signer of [address],
    in a chain transaction of the chain of the backend with expiration
    height 0; the object is valid and holds the signature made for
    [address].  The nonce is the requested one when positive, and otherwise
    the successor, in [uint32], of the stored one. *)
Definition Prepared (tx : tx_t) (address : string) (sequence : Z)
    (s s' : St onesig_t) (t : tx_t) : Prop :=
  exists seq sg,
    let unsigned :=
      {| os_Tx := ChainTx (chainID L) 0
                    (NonceTx seq [getSignerAct address] tx);
         os_Sig := auth_emptySig L |} in
    t = SigTx (length (heap s)) /\
    heap s' = (heap s ++ [ {| os_Tx := os_Tx unsigned; os_Sig := sg |} ])%list /\
    chainID L <> "" /\ address <> "" /\
    tx_ValidateBasic L (heap s ++ [unsigned])%list (SigTx (length (heap s)))
    = None /\
    SignedFor address unsigned sg /\
    (0 < sequence -> seq = sequence) /\
    (sequence <= 0 ->
     exists stored, StoredSequence address stored /\
                    seq = uint32 (default sequence stored + 1)).

(** The value bytes of a query response; a [nil] response has none. *)
Definition responseValue (resp : option ResultABCIQuery) : bytes :=
  match resp with
  | Some r => Value (Response r)
  | None => []
  end.

(** The zero value each query method decodes into. *)
Definition queryTarget (q : Query) : data_t :=
  match q with
  | AskValidators _ => DPubKeys []
  | AskValidator _ _ => DCandidate (zeroCandidate L)
  | AskSlots _ _ => DPubKeys []
  | AskSlot _ _ => DSlot (zeroSlot L)
  | AskDelegator _ _ => DSlotDelegates []
  end.

End Services.

(** The payloads handed to [BroadcastTxCommit] in a trace, oldest first. *)
Definition broadcasts (cs : list Call) : list bytes :=
  omap (fun c => match c with
                 | CallBroadcastTxCommit tx => Some tx
                 | _ => None
                 end) cs.

(** The query responses received in a trace are those of
    [ABCIQueryWithOptions]; its calls, oldest first. *)
Definition queries (cs : list Call) : list (string * bytes * ABCIQueryOptions) :=
  omap (fun c => match c with
                 | CallABCIQueryWithOptions path key o => Some (path, key, o)
                 | _ => None
                 end) cs.

(** ** A node for the examples

    Simple stand-ins for the libraries: keys, actors and addresses are
    strings, a signature is the signed text, every transaction is valid,
    the keystore holds one account, the chain has one block with one
    transaction, the stored nonce of every signer is 4 and only the slot
    query finds data. *)

Fixpoint show_tx (tx : Tx string string) : string :=
  match tx with
  | EmptyTx => "empty"
  | TxDeclare pk => "declare(" +:+ pk +:+ ")"
  | TxProposeSlot pk a r =>
      "propose(" +:+ pk +:+ "," +:+ Sprintf_d_signed a +:+ ","
      +:+ Sprintf_d_signed r +:+ ")"
  | TxAcceptSlot a i => "accept(" +:+ Sprintf_d_signed a +:+ "," +:+ i +:+ ")"
  | TxWithdrawSlot a i => "withdraw(" +:+ Sprintf_d_signed a +:+ "," +:+ i +:+ ")"
  | TxCancelSlot pk i => "cancel(" +:+ pk +:+ "," +:+ i +:+ ")"
  | NonceTx n signers t =>
      "nonce(" +:+ Sprintf_d_signed n +:+ "," +:+ String.concat "+" signers
      +:+ "," +:+ show_tx t +:+ ")"
  | ChainTx c e t =>
      "chain(" +:+ c +:+ "," +:+ Sprintf_d_signed e +:+ "," +:+ show_tx t +:+ ")"
  | SigTx r => "sig"
  end.

Definition show_signed (h : list (OneSig string string (option string)))
    (tx : Tx string string) : string :=
  match tx with
  | SigTx r =>
      match h !! r with
      | Some o =>
          "sig(" +:+ show_tx (os_Tx o) +:+ "," +:+ default "unsigned" (os_Sig o)
          +:+ ")"
      | None => "nil"
      end
  | _ => show_tx tx
  end.

Definition testAccount : string := "0x7eff122b94897ea5b0e2a9abf47b86337fafebdc".

Definition testLibs : Libs := {|
  PubKey := string;
  Actor := string;
  Address := string;
  Wallet := unit;
  EthTx := string;
  Sig := option string;
  Candidate := string;
  Slot := string;
  SlotDelegate := string;
  ResultTx := bytes;
  ResultBroadcastTxCommit := bytes;
  chainID := "travis-test";
  client_Block := fun h =>
    if h =? 1 then
      (Some {| rb_Block :=
                 Some {| NumTxs := 1; Txs := [list_byte_of_string "tx0"] |} |},
       None)
    else (None, Some (Err "height must be less than or equal to the current blockchain height"));
  client_Tx := fun hash _ => (Some hash, None);
  client_ABCIQuery := fun _ _ =>
    (Some {| Response := {| Value := [x00; x00; x00; x04]; Height := 9 |} |}, None);
  client_ABCIQueryWithOptions := fun path _ _ =>
    (Some {| Response :=
               {| Value := if String.eqb path "/slot"
                           then list_byte_of_string "slot-1" else [];
                  Height := 9 |} |},
     None);
  client_BroadcastTxCommit := fun tx => (Some tx, None);
  cast_ToInt64 := fun h => h;
  hex_DecodeString := fun s => (list_byte_of_string s, None);
  hex_EncodeToString := string_of_list_byte;
  cmn_StripHex := fun s => s;
  tx_Hash := fun t => t;
  common_HexToAddress := fun s => s;
  common_zeroAddress := "0x0";
  address_Bytes := list_byte_of_string;
  types_NewTransaction := fun _ _ _ _ _ data => string_of_list_byte data;
  am_Find := fun a =>
    if String.eqb a testAccount then (Some tt, None)
    else (None, Some (Err "unknown account"));
  wallet_SignTx := fun _ a t _ => (Some ("signed by " +:+ a +:+ ": " +:+ t), None);
  stake_GetPubKey := fun s =>
    if String.eqb s "" then ("", Some (Err "invalid public key")) else (s, None);
  stake_Name := "stake";
  stake_CandidatesPubKeysKey := list_byte_of_string "candidates";
  stake_GetCandidateKey := list_byte_of_string;
  stake_GetDelegatorBondsKey := list_byte_of_string;
  nonce_NameNonce := "nonce";
  nonce_GetSeqKey := fun signers => list_byte_of_string (String.concat "+" signers);
  stack_PrefixedKey := fun name key => app (list_byte_of_string name) key;
  auth_SigPerm := string_of_list_byte;
  auth_emptySig := None;
  onesig_SignBytes := fun o => list_byte_of_string (show_tx (os_Tx o));
  onesig_Sign := fun o signed =>
    match os_Sig o with
    | Some _ => (os_Sig o, Some (Err "too many signatures"))
    | None => (signed, None)
    end;
  commands_ParseActor := fun s => (s, None);
  coin_ChainAddr := fun a => a;
  client_ErrNoData := Err "No data returned for this key";
  zeroCandidate := "";
  zeroSlot := "";
  tx_ValidateBasic := fun _ _ => None;
  wire_BinaryBytes := fun h t => list_byte_of_string (show_signed h t);
  wire_ReadUint32 := fun bs =>
    (fold_left (fun a b => a * 256 + Z.of_N (Byte.to_N b)) bs 0, None);
  wire_ReadData := fun bs d =>
    match d with
    | DSlot _ => (DSlot (string_of_list_byte bs), None)
    | _ => (d, Some (Err "unexpected payload"))
    end;
|}.

(** A state with nothing on the heap and no call made. *)
Definition st0 (O : Type) : St O := {| heap := []; calls := [] |}.

(** Requests for the examples: a candidacy declared by the account of the
    keystore with the default sequence, the same with sequence 7, and a
    slot accepted by an account the keystore does not hold. *)
Definition declareDefault : Submission :=
  SubmitDeclareCandidacy
    {| dc_Sequence := 0; dc_From := testAccount; dc_PubKey := "pk1" |}.

Definition declareSeven : Submission :=
  SubmitDeclareCandidacy
    {| dc_Sequence := 7; dc_From := testAccount; dc_PubKey := "pk1" |}.

Definition acceptUnknown : Submission :=
  SubmitAcceptSlot
    {| as_Sequence := 7; as_From := "0x01"; as_Amount := 5; as_SlotId := "s1" |}.

(** ** [UnlockAccount]

    Go integers: [int64(v)] and [uint64(v)] are the values a variable of
    the type holds after storing [v]; [time.Duration] is an [int64] of
    nanoseconds. *)

Definition int64 (v : Z) : Z := (v + 2 ^ 63) mod 2 ^ 64 - 2 ^ 63.

Definition uint64 (v : Z) : Z := v mod 2 ^ 64.

Definition math_MaxInt64 : Z := 2 ^ 63 - 1.

Definition time_Second : Z := 1000000000.

(** The account manager and its keystores. *)
Record AccountLibs : Type := {
  acc_Address : Type;       (* common.Address *)
  KeyStore : Type;          (* *keystore.KeyStore *)
  (* am.Backends(keystore.KeyStoreType) *)
  am_Backends : list KeyStore;
  (* ks.TimedUnlock(accounts.Account{Address: addr}, password, d) *)
  ks_TimedUnlock : KeyStore -> acc_Address -> string -> Z -> option error;
}.

Section Accounts.

Context (A : AccountLibs).

(** [am.Backends(keystore.KeyStoreType)[0]]: a run-time panic when the
    manager has no keystore. *)
Definition fetchKeystore : Res (KeyStore A) :=
  match am_Backends A with
  | ks :: _ => Ret ks
  | [] => Panic index_out_of_range
  end.

(** [const max = uint64(time.Duration(math.MaxInt64) / time.Second)]. *)
Definition unlock_max : Z := uint64 (Z.quot (int64 math_MaxInt64) time_Second).

(** [duration] is a [*uint64]: [None] for [nil]. *)
Definition UnlockAccount (addr : acc_Address A) (password : string)
    (duration : option Z) : Res (bool * option error) :=
  let d :=
    match duration with
    | None => inr (int64 (300 * time_Second))
    | Some du =>
        if du >? unlock_max then inl (Err "unlock duration too large")
        else inr (int64 (int64 du * time_Second))
    end in
  match d with
  | inl e => Ret (false, Some e)
  | inr d =>
      match fetchKeystore with
      | Ret ks =>
          let err := ks_TimedUnlock A ks addr password d in
          Ret (match err with None => true | Some _ => false end, err)
      | Panic msg => Panic msg
      | Exit msg => Exit msg
      end
  end.

End Accounts.

(** A keystore for the examples: it unlocks with the password ["secret"],
    for at most an hour. *)
Definition testAccounts : AccountLibs := {|
  acc_Address := string;
  KeyStore := unit;
  am_Backends := [tt];
  ks_TimedUnlock := fun _ _ password d =>
    if negb (String.eqb password "secret") then
      Some (Err "could not decrypt key with given passphrase")
    else if d >? 3600 * time_Second then Some (Err "too long")
    else None;
|}.

(** ** More readings of a request *)

(** The public key string of a submission, for the methods that have
    one. *)
Definition submission_PubKey (q : Submission) : option string :=
  match q with
  | SubmitDeclareCandidacy args => Some (dc_PubKey args)
  | SubmitProposeSlot args => Some (ps_PubKey args)
  | SubmitAcceptSlot _ => None
  | SubmitWithdrawSlot _ => None
  | SubmitCancelSlot args => Some (cs_PubKey args)
  end.

(** The height of a query. *)
Definition query_Height (q : Query) : Z :=
  match q with
  | AskValidators height => height
  | AskValidator _ height => height
  | AskSlots _ height => height
  | AskSlot _ height => height
  | AskDelegator _ height => height
  end.

(** More requests for the examples: a candidacy without sender, and the
    cancellation of a slot with an empty public key. *)
Definition declareNoSender : Submission :=
  SubmitDeclareCandidacy
    {| dc_Sequence := 7; dc_From := ""; dc_PubKey := "pk1" |}.

Definition cancelBadKey : Submission :=
  SubmitCancelSlot
    {| cs_Sequence := 0; cs_From := testAccount; cs_PubKey := "";
       cs_SlotId := "s1" |}.

(** A node with another chain id; with the empty one it is a node whose
    Tendermint has not started yet. *)
Definition withChainID (L : Libs) (id : string) : Libs := {|
  PubKey := PubKey L; Actor := Actor L; Address := Address L;
  Wallet := Wallet L; EthTx := EthTx L; Sig := Sig L;
  Candidate := Candidate L; Slot := Slot L; SlotDelegate := SlotDelegate L;
  ResultTx := ResultTx L; ResultBroadcastTxCommit := ResultBroadcastTxCommit L;
  chainID := id;
  client_Block := client_Block L;
  client_Tx := client_Tx L;
  client_ABCIQuery := client_ABCIQuery L;
  client_ABCIQueryWithOptions := client_ABCIQueryWithOptions L;
  client_BroadcastTxCommit := client_BroadcastTxCommit L;
  cast_ToInt64 := cast_ToInt64 L;
  hex_DecodeString := hex_DecodeString L;
  hex_EncodeToString := hex_EncodeToString L;
  cmn_StripHex := cmn_StripHex L;
  tx_Hash := tx_Hash L;
  common_HexToAddress := common_HexToAddress L;
  common_zeroAddress := common_zeroAddress L;
  address_Bytes := address_Bytes L;
  types_NewTransaction := types_NewTransaction L;
  am_Find := am_Find L;
  wallet_SignTx := wallet_SignTx L;
  stake_GetPubKey := stake_GetPubKey L;
  stake_Name := stake_Name L;
  stake_CandidatesPubKeysKey := stake_CandidatesPubKeysKey L;
  stake_GetCandidateKey := stake_GetCandidateKey L;
  stake_GetDelegatorBondsKey := stake_GetDelegatorBondsKey L;
  nonce_NameNonce := nonce_NameNonce L;
  nonce_GetSeqKey := nonce_GetSeqKey L;
  stack_PrefixedKey := stack_PrefixedKey L;
  auth_SigPerm := auth_SigPerm L;
  auth_emptySig := auth_emptySig L;
  onesig_SignBytes := onesig_SignBytes L;
  onesig_Sign := onesig_Sign L;
  commands_ParseActor := commands_ParseActor L;
  coin_ChainAddr := coin_ChainAddr L;
  client_ErrNoData := client_ErrNoData L;
  zeroCandidate := zeroCandidate L;
  zeroSlot := zeroSlot L;
  tx_ValidateBasic := tx_ValidateBasic L;
  wire_BinaryBytes := wire_BinaryBytes L;
  wire_ReadUint32 := wire_ReadUint32 L;
  wire_ReadData := wire_ReadData L;
|}.

(** A node that answers the queries with options differently. *)
Definition withQueries (L : Libs)
    (answer : string -> bytes -> ABCIQueryOptions ->
              option ResultABCIQuery * option error) : Libs := {|
  PubKey := PubKey L; Actor := Actor L; Address := Address L;
  Wallet := Wallet L; EthTx := EthTx L; Sig := Sig L;
  Candidate := Candidate L; Slot := Slot L; SlotDelegate := SlotDelegate L;
  ResultTx := ResultTx L; ResultBroadcastTxCommit := ResultBroadcastTxCommit L;
  chainID := chainID L;
  client_Block := client_Block L;
  client_Tx := client_Tx L;
  client_ABCIQuery := client_ABCIQuery L;
  client_ABCIQueryWithOptions := answer;
  client_BroadcastTxCommit := client_BroadcastTxCommit L;
  cast_ToInt64 := cast_ToInt64 L;
  hex_DecodeString := hex_DecodeString L;
  hex_EncodeToString := hex_EncodeToString L;
  cmn_StripHex := cmn_StripHex L;
  tx_Hash := tx_Hash L;
  common_HexToAddress := common_HexToAddress L;
  common_zeroAddress := common_zeroAddress L;
  address_Bytes := address_Bytes L;
  types_NewTransaction := types_NewTransaction L;
  am_Find := am_Find L;
  wallet_SignTx := wallet_SignTx L;
  stake_GetPubKey := stake_GetPubKey L;
  stake_Name := stake_Name L;
  stake_CandidatesPubKeysKey := stake_CandidatesPubKeysKey L;
  stake_GetCandidateKey := stake_GetCandidateKey L;
  stake_GetDelegatorBondsKey := stake_GetDelegatorBondsKey L;
  nonce_NameNonce := nonce_NameNonce L;
  nonce_GetSeqKey := nonce_GetSeqKey L;
  stack_PrefixedKey := stack_PrefixedKey L;
  auth_SigPerm := auth_SigPerm L;
  auth_emptySig := auth_emptySig L;
  onesig_SignBytes := onesig_SignBytes L;
  onesig_Sign := onesig_Sign L;
  commands_ParseActor := commands_ParseActor L;
  coin_ChainAddr := coin_ChainAddr L;
  client_ErrNoData := client_ErrNoData L;
  zeroCandidate := zeroCandidate L;
  zeroSlot := zeroSlot L;
  tx_ValidateBasic := tx_ValidateBasic L;
  wire_BinaryBytes := wire_BinaryBytes L;
  wire_ReadUint32 := wire_ReadUint32 L;
  wire_ReadData := wire_ReadData L;
|}.

(** The node of the examples when its queries time out. *)
Definition timedOut : Libs :=
  withQueries testLibs (fun _ _ _ => (None, Some (Err "Timed out waiting for query"))).


End ethereum.

Module commands.

(** ** The init command *)

Definition FlagChainID : string := "chain-id".

(** A [cobra.Command] with its string flags: name, default value, usage. *)
Record Flag : Type :=
  { flag_Name : string; flag_Default : string; flag_Usage : string }.

Record Command : Type :=
  { Use : string; Short : string; Flags : list Flag }.

(** [RunE] of the command is [initFiles], below. *)
Definition GetInitCmd : Command :=
  {| Use := "init";
     Short := "Initialize";
     Flags := [ {| flag_Name := FlagChainID;
                   flag_Default := "local";
                   flag_Usage := "Chain ID" |} ] |}.

Definition InitCmd : Command := GetInitCmd.

(** The double quote and the line feed. *)
Definition dq : string := String (ascii_of_nat 34) EmptyString.
Definition nl : string := String (ascii_of_nat 10) EmptyString.
Definition line (l : list string) : string := String.concat "" l +:+ nl.

Definition keystoreFileName : string :=
  "UTC--2016-10-21T22-30-03.071787745Z--7eff122b94897ea5b0e2a9abf47b86337fafebdc".

Definition keystoreContent : string :=
  String.concat "" (nl :: [
    line ["{"];
    line ["  "; dq; "address"; dq; ":"; dq; "7eff122b94897ea5b0e2a9abf47b86337fafebdc"; dq; ","];
    line ["  "; dq; "id"; dq; ":"; dq; "f86a62b4-0621-4616-99af-c4b7f38fcc48"; dq; ","; dq; "version"; dq; ":3,"];
    line ["  "; dq; "crypto"; dq; ":{"];
    line ["    "; dq; "cipher"; dq; ":"; dq; "aes-128-ctr"; dq; ","; dq; "ciphertext"; dq; ":"; dq; "19de8a919e2f4cbdde2b7352ebd0be8ead2c87db35fc8e4c9acaf74aaaa57dad"; dq; ","];
    line ["    "; dq; "cipherparams"; dq; ":{"; dq; "iv"; dq; ":"; dq; "ba2bd370d6c9d5845e92fbc6f951c792"; dq; "},"];
    line ["    "; dq; "kdf"; dq; ":"; dq; "scrypt"; dq; ","; dq; "kdfparams"; dq; ":{"; dq; "dklen"; dq; ":32,"; dq; "n"; dq; ":262144,"; dq; "p"; dq; ":1,"; dq; "r"; dq; ":8,"; dq; "salt"; dq; ":"; dq; "c7cc2380a96adc9eb31d20bd8d8a7827199e8b16889582c0b9089da6a9f58e84"; dq; "},"];
    line ["    "; dq; "mac"; dq; ":"; dq; "ff2c0caf051ca15d8c43b6f321ec10bd99bd654ddcf12dd1a28f730cc3c13730"; dq];
    line ["  }"];
    line ["}"]
  ]).

Definition keystoreFilesMap : gmap string string :=
  {[ keystoreFileName := keystoreContent ]}.

(** [types.GenesisValidator] and [types.GenesisDoc], the fields the command
    sets; the others keep their zero values. *)
Record GenesisValidator (PubKey : Type) : Type :=
  { gv_PubKey : PubKey; gv_Power : Z }.

Arguments gv_PubKey {PubKey} g.
Arguments gv_Power {PubKey} g.

Record GenesisDoc (PubKey : Type) : Type :=
  { gd_ChainID : string; gd_Validators : list (GenesisValidator PubKey) }.

Arguments gd_ChainID {PubKey} g.
Arguments gd_Validators {PubKey} g.

(** The operations on the file system that can fail. *)
Inductive IoOp : Type :=
  | OpWriteFile (path : string)      (* ioutil.WriteFile, of Save and SaveAs *)
  | OpOpenDb (path : string)         (* ethdb.NewLDBDatabase *)
  | OpMkdirAll (path : string)       (* os.MkdirAll *)
  | OpCreate (path : string)         (* os.Create *)
  | OpWrite (path : string)          (* f.Write *)
  | OpClose (path : string).         (* f.Close *)

(** The configuration, the libraries and the machine the command runs on. *)
Record InitLibs : Type := {
  (* carriers *)
  PrivValidatorFS : Type;   (* types.PrivValidatorFS *)
  PubKey : Type;            (* crypto.PubKey *)
  Genesis : Type;           (* core.Genesis *)
  ChainDb : Type;           (* the contents of a LevelDB database *)
  Hash : Type;              (* common.Hash *)
  (* configuration and command line *)
  PrivValidatorFile : string;         (* config.TMConfig.PrivValidatorFile() *)
  GenesisFile : string;               (* config.TMConfig.GenesisFile() *)
  viper_GetString : string -> string;
  genesisPath : string;               (* context.Args().First() *)
  EthChainId : Z;                     (* uint64(config.EMConfig.EthChainId) *)
  MakeDataDir : string;               (* emtUtils.MakeDataDir(context) *)
  (* tendermint/types *)
  newPrivValidator : nat -> PrivValidatorFS;    (* key generation from entropy *)
  privValidator_JSON : PrivValidatorFS -> string;
  privValidator_parse : string -> option PrivValidatorFS;
  GetPubKey : PrivValidatorFS -> PubKey;
  genesisDoc_JSON : GenesisDoc PubKey -> string;
  (* go-ethereum and modules/vm/cmd/utils *)
  ParseGenesisOrDefault : string -> Genesis * option error;
  (* genesis.Config.ChainId = id; [None] when genesis.Config is nil *)
  genesis_setChainId : Genesis -> Z -> option Genesis;
  emptyDb : ChainDb;
  SetupGenesisBlock : ChainDb -> Genesis -> ChainDb * Hash * option error;
  hash_String : Hash -> string;
  (* path/filepath and the operating system *)
  filepath_Join : string -> string -> string;
  io_fails : IoOp -> option error;
}.

(** The machine: files by path, the directories made, the databases by
    path, the entropy consumed by key generation, and the log. *)
Record World (ChainDb : Type) : Type := {
  files : gmap string string;
  dirs : gset string;
  dbs : gmap string ChainDb;
  entropy : nat;
  logs : list string;
}.

Arguments files {ChainDb} w.
Arguments dirs {ChainDb} w.
Arguments dbs {ChainDb} w.
Arguments entropy {ChainDb} w.
Arguments logs {ChainDb} w.

Section Init.

Context (L : InitLibs).

Abbreviation world := (World (ChainDb L)).
Abbreviation m := (M world).

Definition set_files (f : gmap string string) (w : world) : world :=
  {| files := f; dirs := dirs w; dbs := dbs w; entropy := entropy w;
     logs := logs w |}.

Definition set_dbs (d : gmap string (ChainDb L)) (w : world) : world :=
  {| files := files w; dirs := dirs w; dbs := d; entropy := entropy w;
     logs := logs w |}.

(** [logger.Info], [log.Info] and [log.Error]. *)
Definition logInfo (msg : string) : m unit :=
  fun w =>
    (Ret tt,
     {| files := files w; dirs := dirs w; dbs := dbs w; entropy := entropy w;
        logs := logs w ++ [msg] |}).

Definition logError (msg : string) : m unit := logInfo msg.

(** [ethUtils.Fatalf]: print and [os.Exit(1)]. *)
Definition Fatalf {A} (msg : string) : m A := exit msg.

Definition error_msg (e : error) : string := let (msg) := e in msg.

(** [cmn.FileExists]. *)
Definition FileExists (path : string) : m bool :=
  fun w => (Ret (bool_decide (is_Some (files w !! path))), w).

(** [ioutil.WriteFile]: the file holds [content] afterwards.  What a
    write that fails leaves at [path] (no file, an empty one or a part of
    [content]) depends on where it fails and is not modelled: the failure
    is taken to leave the disk as it was, and no property below speaks of
    the file of a failed write. *)
Definition WriteFile (path content : string) : m (option error) :=
  fun w =>
    match io_fails L (OpWriteFile path) with
    | Some e => (Ret (Some e), w)
    | None => (Ret None, set_files (<[path := content]> (files w)) w)
    end.

(** [types.LoadPrivValidatorFS]: reads and parses the file, and exits the
    process when either fails.  It writes nothing. *)
Definition LoadPrivValidatorFS (path : string) : m (PrivValidatorFS L) :=
  fun w =>
    match files w !! path with
    | None => (Exit "no such file or directory", w)
    | Some c =>
        match privValidator_parse L c with
        | None => (Exit "Error reading PrivValidator", w)
        | Some pv => (Ret pv, w)
        end
    end.

(** [types.GenPrivValidatorFS]: a new key, from fresh entropy. *)
Definition GenPrivValidatorFS (path : string) : m (PrivValidatorFS L) :=
  fun w =>
    (Ret (newPrivValidator L (entropy w)),
     {| files := files w; dirs := dirs w; dbs := dbs w;
        entropy := S (entropy w); logs := logs w |}).

(** [privValidator.Save]: writes the validator to its file and panics when
    the write fails. *)
Definition Save (pv : PrivValidatorFS L) (path : string) : m unit :=
  err <- WriteFile path (privValidator_JSON L pv) ;;
  match err with
  | Some e => panic (error_msg e)
  | None => ret tt
  end.

(** [genDoc.SaveAs]. *)
Definition SaveAs (genDoc : GenesisDoc (PubKey L)) (file : string)
  : m (option error) :=
  WriteFile file (genesisDoc_JSON L genDoc).

Definition initTendermint : m unit :=
  (* private validator *)
  let privValFile := PrivValidatorFile L in
  exists_ <- FileExists privValFile ;;
  privValidator <-
    (if exists_ : bool then
       pv <- LoadPrivValidatorFS privValFile ;;
       _ <- logInfo ("Found private validator path=" +:+ privValFile) ;;
       ret pv
     else
       pv <- GenPrivValidatorFS privValFile ;;
       _ <- Save pv privValFile ;;
       _ <- logInfo ("Genetated private validator path=" +:+ privValFile) ;;
       ret pv) ;;
  (* genesis file *)
  let genFile := GenesisFile L in
  exists_ <- FileExists genFile ;;
  if exists_ : bool then
    logInfo ("Found genesis file path=" +:+ genFile)
  else
    let genDoc : GenesisDoc (PubKey L) :=
      {| gd_ChainID := viper_GetString L FlagChainID; gd_Validators := [] |} in
    let genDoc :=
      {| gd_ChainID := gd_ChainID genDoc;
         gd_Validators :=
           [ {| gv_PubKey := GetPubKey L privValidator; gv_Power := 10 |} ] |} in
    err <- SaveAs genDoc genFile ;;
    match err with
    | Some e => panic (error_msg e)
    | None => logInfo ("Genetated genesis file path=" +:+ genFile)
    end.

(** [ethdb.NewLDBDatabase]: opens the database at [path], creating an
    empty one when there is none.  The handle is the path. *)
Definition NewLDBDatabase (path : string) : m (string * option error) :=
  fun w =>
    match io_fails L (OpOpenDb path) with
    | Some e => (Ret (path, Some e), w)
    | None =>
        match dbs w !! path with
        | Some _ => (Ret (path, None), w)
        | None => (Ret (path, None), set_dbs (<[path := emptyDb L]> (dbs w)) w)
        end
    end.

(** [core.SetupGenesisBlock] on an open database: the library updates the
    contents of the database in place. *)
Definition core_SetupGenesisBlock (chainDb : string) (genesis : Genesis L)
  : m (Hash L * option error) :=
  fun w =>
    match dbs w !! chainDb with
    | None => (Panic nil_dereference, w)
    | Some db =>
        let '(db', hash, err) := SetupGenesisBlock L db genesis in
        (Ret (hash, err), set_dbs (<[chainDb := db']> (dbs w)) w)
    end.

Definition MkdirAll (path : string) : m (option error) :=
  fun w =>
    match io_fails L (OpMkdirAll path) with
    | Some e => (Ret (Some e), w)
    | None =>
        (Ret None,
         {| files := files w; dirs := {[ path ]} ∪ dirs w; dbs := dbs w;
            entropy := entropy w; logs := logs w |})
    end.

(** [os.Create]: the file exists and is empty afterwards.  The handle is
    the path. *)
Definition os_Create (name : string) : m (string * option error) :=
  fun w =>
    match io_fails L (OpCreate name) with
    | Some e => (Ret (name, Some e), w)
    | None => (Ret (name, None), set_files (<[name := ""]> (files w)) w)
    end.

(** [f.Write]: appends to what the file holds.  A write that fails may
    have written a part of [content]; that part is not modelled, and no
    property below speaks of the contents after a failed write. *)
Definition file_Write (f : string) (content : string) : m (option error) :=
  fun w =>
    match io_fails L (OpWrite f) with
    | Some e => (Ret (Some e), w)
    | None =>
        (Ret None,
         set_files (<[f := default "" (files w !! f) +:+ content]> (files w)) w)
    end.

Definition file_Close (f : string) : m (option error) :=
  fun w => (Ret (io_fails L (OpClose f)), w).

(** The loop over [keystoreFilesMap]: [Some err] when the loop returns
    [err], [None] when it runs to its end. *)
Fixpoint seedKeystore (keystoreDir : string) (entries : list (string * string))
  : m (option error) :=
  match entries with
  | [] => ret None
  | (filename, content) :: rest =>
      let storeFileName := filepath_Join L keystoreDir filename in
      c <- os_Create storeFileName ;;
      match snd c with
      | Some e =>
          _ <- logError ("create " +:+ storeFileName +:+ " err: " +:+ error_msg e) ;;
          seedKeystore keystoreDir rest
      | None =>
          let f := fst c in
          werr <- file_Write f content ;;
          _ <- match werr with
               | Some e =>
                   logError ("write content " +:+ storeFileName +:+ " err: "
                            +:+ error_msg e)
               | None => ret tt
               end ;;
          cerr <- file_Close f ;;
          match cerr with
          | Some e => ret (Some e)
          | None => seedKeystore keystoreDir rest
          end
      end
  end.

Definition initEthermint : m (option error) :=
  let genesisPath := genesisPath L in
  let (genesis, err) := ParseGenesisOrDefault L genesisPath in
  match err with
  | Some e => Fatalf ("genesisJSON err: " +:+ error_msg e)
  | None =>
      (* override ethermint's chain_id *)
      match genesis_setChainId L genesis (EthChainId L) with
      | None => panic nil_dereference
      | Some genesis =>
          let ethermintDataDir := MakeDataDir L in
          db <- NewLDBDatabase (filepath_Join L ethermintDataDir "vm/chaindata") ;;
          match snd db with
          | Some e => Fatalf ("could not open database: " +:+ error_msg e)
          | None =>
              let chainDb := fst db in
              g <- core_SetupGenesisBlock chainDb genesis ;;
              match snd g with
              | Some e => Fatalf ("failed to write genesis block: " +:+ error_msg e)
              | None =>
                  _ <- logInfo ("successfully wrote genesis block and/or chain rule set hash="
                                +:+ hash_String L (fst g)) ;;
                  let keystoreDir := filepath_Join L ethermintDataDir "keystore" in
                  err <- MkdirAll keystoreDir ;;
                  match err with
                  | Some e => Fatalf ("mkdirAll keyStoreDir: " +:+ error_msg e)
                  | None =>
                      r <- seedKeystore keystoreDir (map_to_list keystoreFilesMap) ;;
                      match r with
                      | Some e => ret (Some e)
                      | None => ret None
                      end
                  end
              end
          end
      end
  end.

Definition initFiles : m (option error) :=
  _ <- initTendermint ;;
  initEthermint.

(** *** Reading a run *)

(** The private validator of a run that starts in [w]: the one of the
    file when there is a file, a new one otherwise. *)
Definition privValidatorOf (w : world) : option (PrivValidatorFS L) :=
  match files w !! PrivValidatorFile L with
  | Some c => privValidator_parse L c
  | None => Some (newPrivValidator L (entropy w))
  end.

(** The paths of the chain database and of the keystore. *)
Definition chaindataPath : string :=
  filepath_Join L (MakeDataDir L) "vm/chaindata".

Definition keystoreDir : string :=
  filepath_Join L (MakeDataDir L) "keystore".

Definition keystorePath : string :=
  filepath_Join L keystoreDir keystoreFileName.

(** Whether the loop over the keystore files logs an error for an entry:
    creating its file fails, or writing it does. *)
Definition seedFailed (dir : string) (entry : string * string) : bool :=
  match io_fails L (OpCreate (filepath_Join L dir (fst entry))) with
  | Some _ => true
  | None =>
      match io_fails L (OpWrite (filepath_Join L dir (fst entry))) with
      | Some _ => true
      | None => false
      end
  end.

End Init.

(** ** A machine for the examples

    A private validator is the number it was generated from, the genesis
    of the execution layer is a name and a chain id, a chain database is
    the list of its blocks, and no operation fails. *)

Fixpoint strip_prefix (p s : string) : option string :=
  match p, s with
  | EmptyString, _ => Some s
  | String a p', String b s' =>
      if Ascii.eqb a b then strip_prefix p' s' else None
  | String _ _, EmptyString => None
  end.

Definition testInit : InitLibs := {|
  PrivValidatorFS := nat;
  PubKey := string;
  Genesis := string * Z;
  ChainDb := list string;
  Hash := string;
  PrivValidatorFile := "/travis/priv_validator.json";
  GenesisFile := "/travis/genesis.json";
  viper_GetString := fun key => if String.eqb key "chain-id" then "local" else "";
  genesisPath := "";
  EthChainId := 111;
  MakeDataDir := "/travis";
  newPrivValidator := fun n => n;
  privValidator_JSON := fun pv => "validator " +:+ Sprintf_d (Z.of_nat pv);
  privValidator_parse := fun c =>
    match strip_prefix "validator " c with
    | Some n => Z.to_nat <$> decimal_value 0 n
    | None => None
    end;
  GetPubKey := fun pv => "pubkey " +:+ Sprintf_d (Z.of_nat pv);
  genesisDoc_JSON := fun g =>
    "genesis " +:+ gd_ChainID g +:+ ":"
    +:+ String.concat ","
          (map (fun v => gv_PubKey v +:+ "=" +:+ Sprintf_d_signed (gv_Power v))
               (gd_Validators g));
  ParseGenesisOrDefault := fun _ => (("default", 0), None);
  genesis_setChainId := fun g id => Some (fst g, id);
  emptyDb := [];
  SetupGenesisBlock := fun db g =>
    match db with
    | [] => (["genesis " +:+ fst g +:+ " " +:+ Sprintf_d_signed (snd g)], "h0", None)
    | _ => (db, "h0", None)
    end;
  hash_String := fun h => h;
  filepath_Join := fun a b => a +:+ "/" +:+ b;
  io_fails := fun _ => None;
|}.

(** The machine of the examples with other failures. *)
Definition withFaults (L : InitLibs) (fails : IoOp -> option error)
  : InitLibs := {|
  PrivValidatorFS := PrivValidatorFS L; PubKey := PubKey L;
  Genesis := Genesis L; ChainDb := ChainDb L; Hash := Hash L;
  PrivValidatorFile := PrivValidatorFile L;
  GenesisFile := GenesisFile L;
  viper_GetString := viper_GetString L;
  genesisPath := genesisPath L;
  EthChainId := EthChainId L;
  MakeDataDir := MakeDataDir L;
  newPrivValidator := newPrivValidator L;
  privValidator_JSON := privValidator_JSON L;
  privValidator_parse := privValidator_parse L;
  GetPubKey := GetPubKey L;
  genesisDoc_JSON := genesisDoc_JSON L;
  ParseGenesisOrDefault := ParseGenesisOrDefault L;
  genesis_setChainId := genesis_setChainId L;
  emptyDb := emptyDb L;
  SetupGenesisBlock := SetupGenesisBlock L;
  hash_String := hash_String L;
  filepath_Join := filepath_Join L;
  io_fails := fails;
|}.

(** A read-only keystore directory: no file can be created. *)
Definition readOnlyKeystore : InitLibs :=
  withFaults testInit
    (fun op => match op with
               | OpCreate _ => Some (Err "permission denied")
               | _ => None
               end).

(** The machine of the examples with another [SetupGenesisBlock]. *)
Definition withSetup (L : InitLibs)
    (setup : ChainDb L -> Genesis L -> ChainDb L * Hash L * option error)
  : InitLibs := {|
  PrivValidatorFS := PrivValidatorFS L; PubKey := PubKey L;
  Genesis := Genesis L; ChainDb := ChainDb L; Hash := Hash L;
  PrivValidatorFile := PrivValidatorFile L;
  GenesisFile := GenesisFile L;
  viper_GetString := viper_GetString L;
  genesisPath := genesisPath L;
  EthChainId := EthChainId L;
  MakeDataDir := MakeDataDir L;
  newPrivValidator := newPrivValidator L;
  privValidator_JSON := privValidator_JSON L;
  privValidator_parse := privValidator_parse L;
  GetPubKey := GetPubKey L;
  genesisDoc_JSON := genesisDoc_JSON L;
  ParseGenesisOrDefault := ParseGenesisOrDefault L;
  genesis_setChainId := genesis_setChainId L;
  emptyDb := emptyDb L;
  SetupGenesisBlock := setup;
  hash_String := hash_String L;
  filepath_Join := filepath_Join L;
  io_fails := io_fails L;
|}.

(** A machine whose chain database holds another genesis block:
    [SetupGenesisBlock] refuses a database that is not empty. *)
Definition otherGenesis : InitLibs :=
  withSetup testInit
    (fun db g =>
       match db with
       | [] => (["genesis " +:+ fst g +:+ " " +:+ Sprintf_d_signed (snd g)],
                "h0", None)
       | _ => (db, "", Some (Err "database already contains an incompatible genesis block"))
       end).

(** Failures for the examples: every [f.Write] fails; and, in a directory
    [/k], the file [a] cannot be created and the file [b] cannot be
    written. *)
Definition writeFails (op : IoOp) : option error :=
  match op with
  | OpWrite _ => Some (Err "input/output error")
  | _ => None
  end.

Definition flakyKeystore : InitLibs :=
  withFaults testInit
    (fun op => match op with
               | OpCreate p =>
                   if String.eqb p "/k/a" then Some (Err "permission denied")
                   else None
               | OpWrite p =>
                   if String.eqb p "/k/b" then Some (Err "input/output error")
                   else None
               | _ => None
               end).

Definition threeKeys : list (string * string) :=
  [("a", "1"); ("b", "2"); ("c", "3")].

(** A machine on which the chain database cannot be opened. *)
Definition noDatabase : InitLibs :=
  withFaults testInit
    (fun op => match op with
               | OpOpenDb _ => Some (Err "resource temporarily unavailable")
               | _ => None
               end).

(** A disk that fills up after the first file: the genesis file cannot be
    written. *)
Definition diskFull : InitLibs :=
  withFaults testInit
    (fun op => match op with
               | OpWriteFile path =>
                   if String.eqb path "/travis/genesis.json"
                   then Some (Err "no space left on device") else None
               | _ => None
               end).

(** A machine with no file and no database. *)
Definition w0 : World (list string) :=
  {| files := ∅; dirs := ∅; dbs := ∅; entropy := 0; logs := [] |}.

(** That machine after a run of the init command. *)
Definition w1 : World (list string) := snd (initFiles testInit w0).

(** A machine whose chain database is not empty. *)
Definition populated : World (list string) :=
  {| files := ∅; dirs := ∅;
     dbs := {[ "/travis/vm/chaindata" := ["genesis mainnet"] ]};
     entropy := 0; logs := [] |}.

(** A machine whose private validator file is damaged. *)
Definition damaged : World (list string) :=
  {| files := {[ "/travis/priv_validator.json" := "???" ]}; dirs := ∅;
     dbs := ∅; entropy := 0; logs := [] |}.

End commands.

(** * Properties *)

(** ** Decimal formatting *)

Lemma append_String_assoc (a b c : string) : (a +:+ b) +:+ c = a +:+ (b +:+ c).
Proof.
  induction a as [|x a IH]; [reflexivity|].
  change (String x ((a +:+ b) +:+ c) = String x (a +:+ b +:+ c)).
  now rewrite IH.
Qed.

Lemma formatBits_acc (fuel : nat) : forall (u : Z) (acc : string),
  formatBits fuel u acc = formatBits fuel u "" +:+ acc.
Proof.
  induction fuel as [|fuel IH]; intros u acc; simpl; [reflexivity|].
  destruct (u <? 10); [reflexivity|].
  rewrite (IH _ (String _ acc)), (IH _ (String _ "")).
  now rewrite append_String_assoc.
Qed.

Lemma decimal_value_app (s1 s2 : string) : forall k,
  decimal_value k (s1 +:+ s2) =
  match decimal_value k s1 with
  | Some k' => decimal_value k' s2
  | None => None
  end.
Proof.
  induction s1 as [|c s1 IH]; intros k; simpl; [reflexivity|].
  destruct (digit_value c); [apply IH | reflexivity].
Qed.

Lemma digit_value_digit (d : Z) : 0 <= d < 10 -> digit_value (digit d) = Some d.
Proof.
  intros H.
  assert (d = 0 \/ d = 1 \/ d = 2 \/ d = 3 \/ d = 4 \/ d = 5 \/ d = 6 \/
          d = 7 \/ d = 8 \/ d = 9) as Hd by lia.
  repeat (destruct Hd as [-> | Hd]; [reflexivity|]). now subst.
Qed.

Lemma digit_nonzero (d : Z) : 0 < d < 10 -> digit d <> "0"%char.
Proof.
  intros H.
  assert (d = 1 \/ d = 2 \/ d = 3 \/ d = 4 \/ d = 5 \/ d = 6 \/
          d = 7 \/ d = 8 \/ d = 9) as Hd by lia.
  repeat (destruct Hd as [-> | Hd]; [discriminate|]). now subst.
Qed.

Lemma formatBits_value (fuel : nat) : forall u,
  0 <= u < 10 ^ Z.of_nat fuel ->
  exists n, 0 <= n /\
    forall k, decimal_value k (formatBits fuel u "") = Some (k * 10 ^ n + u).
Proof.
  induction fuel as [|fuel IH]; intros u Hu.
  - exists 0. split; [lia|]. intros k. cbn [formatBits decimal_value].
    change (Z.of_nat 0) with 0 in Hu. f_equal. lia.
  - cbn [formatBits]. destruct (Z.ltb_spec u 10) as [Hlt|Hge].
    + exists 1. split; [lia|]. intros k. cbn [decimal_value].
      rewrite digit_value_digit by lia. reflexivity.
    + assert (0 <= u / 10 < 10 ^ Z.of_nat fuel) as Hq.
      { rewrite Nat2Z.inj_succ, Z.pow_succ_r in Hu by lia.
        split; [apply Z.div_pos; lia | apply Z.div_lt_upper_bound; lia]. }
      destruct (IH _ Hq) as (n & Hn & Hval).
      exists (n + 1). split; [lia|]. intros k.
      rewrite formatBits_acc, decimal_value_app, Hval. cbn [decimal_value].
      rewrite digit_value_digit by (apply Z.mod_pos_bound; lia).
      f_equal. rewrite Z.pow_add_r by lia.
      pose proof (Z.div_mod u 10). lia.
Qed.

Lemma formatBits_head (fuel : nat) : forall u acc,
  0 < u < 10 ^ Z.of_nat fuel ->
  exists c rest, formatBits fuel u acc = String c rest /\ c <> "0"%char.
Proof.
  induction fuel as [|fuel IH]; intros u acc Hu.
  - change (Z.of_nat 0) with 0 in Hu. lia.
  - cbn [formatBits]. destruct (Z.ltb_spec u 10) as [Hlt|Hge].
    + eexists _, _. split; [reflexivity|]. apply digit_nonzero. lia.
    + apply IH.
      rewrite Nat2Z.inj_succ, Z.pow_succ_r in Hu by lia.
      split; [apply Z.div_str_pos; lia | apply Z.div_lt_upper_bound; lia].
Qed.

Lemma Sprintf_d_value (u : Z) :
  0 <= u < 2 ^ 64 -> decimal_value 0 (Sprintf_d u) = Some u.
Proof.
  intros Hu. unfold Sprintf_d.
  destruct (formatBits_value 20 u) as (n & _ & Hval).
  { change (Z.of_nat 20) with 20. lia. }
  rewrite Hval. reflexivity.
Qed.

Lemma Sprintf_d_canonical (u : Z) :
  0 <= u < 2 ^ 64 -> canonical (Sprintf_d u) = true.
Proof.
  intros Hu. destruct (Z.eq_dec u 0) as [->|Hne]; [reflexivity|].
  unfold Sprintf_d.
  destruct (formatBits_head 20 u "") as (c & rest & -> & Hc).
  { change (Z.of_nat 20) with 20. lia. }
  cbn [canonical]. destruct rest; [reflexivity|].
  apply negb_true_iff, Ascii.eqb_neq, Hc.
Qed.

(** C8.  The net service is constant: for every service and every call,
    [Listening] is [true], [PeerCount] is [0], and [Version] is the decimal
    rendering of the [networkVersion] the service was made with: a
    canonical numeral (digits only, no leading zero) whose value is
    [networkVersion]. *)
Theorem net_service_constant (networkVersion : Z) :
  0 <= networkVersion < 2 ^ 64 ->
  let s := ethereum.NewNetRPCService networkVersion in
  ethereum.Listening s = true /\
  ethereum.PeerCount s = 0 /\
  decimal_value 0 (ethereum.Version s) = Some networkVersion /\
  canonical (ethereum.Version s) = true.
Proof.
  intros H s. split; [reflexivity|]. split; [reflexivity|]. split.
  - now apply Sprintf_d_value.
  - now apply Sprintf_d_canonical.
Qed.

Lemma net_service_constant_witness :
  0 <= 15 < 2 ^ 64 /\
  (let s := ethereum.NewNetRPCService 15 in
   ethereum.Listening s = true /\
   ethereum.PeerCount s = 0 /\
   decimal_value 0 (ethereum.Version s) = Some 15 /\
   canonical (ethereum.Version s) = true).
Proof.
  split; [lia | apply (net_service_constant 15); lia].
Defined.
(** ** The stake submission methods *)

Lemma uint32_range (v : Z) : 0 <= uint32 v < 2 ^ 32.
Proof. unfold uint32. apply Z.mod_pos_bound. lia. Qed.

(** [sequence + 1] wraps at the largest [uint32]. *)
Example uint32_successor_wraps : uint32 (4294967295 + 1) = 0.
Proof. reflexivity. Qed.

Local Open Scope list_scope.

Section SubmissionProperties.

Import ethereum.

Context (L : Libs).

Abbreviation onesig_t := (OneSig (PubKey L) (Actor L) (Sig L)).
Abbreviation tx_t := (Tx (PubKey L) (Actor L)).

Lemma lookup_alloc (h : list onesig_t) (o : onesig_t) :
  (h ++ [o]) !! length h = Some o.
Proof. now apply list_lookup_middle. Qed.

Lemma insert_alloc (h : list onesig_t) (o o' : onesig_t) :
  <[length h := o']> (h ++ [o]) = h ++ [o'].
Proof.
  rewrite insert_app_r_alt by lia. now rewrite Nat.sub_diag.
Qed.

Lemma broadcasts_snoc (cs : list Call) (c : Call) :
  broadcasts (cs ++ [c]) =
  broadcasts cs ++ match c with CallBroadcastTxCommit tx => [tx] | _ => [] end.
Proof. unfold broadcasts. rewrite omap_app. now destruct c. Qed.

(** What [getSequence] does: one query of the nonce key; nothing is
    allocated or broadcast; when it returns no error, the pointer holds the
    decoded value, or is left alone when the key holds nothing. *)
Lemma getSequence_inv (signers : list (Actor L)) (sequence : Z) s out s' :
  getSequence L signers sequence s = (out, s') ->
  heap s' = heap s /\
  broadcasts (calls s') = broadcasts (calls s) /\
  forall v, out = Ret (None, v) ->
    exists r,
      client_ABCIQuery L "/key"
        (stack_PrefixedKey L (nonce_NameNonce L) (nonce_GetSeqKey L signers))
      = (Some r, None) /\
      (Value (Response r) = [] -> v = sequence) /\
      (Value (Response r) <> [] ->
       exists v0, wire_ReadUint32 L (Value (Response r)) = (v0, None) /\
                  v = uint32 v0).
Proof.
  unfold getSequence, bind, called, ret, panic. cbn [heap calls].
  intros H.
  destruct (client_ABCIQuery L _ _) as [result err] eqn:Hq.
  assert (forall cs, broadcasts (cs ++ [CallABCIQuery "/key"
            (stack_PrefixedKey L (nonce_NameNonce L) (nonce_GetSeqKey L signers))])
          = broadcasts cs) as Hb.
  { intros cs. now rewrite broadcasts_snoc, app_nil_r. }
  destruct err as [e|].
  { inversion H; subst; clear H. cbn [heap calls].
    split; [reflexivity|]. split; [apply Hb|]. discriminate. }
  destruct result as [r|].
  2:{ inversion H; subst; clear H. cbn [heap calls].
      split; [reflexivity|]. split; [apply Hb|]. discriminate. }
  destruct (Value (Response r)) as [|b bs] eqn:Hv; cbn [length Nat.eqb] in H.
  - inversion H; subst; clear H. cbn [heap calls].
    split; [reflexivity|]. split; [apply Hb|].
    intros v [= <-]. exists r. rewrite Hv.
    split; [reflexivity|]. split; [reflexivity|congruence].
  - destruct (wire_ReadUint32 L (b :: bs)) as [v0 err] eqn:Hr.
    inversion H; subst; clear H. cbn [heap calls].
    split; [reflexivity|]. split; [apply Hb|].
    intros v [= -> <-]. exists r. rewrite Hv.
    split; [reflexivity|]. split; [discriminate|]. intros _. now exists v0.
Qed.

(** What [sign] does on the object at [r]: no call to the client; it
    panics when the account has no wallet; when it returns no error, the
    wallet of [address] has signed the sign bytes of the object and
    [data.Sign] has filled in the signature state, in place. *)
Lemma sign_inv (r : nat) (address : string) (data : onesig_t) s out s' :
  heap s !! r = Some data ->
  sign L r address s = (out, s') ->
  calls s' = calls s /\
  (fst (am_Find L (common_HexToAddress L address)) = None ->
   out = Panic nil_dereference /\ s' = s) /\
  (out = Ret None ->
   exists w signed sg,
     let addr := common_HexToAddress L address in
     fst (am_Find L addr) = Some w /\
     wallet_SignTx L w addr
       (types_NewTransaction L 0 (common_zeroAddress L) 0 0 0
          (onesig_SignBytes L data)) 15 = (signed, None) /\
     onesig_Sign L data signed = (sg, None) /\
     heap s' = <[r := {| os_Tx := os_Tx data; os_Sig := sg |}]> (heap s)).
Proof.
  intros Hr. unfold sign, bind, deref, store, ret, panic. rewrite Hr.
  destruct (am_Find L _) as [wallet e0] eqn:Hf. cbn [fst].
  destruct wallet as [w|].
  2:{ intros [= <- <-]. repeat split; discriminate. }
  destruct (wallet_SignTx L w _ _ 15) as [signed err] eqn:Hw.
  destruct err as [e|].
  { intros [= <- <-]. repeat split; discriminate. }
  destruct (onesig_Sign L data signed) as [sg err] eqn:Hs.
  intros [= <- <-]. cbn [heap calls].
  split; [reflexivity|]. split; [discriminate|].
  intros [= ->]. now exists w, signed, sg.
Qed.

(** What [signTx] does on a signature wrapper. *)
Lemma signTx_inv (r : nat) (address : string) (data : onesig_t) s out s' :
  heap s !! r = Some data ->
  signTx L (SigTx r) address s = (out, s') ->
  calls s' = calls s /\
  (out = Ret None ->
   exists w signed sg,
     let addr := common_HexToAddress L address in
     address <> "" /\
     tx_ValidateBasic L (heap s) (SigTx r) = None /\
     fst (am_Find L addr) = Some w /\
     wallet_SignTx L w addr
       (types_NewTransaction L 0 (common_zeroAddress L) 0 0 0
          (onesig_SignBytes L data)) 15 = (signed, None) /\
     onesig_Sign L data signed = (sg, None) /\
     heap s' = <[r := {| os_Tx := os_Tx data; os_Sig := sg |}]> (heap s)).
Proof.
  intros Hr. unfold signTx, get_heap. unfold bind at 1.
  destruct (tx_ValidateBasic L (heap s) (SigTx r)) as [e|] eqn:Hv.
  { intros [= <- <-]. split; [reflexivity | discriminate]. }
  destruct (String.eqb_spec address "") as [->|Hne].
  { intros [= <- <-]. split; [reflexivity | discriminate]. }
  unfold bind. destruct (sign L r address s) as [o1 s1] eqn:Hs.
  apply (sign_inv _ _ _ _ _ _ Hr) in Hs as (Hc & _ & Hok).
  destruct o1 as [[e|]|msg|msg]; intros [= <- <-]; (split; [exact Hc|]);
    try discriminate.
  intros _. destruct (Hok eq_refl) as (w & signed & sg & H1 & H2 & H3 & H4).
  exists w, signed, sg. cbn zeta. auto 10.
Qed.

(** The end of [wrapAndSignTx]: wrapping in a signature wrapper and
    signing. *)
Lemma wrap_sign_inv (inner : tx_t) (address : string) s out s' :
  (tx <- auth_NewSig_Wrap L inner ;;
   err <- signTx L tx address ;;
   match err with
   | Some e => ret (EmptyTx, Some e)
   | None => ret (tx, err)
   end) s = (out, s') ->
  calls s' = calls s /\
  forall t, out = Ret (t, None) ->
    exists w signed sg,
      let unsigned := {| os_Tx := inner; os_Sig := auth_emptySig L |} in
      let addr := common_HexToAddress L address in
      t = SigTx (length (heap s)) /\
      heap s' = heap s ++ [ {| os_Tx := inner; os_Sig := sg |} ] /\
      address <> "" /\
      tx_ValidateBasic L (heap s ++ [unsigned]) (SigTx (length (heap s))) = None /\
      fst (am_Find L addr) = Some w /\
      wallet_SignTx L w addr
        (types_NewTransaction L 0 (common_zeroAddress L) 0 0 0
           (onesig_SignBytes L unsigned)) 15 = (signed, None) /\
      onesig_Sign L unsigned signed = (sg, None).
Proof.
  unfold auth_NewSig_Wrap, alloc. unfold bind at 1 2. unfold ret at 1.
  unfold bind.
  set (s1 := {| heap := heap s ++ [ {| os_Tx := inner; os_Sig := auth_emptySig L |} ];
                calls := calls s |}).
  destruct (signTx L (SigTx (length (heap s))) address s1) as [o1 s2] eqn:Hs.
  apply (signTx_inv _ _ {| os_Tx := inner; os_Sig := auth_emptySig L |}) in Hs
    as (Hc & Hok); [|apply lookup_alloc].
  destruct o1 as [[e|]|msg|msg]; intros [= <- <-]; (split; [exact Hc|]);
    try discriminate.
  intros t [= <-].
  destruct (Hok eq_refl) as (w & signed & sg & H1 & H2 & H3 & H4 & H5 & H6).
  exists w, signed, sg. cbn zeta. cbn [os_Tx heap s1] in *.
  rewrite insert_alloc in H6. auto 10.
Qed.

(** What [wrapAndSignTx] does.  It never broadcasts.  When it returns no
    error, the transaction it returns points to a new [OneSig] object that
    wraps [tx] in a nonce, a chain and a signature wrapper and holds the
    signature made by the wallet of [address]. *)
Lemma wrapAndSignTx_inv (tx : tx_t) (address : string) (sequence : Z) s out s' :
  wrapAndSignTx L tx address sequence s = (out, s') ->
  broadcasts (calls s') = broadcasts (calls s) /\
  forall t, out = Ret (t, None) -> Prepared L tx address sequence s s' t.
Proof.
  unfold wrapAndSignTx. unfold bind at 1. intros H.
  assert (forall seq s1,
    heap s1 = heap s -> broadcasts (calls s1) = broadcasts (calls s) ->
    (0 < sequence -> seq = sequence) ->
    (sequence <= 0 ->
     exists stored, StoredSequence L address stored /\
                    seq = uint32 (default sequence stored + 1)) ->
    (let tx0 := NonceTx seq [getSignerAct L address] tx in
     let (chainID, err) := getChainID L in
     match err with
     | Some e => ret (EmptyTx, Some e)
     | None =>
         let tx1 := ChainTx chainID 0 tx0 in
         tx2 <- auth_NewSig_Wrap L tx1 ;;
         err0 <- signTx L tx2 address ;;
         match err0 with
         | Some e => ret (EmptyTx, Some e)
         | None => ret (tx2, err0)
         end
     end) s1 = (out, s') ->
    broadcasts (calls s') = broadcasts (calls s) /\
    forall t, out = Ret (t, None) ->
              Prepared L tx address sequence s s' t) as Htail.
  { intros seq s1 Hh Hb Hpos Hzero. cbn zeta. unfold getChainID.
    destruct (String.eqb_spec (chainID L) "") as [Hc|Hc].
    { intros [= <- <-]. split; [exact Hb | discriminate]. }
    intros Ht. apply wrap_sign_inv in Ht as (Hcalls & Hok).
    split; [now rewrite Hcalls|].
    intros t Hout. destruct (Hok t Hout) as (w & signed & sg & Hk).
    exists seq, sg. cbn zeta in *. rewrite Hh in Hk.
    destruct Hk as (K1 & K2 & K3 & K4 & K5 & K6 & K7).
    repeat (split; [eassumption|]).
    split; [now exists w, signed|]. split; assumption. }
  destruct (Z.leb_spec sequence 0) as [Hle|Hgt].
  - unfold bind at 1 in H.
    destruct (getSequence L _ sequence s) as [o1 s1] eqn:Hgs.
    apply getSequence_inv in Hgs as (Hh & Hb & Hseq).
    destruct o1 as [[err v]|msg|msg]; cbn [fst snd] in H.
    + destruct err as [e|]; unfold ret at 1 in H.
      * injection H as <- <-. split; [exact Hb | discriminate].
      * eapply Htail; [exact Hh | exact Hb | lia | | exact H].
        intros _. destruct (Hseq v eq_refl) as (r & Hq & Hn & Hs).
        destruct (Value (Response r)) as [|b bs] eqn:Hv.
        -- exists None. split; [exists r; now rewrite Hv|].
           cbn [default]. now rewrite (Hn eq_refl).
        -- destruct (Hs ltac:(discriminate)) as (v0 & Hr & ->).
           exists (Some (uint32 v0)). split; [|reflexivity].
           exists r. split; [exact Hq|]. rewrite Hv.
           split; [discriminate|]. now exists v0.
    + injection H as <- <-. split; [exact Hb | discriminate].
    + injection H as <- <-. split; [exact Hb | discriminate].
  - unfold ret at 1 in H.
    eapply Htail; [reflexivity | reflexivity | intros _; reflexivity | lia | exact H].
Qed.

Lemma prepare_inv (q : Submission) s out s' :
  prepare L q s = (out, s') ->
  broadcasts (calls s') = broadcasts (calls s) /\
  forall t, out = Ret (t, None) ->
    Prepared L (innerTx L q) (submission_From q) (submission_Sequence q) s s' t.
Proof.
  destruct q as [args|args|args|args|args]; cbn [prepare innerTx submission_From
    submission_Sequence];
    unfold prepareDeclareCandidacyTx, prepareProposeSlotTx, prepareAcceptSlotTx,
      prepareWithdrawSlotTx, prepareCancelSlotTx;
    try apply wrapAndSignTx_inv.
  all: destruct (stake_GetPubKey L _) as [pubKey [e|]]; cbn [fst];
    [ intros [= <- <-]; split; [reflexivity | discriminate]
    | apply wrapAndSignTx_inv ].
Qed.

(** Every submission method prepares, returns the error of the preparation
    if there is one, and broadcasts otherwise. *)
Lemma submit_prepare (q : Submission) :
  submit L q =
  (r <- prepare L q ;;
   match snd r with
   | Some e => ret (None, Some e)
   | None => broadcastTx L (fst r)
   end).
Proof. now destruct q. Qed.

Lemma broadcastTx_run (t : tx_t) s :
  broadcastTx L t s =
  (Ret (client_BroadcastTxCommit L (wire_BinaryBytes L (heap s) t)),
   {| heap := heap s;
      calls := calls s ++ [CallBroadcastTxCommit (wire_BinaryBytes L (heap s) t)] |}).
Proof. reflexivity. Qed.

(** When the preparation returns an error, the method returns a [nil]
    result with that error and nothing is broadcast. *)
Lemma submit_prepare_error (q : Submission) s t e s' :
  prepare L q s = (Ret (t, Some e), s') ->
  submit L q s = (Ret (None, Some e), s') /\
  broadcasts (calls s') = broadcasts (calls s).
Proof.
  intros H. split.
  - rewrite submit_prepare. unfold bind. now rewrite H.
  - now apply prepare_inv in H.
Qed.

(** The two ways a submission ends: without a broadcast and without a
    result, or with the broadcast of the prepared transaction. *)
Lemma submit_inv (q : Submission) s out s' :
  submit L q s = (out, s') ->
  (broadcasts (calls s') = broadcasts (calls s) /\
   forall res, out <> Ret (res, None)) \/
  (exists t,
     Prepared L (innerTx L q) (submission_From q) (submission_Sequence q) s s' t /\
     broadcasts (calls s') =
       broadcasts (calls s) ++ [wire_BinaryBytes L (heap s') t] /\
     out = Ret (client_BroadcastTxCommit L (wire_BinaryBytes L (heap s') t))).
Proof.
  rewrite submit_prepare. unfold bind.
  destruct (prepare L q s) as [o1 s1] eqn:Hp.
  apply prepare_inv in Hp as (Hb & Hok).
  destruct o1 as [[t [e|]]|msg|msg]; cbn [fst snd].
  - intros [= <- <-]. left. split; [exact Hb | discriminate].
  - rewrite broadcastTx_run. intros [= <- <-]. right. exists t.
    specialize (Hok t eq_refl). cbn [heap calls].
    split; [|split; [|reflexivity]].
    + destruct Hok as (seq & sg & Hk). exists seq, sg. exact Hk.
    + now rewrite broadcasts_snoc, Hb.
  - intros [= <- <-]. left. split; [exact Hb | discriminate].
  - intros [= <- <-]. left. split; [exact Hb | discriminate].
Qed.

(** C1.  When a stake submission method returns without error, the bytes
    handed to [BroadcastTxCommit] are the go-wire serialization of the
    signature wrapper that holds the stake transaction of the request
    wrapped in a nonce transaction whose signers are exactly the one actor
    of the [From] address, wrapped in a chain transaction with the chain id
    of the backend and expiration height 0; the wrapper has been signed for
    the [From] address; and this is the only broadcast of the call. *)
Theorem submission_broadcasts_signed_wrapping (q : Submission) s res s' :
  submit L q s = (Ret (res, None), s') ->
  exists seq sg,
    let r := length (heap s) in
    let payload := wire_BinaryBytes L (heap s') (SigTx r) in
    heap s' = heap s ++ [ {| os_Tx := os_Tx (wrapped L q seq); os_Sig := sg |} ] /\
    SignedFor L (submission_From q) (wrapped L q seq) sg /\
    broadcasts (calls s') = broadcasts (calls s) ++ [payload] /\
    client_BroadcastTxCommit L payload = (res, None).
Proof.
  intros H. apply submit_inv in H as [(_ & Hno) | (t & Hp & Hb & Hout)].
  { now destruct (Hno res). }
  destruct Hp as (seq & sg & -> & Hh & _ & _ & _ & Hs & _).
  exists seq, sg. cbn zeta in *.
  split; [exact Hh|]. split; [exact Hs|]. split; [exact Hb|].
  now injection Hout as <-.
Qed.

(** C10.  In the transaction a stake submission broadcasts, the nonce is:
    when the request has [Sequence] 0, the stored nonce of the signer (read
    under the nonce key of the store) plus 1, or 1 when nothing is stored;
    when the request has a positive [Sequence], that value unchanged.  The
    sum is the one of the code, [sequence + 1] on a [uint32]: it is the
    stored nonce plus 1 for every stored nonce below [2 ^ 32 - 1]. *)
Theorem submission_nonce_sequence (q : Submission) s out s' payload :
  submit L q s = (out, s') ->
  broadcasts (calls s') = broadcasts (calls s) ++ [payload] ->
  exists seq sg,
    payload = wire_BinaryBytes L (heap s') (SigTx (length (heap s))) /\
    heap s' = heap s ++ [ {| os_Tx := os_Tx (wrapped L q seq); os_Sig := sg |} ] /\
    (submission_Sequence q = 0 ->
     exists stored,
       StoredSequence L (submission_From q) stored /\
       seq = match stored with
             | Some v => uint32 (v + 1)
             | None => 1
             end /\
       (forall v, stored = Some v -> v < 2 ^ 32 - 1 -> seq = v + 1)) /\
    (0 < submission_Sequence q -> seq = submission_Sequence q).
Proof.
  intros H Hb. apply submit_inv in H as [(Hsame & _) | (t & Hp & Hb' & _)].
  { rewrite Hsame in Hb. apply (f_equal length) in Hb.
    rewrite length_app in Hb. cbn in Hb. lia. }
  rewrite Hb' in Hb. apply app_inv_head in Hb. injection Hb as <-.
  destruct Hp as (seq & sg & -> & Hh & _ & _ & _ & _ & Hpos & Hzero).
  exists seq, sg. cbn zeta in *.
  split; [reflexivity|]. split; [exact Hh|]. split; [|exact Hpos].
  intros H0. destruct Hzero as (stored & Hst & ->); [lia|].
  exists stored. split; [exact Hst|]. rewrite H0.
  split; [now destruct stored|].
  intros v -> Hv. cbn [default].
  destruct Hst as (r & _ & _ & v0 & _ & ->).
  pose proof (uint32_range v0). unfold uint32 at 1.
  apply Z.mod_small. lia.
Qed.

End SubmissionProperties.

Lemma submission_broadcasts_signed_wrapping_witness :
  exists res s',
    ethereum.submit ethereum.testLibs ethereum.declareDefault (ethereum.st0 _)
    = (Ret (res, None), s') /\
    exists seq sg,
      ethereum.heap s' =
        [ {| ethereum.os_Tx :=
               ethereum.os_Tx
                 (ethereum.wrapped ethereum.testLibs ethereum.declareDefault seq);
             ethereum.os_Sig := sg |} ] /\
      ethereum.SignedFor ethereum.testLibs ethereum.testAccount
        (ethereum.wrapped ethereum.testLibs ethereum.declareDefault seq) sg /\
      ethereum.broadcasts (ethereum.calls s') =
        [ ethereum.wire_BinaryBytes ethereum.testLibs (ethereum.heap s')
            (ethereum.SigTx 0) ] /\
      ethereum.client_BroadcastTxCommit ethereum.testLibs
        (ethereum.wire_BinaryBytes ethereum.testLibs (ethereum.heap s')
           (ethereum.SigTx 0)) = (res, None).
Proof.
  eexists _, _. split; [lazy; reflexivity|].
  apply (submission_broadcasts_signed_wrapping ethereum.testLibs
           ethereum.declareDefault (ethereum.st0 _)).
  lazy; reflexivity.
Defined.

Lemma submission_nonce_sequence_witness :
  exists out s' payload,
    ethereum.submit ethereum.testLibs ethereum.declareDefault (ethereum.st0 _)
    = (out, s') /\
    ethereum.broadcasts (ethereum.calls s') = [payload] /\
    exists seq sg,
      payload = ethereum.wire_BinaryBytes ethereum.testLibs (ethereum.heap s')
                  (ethereum.SigTx 0) /\
      ethereum.heap s' =
        [ {| ethereum.os_Tx :=
               ethereum.os_Tx
                 (ethereum.wrapped ethereum.testLibs ethereum.declareDefault seq);
             ethereum.os_Sig := sg |} ] /\
      (0 = 0 ->
       exists stored,
         ethereum.StoredSequence ethereum.testLibs ethereum.testAccount stored /\
         seq = match stored with
               | Some v => uint32 (v + 1)
               | None => 1
               end /\
         (forall v, stored = Some v -> v < 2 ^ 32 - 1 -> seq = v + 1)) /\
      (0 < 0 -> seq = 0).
Proof.
  eexists _, _, _. split; [lazy; reflexivity|]. split; [lazy; reflexivity|].
  eapply (submission_nonce_sequence ethereum.testLibs ethereum.declareDefault
            (ethereum.st0 _)); lazy; reflexivity.
Defined.

(** ** Failures of the submission methods *)

(** With the default sequence the node of the examples signs nonce 5, the
    stored nonce being 4; with sequence 7 it signs nonce 7. *)
Example declareDefault_nonce :
  ethereum.heap (snd (ethereum.submit ethereum.testLibs ethereum.declareDefault
                        (ethereum.st0 _)))
  = [ {| ethereum.os_Tx :=
           ethereum.os_Tx
             (ethereum.wrapped ethereum.testLibs ethereum.declareDefault 5);
         ethereum.os_Sig :=
           Some ("signed by 0x7eff122b94897ea5b0e2a9abf47b86337fafebdc: "
                 +:+ "chain(travis-test,0,nonce(5,0x7eff122b94897ea5b0e2a9abf47b86337fafebdc,declare(pk1)))")
      |} ].
Proof. vm_compute. reflexivity. Qed.

Example declareSeven_nonce :
  ethereum.heap (snd (ethereum.submit ethereum.testLibs ethereum.declareSeven
                        (ethereum.st0 _)))
  = [ {| ethereum.os_Tx :=
           ethereum.os_Tx
             (ethereum.wrapped ethereum.testLibs ethereum.declareSeven 7);
         ethereum.os_Sig :=
           Some ("signed by 0x7eff122b94897ea5b0e2a9abf47b86337fafebdc: "
                 +:+ "chain(travis-test,0,nonce(7,0x7eff122b94897ea5b0e2a9abf47b86337fafebdc,declare(pk1)))")
      |} ].
Proof. vm_compute. reflexivity. Qed.

(** Whatever the libraries: when the account manager finds no wallet for
    the sender, a submission that gets as far as signing panics. *)
Lemma sign_without_wallet_panics (L : ethereum.Libs) (r : nat) (address : string)
    (data : ethereum.OneSig _ _ _) s :
  ethereum.heap s !! r = Some data ->
  fst (ethereum.am_Find L (ethereum.common_HexToAddress L address)) = None ->
  ethereum.sign L r address s = (Panic nil_dereference, s).
Proof.
  intros Hr Hf.
  destruct (ethereum.sign L r address s) as [out s'] eqn:Hs.
  destruct (sign_inv L r address data s out s' Hr Hs) as (_ & Hp & _).
  now destruct (Hp Hf) as [-> ->].
Qed.

(** C2.  The claim fails on the code for one kind of signing failure: the
    sender is an account the keystore does not hold.  [s.am.Find] then
    returns a [nil] wallet and the error "unknown account"; [sign] does
    not read that error and calls [SignTx] on the [nil] wallet.  The method
    panics: it returns neither a [nil] result nor the error.  Nothing is
    broadcast. *)
Theorem submission_unknown_account_panics :
  ethereum.am_Find ethereum.testLibs "0x01"
  = (None, Some (Err "unknown account")) /\
  fst (ethereum.submit ethereum.testLibs ethereum.acceptUnknown (ethereum.st0 _))
  = Panic nil_dereference /\
  ethereum.broadcasts
    (ethereum.calls
       (snd (ethereum.submit ethereum.testLibs ethereum.acceptUnknown
               (ethereum.st0 _)))) = [].
Proof. vm_compute. repeat split. Qed.

(** ** Transactions of a block *)

Section BlockProperties.

Import ethereum.

Context (L : Libs).

(** An index at or above the transaction count of the header is refused
    with an error, and no transaction is looked up. *)
Lemma GetTransactionFromBlock_above (height index : Z) (b : Block) s :
  client_Block L (cast_ToInt64 L height) = (Some {| rb_Block := Some b |}, None) ->
  NumTxs b <= index ->
  exists e,
    GetTransactionFromBlock L height index s =
    (Ret (None, Some e),
     {| heap := heap s; calls := calls s ++ [CallBlock (cast_ToInt64 L height)] |}).
Proof.
  intros Hb Hi. unfold GetTransactionFromBlock, bind, called. rewrite Hb.
  cbn [rb_Block]. destruct (Z.geb_spec index (NumTxs b)) as [_|Hlt]; [|lia].
  eexists. reflexivity.
Qed.

(** A valid position is read and looked up by its hash. *)
Lemma GetTransactionFromBlock_valid (height index : Z) (b : Block) (t : bytes) s :
  client_Block L (cast_ToInt64 L height) = (Some {| rb_Block := Some b |}, None) ->
  0 <= index < NumTxs b ->
  Txs b !! Z.to_nat index = Some t ->
  GetTransactionFromBlock L height index s =
  GetTransaction L (hex_EncodeToString L (tx_Hash L t))
    {| heap := heap s; calls := calls s ++ [CallBlock (cast_ToInt64 L height)] |}.
Proof.
  intros Hb Hi Ht. unfold GetTransactionFromBlock, bind, called. rewrite Hb.
  cbn [rb_Block]. destruct (Z.geb_spec index (NumTxs b)) as [Hge|_]; [lia|].
  unfold index_Txs. destruct (Z.ltb_spec index 0) as [Hneg|_]; [lia|].
  now rewrite Ht.
Qed.

(** A negative index passes the check [index >= NumTxs] and the indexing
    panics, whatever the block. *)
Lemma GetTransactionFromBlock_negative (height index : Z) (b : Block) s :
  client_Block L (cast_ToInt64 L height) = (Some {| rb_Block := Some b |}, None) ->
  0 <= NumTxs b ->
  index < 0 ->
  GetTransactionFromBlock L height index s =
  (Panic index_out_of_range,
   {| heap := heap s; calls := calls s ++ [CallBlock (cast_ToInt64 L height)] |}).
Proof.
  intros Hb Hn Hi. unfold GetTransactionFromBlock, bind, called. rewrite Hb.
  cbn [rb_Block]. destruct (Z.geb_spec index (NumTxs b)) as [Hge|_]; [lia|].
  unfold index_Txs. destruct (Z.ltb_spec index 0) as [_|Hpos]; [|lia].
  reflexivity.
Qed.

End BlockProperties.

(** C7.  The claim fails on the code for a negative index.  On the block
    of height 1 of the node of the examples, which has one transaction,
    index 1 is refused with an error, index 0 is read, and index -1 is not
    refused: it passes the check [index >= NumTxs] and [Txs[-1]] panics
    with an index out of range. *)
Theorem GetTransactionFromBlock_negative_index_panics :
  fst (ethereum.GetTransactionFromBlock ethereum.testLibs 1 1 (ethereum.st0 _))
  = Ret (None, Some (Err "No transaction in block 1, index 1. ")) /\
  fst (ethereum.GetTransactionFromBlock ethereum.testLibs 1 0 (ethereum.st0 _))
  = Ret (Some (list_byte_of_string "tx0"), None) /\
  fst (ethereum.GetTransactionFromBlock ethereum.testLibs 1 (-1) (ethereum.st0 _))
  = Panic index_out_of_range.
Proof. vm_compute. repeat split. Qed.

(** ** The stake queries *)

Section QueryProperties.

Import ethereum.

Context (L : Libs).

Abbreviation data_t :=
  (Data (PubKey L) (Candidate L) (Slot L) (SlotDelegate L)).

Lemma queries_snoc (cs : list Call) (c : Call) :
  queries (cs ++ [c]) =
  queries cs ++ match c with
                | CallABCIQueryWithOptions path key o => [(path, key, o)]
                | _ => []
                end.
Proof. unfold queries. rewrite omap_app. now destruct c. Qed.

(** What [getParsed] does: one trusted query at the given height.  It
    returns no error only when the query returned a response without error
    and with a value, and the value decoded; then the height is that of
    the response and the object is the decoded one.  It returns the
    no-data error when the query returned no error and no value. *)
Lemma getParsed_inv (path : string) (key : bytes) (data : data_t) (height : Z) s :
  let o := {| opt_Height := cast_ToInt64 L height; opt_Trusted := true |} in
  exists h err d,
    getParsed L path key data height s =
    (Ret (h, err, d),
     {| heap := heap s;
        calls := calls s ++ [CallABCIQueryWithOptions path key o] |}) /\
    (err = None ->
     exists r,
       client_ABCIQueryWithOptions L path key o = (Some r, None) /\
       Value (Response r) <> [] /\
       h = Height (Response r) /\
       wire_ReadData L (Value (Response r)) data = (d, None)) /\
    (snd (client_ABCIQueryWithOptions L path key o) = None ->
     responseValue (fst (client_ABCIQueryWithOptions L path key o)) = [] ->
     err = Some (client_ErrNoData L)).
Proof.
  intros o. unfold getParsed, get, bind, called. fold o.
  destruct (client_ABCIQueryWithOptions L path key o) as [resp qerr] eqn:Hq.
  cbn [fst snd].
  destruct resp as [r|]; unfold ret at 1; cbn [responseValue].
  - destruct qerr as [e|].
    { eexists _, _, _. split; [reflexivity|]. split; discriminate. }
    destruct (Value (Response r)) as [|b bs] eqn:Hv; cbn [length Nat.eqb].
    { eexists _, _, _. split; [reflexivity|]. split; [discriminate|reflexivity]. }
    destruct (wire_ReadData L (b :: bs) data) as [d' [e|]] eqn:Hr.
    { eexists _, _, _. split; [reflexivity|]. split; discriminate. }
    eexists _, _, _. split; [reflexivity|]. split; [|discriminate].
    intros _. exists r. rewrite Hv. now repeat split.
  - destruct qerr as [e|].
    { eexists _, _, _. split; [reflexivity|]. split; discriminate. }
    cbn [length Nat.eqb].
    eexists _, _, _. split; [reflexivity|]. split; [discriminate|reflexivity].
Qed.

(** Every query method makes at most one query, with [getParsed] into the
    zero value of its payload, and returns its error, or its height and
    the decoded payload. *)
Lemma query_inv (q : Query) s out s' :
  query L q s = (out, s') ->
  (queries (calls s') = queries (calls s) /\
   exists e, out = Ret (None, Some e)) \/
  (exists path key height h err d,
     getParsed L path key (queryTarget L q) height s = (Ret (h, err, d), s') /\
     out = Ret match err with
               | Some e => (None, Some e)
               | None => (Some {| sqr_Height := h; sqr_Data := d |}, None)
               end).
Proof.
  destruct q as [height|pubkey height|address height|slotId height|address height];
    cbn [query queryTarget];
    unfold QueryValidators, QueryValidator, QuerySlots, QuerySlot, QueryDelegator.
  2: destruct (stake_GetPubKey L pubkey) as [pk [e|]];
       [intros [= <- <-]; left; split; [reflexivity | now exists e] |].
  3: destruct (commands_ParseActor L address) as [delegator [e|]];
       [intros [= <- <-]; left; split; [reflexivity | now exists e] |].
  all: unfold bind;
    match goal with
    | |- context [getParsed L ?p ?k ?d ?h ?s0] =>
        destruct (getParsed_inv p k d h s0) as (h0 & err & d0 & Hrun & _);
        rewrite Hrun; intros H; right; exists p, k, h, h0, err, d0
    end;
    destruct err; injection H as <- <-; (split; [exact Hrun | reflexivity]).
Qed.

(** C5.  When a stake query method succeeds, its result is an envelope
    whose [Height] is the height of the response of the ABCI query it made
    and whose [Data] is what go-wire decoded from the value bytes of that
    response. *)
Theorem query_result_envelope (q : Query) s res s' :
  query L q s = (Ret (res, None), s') ->
  exists path key o r env,
    queries (calls s') = queries (calls s) ++ [(path, key, o)] /\
    client_ABCIQueryWithOptions L path key o = (Some r, None) /\
    res = Some env /\
    sqr_Height env = Height (Response r) /\
    wire_ReadData L (Value (Response r)) (queryTarget L q) = (sqr_Data env, None).
Proof.
  intros H. apply query_inv in H
    as [(_ & e & [=]) | (path & key & height & h & err & d & Hg & Hout)].
  destruct (getParsed_inv path key (queryTarget L q) height s)
    as (h' & err' & d' & Hrun & Hok & _).
  rewrite Hrun in Hg. injection Hg as -> -> -> <-.
  destruct err as [e|]; [discriminate|]. injection Hout as ->.
  destruct (Hok eq_refl) as (r & Hq & _ & -> & Hr).
  eexists path, key, _, r, _. cbn [calls sqr_Height sqr_Data].
  rewrite queries_snoc. repeat split; [exact Hq | exact Hr].
Qed.

(** C6.  When the ABCI query of a stake query method returns no error and
    no value (the key holds no data), the method returns a [nil] result
    and the no-data error. *)
Theorem query_without_data (q : Query) s out s' path key o :
  query L q s = (out, s') ->
  queries (calls s') = queries (calls s) ++ [(path, key, o)] ->
  snd (client_ABCIQueryWithOptions L path key o) = None ->
  responseValue (fst (client_ABCIQueryWithOptions L path key o)) = [] ->
  out = Ret (None, Some (client_ErrNoData L)).
Proof.
  intros H Hcalls Hnoerr Hempty. apply query_inv in H
    as [(Hsame & _) | (path' & key' & height & h & err & d & Hg & ->)].
  { rewrite Hsame in Hcalls. apply (f_equal length) in Hcalls.
    rewrite length_app in Hcalls. cbn in Hcalls. lia. }
  destruct (getParsed_inv path' key' (queryTarget L q) height s)
    as (h' & err' & d' & Hrun & _ & Hnodata).
  rewrite Hrun in Hg. injection Hg as -> -> -> <-.
  cbn [calls] in Hcalls. rewrite queries_snoc in Hcalls.
  apply app_inv_head in Hcalls. injection Hcalls as -> -> <-.
  now rewrite (Hnodata Hnoerr Hempty).
Qed.

End QueryProperties.

Lemma query_result_envelope_witness :
  exists res s',
    ethereum.query ethereum.testLibs (ethereum.AskSlot "s" 3) (ethereum.st0 _)
    = (Ret (res, None), s') /\
    exists path key o r env,
      ethereum.queries (ethereum.calls s') = [(path, key, o)] /\
      ethereum.client_ABCIQueryWithOptions ethereum.testLibs path key o
      = (Some r, None) /\
      res = Some env /\
      ethereum.sqr_Height env = ethereum.Height (ethereum.Response r) /\
      ethereum.wire_ReadData ethereum.testLibs
        (ethereum.Value (ethereum.Response r))
        (ethereum.queryTarget ethereum.testLibs (ethereum.AskSlot "s" 3))
      = (ethereum.sqr_Data env, None).
Proof.
  eexists _, _. split; [lazy; reflexivity|].
  apply (query_result_envelope ethereum.testLibs (ethereum.AskSlot "s" 3)
           (ethereum.st0 _)).
  lazy; reflexivity.
Defined.

Lemma query_without_data_witness :
  exists out s' path key o,
    ethereum.query ethereum.testLibs (ethereum.AskDelegator "d" 3)
      (ethereum.st0 _) = (out, s') /\
    ethereum.queries (ethereum.calls s') = [(path, key, o)] /\
    snd (ethereum.client_ABCIQueryWithOptions ethereum.testLibs path key o)
    = None /\
    ethereum.responseValue
      (fst (ethereum.client_ABCIQueryWithOptions ethereum.testLibs path key o))
    = [] /\
    out = Ret (None, Some (ethereum.client_ErrNoData ethereum.testLibs)).
Proof.
  eexists _, _, _, _, _.
  split; [lazy; reflexivity|]. split; [lazy; reflexivity|].
  split; [lazy; reflexivity|]. split; [lazy; reflexivity|].
  eapply (query_without_data ethereum.testLibs (ethereum.AskDelegator "d" 3)
            (ethereum.st0 _)); lazy; reflexivity.
Defined.

(** ** The init command *)

Section InitProperties.

Import commands.

Context (L : InitLibs).

Abbreviation world := (World (ChainDb L)).

(** The runs of [initTendermint], by what it finds and whether its writes
    succeed. *)
Ltac run_initTendermint :=
  unfold initTendermint, Save, SaveAs, WriteFile, FileExists,
    LoadPrivValidatorFS, GenPrivValidatorFS, logInfo, bind, ret, panic;
  cbn [files dirs dbs entropy logs set_files];
  repeat (first [ case_bool_decide | case_match ];
          simplify_eq;
          cbn [files dirs dbs entropy logs set_files] in * ).

(** Lookups in the files after a run: the two paths are the same or not. *)
Ltac same_path_or_not :=
  repeat match goal with
         | H : ¬ is_Some _ |- _ => apply eq_None_not_Some in H
         | H : is_Some (Some _) |- _ => clear H
         end;
  destruct (decide (PrivValidatorFile L = GenesisFile L)) as [E|E];
  [rewrite ?E in *|]; simplify_map_eq.

(** A run that returns leaves both files in place. *)
Lemma initTendermint_returns_files (w : world) w' :
  initTendermint L w = (Ret tt, w') ->
  is_Some (files w' !! PrivValidatorFile L) /\
  is_Some (files w' !! GenesisFile L).
Proof.
  run_initTendermint; intros [= <-]; cbn [files];
    rewrite ?lookup_insert_is_Some' in *; split; eauto.
Qed.

(** A run that finds both files writes no file and generates no key. *)
Lemma initTendermint_finds_both (w : world) out w' :
  is_Some (files w !! PrivValidatorFile L) ->
  is_Some (files w !! GenesisFile L) ->
  initTendermint L w = (out, w') ->
  files w' = files w /\ entropy w' = entropy w.
Proof.
  intros Hp Hg. run_initTendermint; intros [= <- <-]; cbn [files entropy];
    try (split; reflexivity); try contradiction.
  all: exfalso;
    match goal with
    | H : ¬ is_Some _ |- _ => apply H
    end; simplify_map_eq; eauto.
Qed.

(** C9.  [initTendermint] preserves what exists.  A private validator file
    that exists is loaded (a run that returns has parsed it), is not
    rewritten, and no key is generated; a genesis file that exists is left
    as it is; hence after a run that returned, a second run leaves every
    file as the first run left it. *)
Theorem initTendermint_preserves_existing (w : world) out w' :
  initTendermint L w = (out, w') ->
  (forall c, files w !! PrivValidatorFile L = Some c ->
     files w' !! PrivValidatorFile L = Some c /\
     entropy w' = entropy w /\
     (out = Ret tt -> is_Some (privValidator_parse L c))) /\
  (forall c, files w !! GenesisFile L = Some c ->
     files w' !! GenesisFile L = Some c) /\
  (out = Ret tt ->
   forall out2 w2, initTendermint L w' = (out2, w2) -> files w2 = files w').
Proof.
  intros H. split; [|split].
  - intros c Hc. revert H. run_initTendermint; intros [= <- <-];
      cbn [files entropy]; same_path_or_not;
      (split; [|split]); try reflexivity; try discriminate; eauto.
  - intros c Hc. revert H. run_initTendermint; intros [= <- <-];
      cbn [files]; same_path_or_not; reflexivity.
  - intros -> out2 w2 H2.
    apply initTendermint_returns_files in H as [Hp Hg].
    now apply (initTendermint_finds_both _ _ _ Hp Hg) in H2.
Qed.

(** C4.  The init command has a [chain-id] flag whose default is
    ["local"].  When there is no genesis file yet (and the genesis file is
    not the private validator file), a run of [initTendermint] that returns
    has written the genesis document whose [ChainID] is the value read
    under the name of the flag and whose validators are exactly one: the
    public key of the private validator of the run, with power 10. *)
Theorem init_genesis_document (w : world) w' :
  files w !! GenesisFile L = None ->
  PrivValidatorFile L <> GenesisFile L ->
  initTendermint L w = (Ret tt, w') ->
  Flags GetInitCmd =
    [ {| flag_Name := "chain-id"; flag_Default := "local";
         flag_Usage := "Chain ID" |} ] /\
  FlagChainID = "chain-id" /\
  exists pv,
    privValidatorOf L w = Some pv /\
    files w' !! GenesisFile L =
    Some (genesisDoc_JSON L
            {| gd_ChainID := viper_GetString L FlagChainID;
               gd_Validators :=
                 [ {| gv_PubKey := GetPubKey L pv; gv_Power := 10 |} ] |}).
Proof.
  intros Hg Hne H. split; [reflexivity|]. split; [reflexivity|].
  revert Hg Hne H. unfold privValidatorOf.
  run_initTendermint; intros Hg Hne [= <-]; cbn [files entropy];
    repeat match goal with
           | H : ¬ is_Some _ |- _ => apply eq_None_not_Some in H
           | H : is_Some (Some _) |- _ => clear H
           | H : is_Some _ |- _ => destruct H as [? H]
           end;
    simplify_map_eq; eauto.
Qed.






End InitProperties.


(** On the machine of the examples the run leaves these three files. *)
Example initFiles_creates_files :
  map_to_list
    (commands.files (snd (commands.initFiles commands.testInit commands.w0)))
  = [ ("/travis/genesis.json", "genesis local:pubkey 0=10");
      (commands.keystorePath commands.testInit, commands.keystoreContent);
      ("/travis/priv_validator.json", "validator 0") ].
Proof. vm_compute. reflexivity. Qed.

Lemma init_genesis_document_witness :
  exists w',
    commands.initTendermint commands.testInit commands.w0 = (Ret tt, w') /\
    commands.Flags commands.GetInitCmd =
      [ {| commands.flag_Name := "chain-id"; commands.flag_Default := "local";
           commands.flag_Usage := "Chain ID" |} ] /\
    commands.FlagChainID = "chain-id" /\
    exists pv,
      commands.privValidatorOf commands.testInit commands.w0 = Some pv /\
      commands.files w' !! commands.GenesisFile commands.testInit =
      Some (commands.genesisDoc_JSON commands.testInit
              {| commands.gd_ChainID :=
                   commands.viper_GetString commands.testInit commands.FlagChainID;
                 commands.gd_Validators :=
                   [ {| commands.gv_PubKey :=
                          commands.GetPubKey commands.testInit pv;
                        commands.gv_Power := 10 |} ] |}).
Proof.
  eexists. split; [vm_compute; reflexivity|].
  apply (init_genesis_document commands.testInit commands.w0).
  - apply lookup_empty.
  - discriminate.
  - vm_compute. reflexivity.
Defined.

Lemma initTendermint_preserves_existing_witness :
  exists out w',
    commands.initTendermint commands.testInit commands.w1 = (out, w') /\
    (forall c,
       commands.files commands.w1 !! commands.PrivValidatorFile commands.testInit = Some c ->
       commands.files w' !! commands.PrivValidatorFile commands.testInit = Some c /\
       commands.entropy w' = commands.entropy commands.w1 /\
       (out = Ret tt ->
        is_Some (commands.privValidator_parse commands.testInit c))) /\
    (forall c,
       commands.files commands.w1 !! commands.GenesisFile commands.testInit = Some c ->
       commands.files w' !! commands.GenesisFile commands.testInit = Some c) /\
    (out = Ret tt ->
     forall out2 w2,
       commands.initTendermint commands.testInit w' = (out2, w2) ->
       commands.files w2 = commands.files w').
Proof.
  exists (fst (commands.initTendermint commands.testInit commands.w1)),
         (snd (commands.initTendermint commands.testInit commands.w1)).
  split; [apply surjective_pairing|].
  apply (initTendermint_preserves_existing commands.testInit commands.w1).
  apply surjective_pairing.
Defined.

(** * Further properties *)

(** ** The net service and the account service *)

(** X2.  Two services with the same [Version] are of the same network. *)
Theorem Version_injective (s1 s2 : ethereum.NetRPCService) :
  0 <= ethereum.networkVersion s1 < 2 ^ 64 ->
  0 <= ethereum.networkVersion s2 < 2 ^ 64 ->
  ethereum.Version s1 = ethereum.Version s2 ->
  ethereum.networkVersion s1 = ethereum.networkVersion s2.
Proof.
  intros H1 H2 Hv. unfold ethereum.Version in Hv.
  apply Sprintf_d_value in H1, H2. rewrite Hv in H1. congruence.
Qed.

Lemma Version_injective_witness :
  0 <= 15 < 2 ^ 64 /\ 0 <= 15 < 2 ^ 64 /\
  ethereum.networkVersion (ethereum.NewNetRPCService 15)
  = ethereum.networkVersion (ethereum.NewNetRPCService 15).
Proof.
  split; [lia|]. split; [lia|].
  apply (Version_injective (ethereum.NewNetRPCService 15)
           (ethereum.NewNetRPCService 15));
    [change (0 <= 15 < 2 ^ 64); lia | change (0 <= 15 < 2 ^ 64); lia
    | reflexivity].
Defined.

Section AccountProperties.

Import ethereum.

Context (A : AccountLibs).

Lemma unlock_max_value : unlock_max = 9223372036.
Proof. reflexivity. Qed.

Lemma int64_small (v : Z) : - 2 ^ 63 <= v < 2 ^ 63 -> int64 v = v.
Proof.
  intros H. unfold int64. rewrite Z.mod_small by lia. lia.
Qed.

(** X1.  [UnlockAccount] with a keystore and a [uint64] duration.  A duration
    of at most 9223372036 seconds reaches the keystore as exactly that many
    seconds, in nanoseconds, without overflow of [time.Duration]; no
    duration means 300 seconds; the flag returned is [true] exactly when
    the keystore returns no error.  A longer duration is refused with an
    error. *)
Theorem UnlockAccount_duration (addr : acc_Address A) (password : string)
    (duration : option Z) (ks : KeyStore A) (rest : list (KeyStore A)) :
  am_Backends A = ks :: rest ->
  (forall du, duration = Some du -> 0 <= du < 2 ^ 64) ->
  let seconds := default 300 duration in
  (seconds <= 9223372036 ->
   seconds * time_Second <= math_MaxInt64 /\
   let err := ks_TimedUnlock A ks addr password (seconds * time_Second) in
   UnlockAccount A addr password duration
   = Ret (match err with None => true | Some _ => false end, err)) /\
  (9223372036 < seconds ->
   UnlockAccount A addr password duration
   = Ret (false, Some (Err "unlock duration too large"))).
Proof.
  intros Hks Hrange seconds. unfold UnlockAccount, fetchKeystore.
  rewrite Hks, unlock_max_value. unfold time_Second, math_MaxInt64.
  destruct duration as [du|]; subst seconds.
  - change (default 300 (Some du)) with du.
    specialize (Hrange du eq_refl). split.
    + intros Hle. split; [lia|].
      destruct (Z.gtb_spec du 9223372036) as [Hgt|_]; [lia|].
      rewrite (int64_small du) by lia.
      rewrite (int64_small (du * 1000000000)) by lia. reflexivity.
    + intros Hgt.
      destruct (Z.gtb_spec du 9223372036) as [_|Hle]; [reflexivity | lia].
  - change (default 300 None) with 300.
    split; [|lia]. intros _. split; [lia|].
    rewrite (int64_small (300 * 1000000000)) by lia. reflexivity.
Qed.

End AccountProperties.

Lemma UnlockAccount_duration_witness :
  (3600 <= 9223372036 ->
   3600 * ethereum.time_Second <= ethereum.math_MaxInt64 /\
   ethereum.UnlockAccount ethereum.testAccounts ethereum.testAccount
     "secret" (Some 3600) = Ret (true, None)) /\
  (9223372036 < 3600 ->
   ethereum.UnlockAccount ethereum.testAccounts ethereum.testAccount
     "secret" (Some 3600)
   = Ret (false, Some (Err "unlock duration too large"))).
Proof.
  apply (UnlockAccount_duration ethereum.testAccounts ethereum.testAccount
           "secret" (Some 3600) tt []).
  - reflexivity.
  - intros du [= <-]. lia.
Defined.

(** ** Lookups of blocks and transactions *)

Section LookupProperties.

Import ethereum.

Context (L : Libs).

(** [GetTransaction] never panics.  A hash that is not hexadecimal is
    answered with the decoding error and does not reach the node;
    otherwise the node is asked once, without proof, for the decoded hash,
    and its answer is returned as it is. *)
Lemma GetTransaction_run (hash : string) s :
  let decoded := hex_DecodeString L (cmn_StripHex L hash) in
  match snd decoded with
  | Some e => GetTransaction L hash s = (Ret (None, Some e), s)
  | None =>
      GetTransaction L hash s =
      (Ret (client_Tx L (fst decoded) false),
       {| heap := heap s; calls := calls s ++ [CallTx (fst decoded) false] |})
  end.
Proof.
  unfold GetTransaction.
  destruct (hex_DecodeString L (cmn_StripHex L hash)) as [bkey [e|]];
    reflexivity.
Qed.

(** X3.  [GetTransactionFromBlock] asks the node for the block first.  When
    that fails, or when the index is at or above the transaction count of
    the block, it returns a [nil] result and an error, and no transaction
    is looked up. *)
Theorem GetTransactionFromBlock_refuses (height index : Z) s :
  (is_Some (snd (client_Block L (cast_ToInt64 L height))) \/
   exists b,
     fst (client_Block L (cast_ToInt64 L height)) = Some {| rb_Block := Some b |} /\
     NumTxs b <= index) ->
  exists e,
    GetTransactionFromBlock L height index s =
    (Ret (None, Some e),
     {| heap := heap s; calls := calls s ++ [CallBlock (cast_ToInt64 L height)] |}).
Proof.
  unfold GetTransactionFromBlock, bind, called.
  destruct (client_Block L (cast_ToInt64 L height)) as [block [e|]];
    cbn [fst snd].
  { intros _. now exists e. }
  intros [[e [=]] | (b & -> & Hi)]. cbn [rb_Block].
  destruct (Z.geb_spec index (NumTxs b)) as [_|Hlt]; [|lia].
  eexists. reflexivity.
Qed.

(** X4.  At a valid position, [GetTransactionFromBlock] is [GetTransaction] of
    the hexadecimal hash of the transaction at that position. *)
Theorem GetTransactionFromBlock_looks_up_hash (height index : Z) (b : Block)
    (t : bytes) s :
  client_Block L (cast_ToInt64 L height) = (Some {| rb_Block := Some b |}, None) ->
  0 <= index < NumTxs b ->
  Txs b !! Z.to_nat index = Some t ->
  GetTransactionFromBlock L height index s =
  GetTransaction L (hex_EncodeToString L (tx_Hash L t))
    {| heap := heap s; calls := calls s ++ [CallBlock (cast_ToInt64 L height)] |}.
Proof. apply GetTransactionFromBlock_valid. Qed.

End LookupProperties.

Lemma GetTransactionFromBlock_refuses_witness :
  exists e,
    ethereum.GetTransactionFromBlock ethereum.testLibs 2 0 (ethereum.st0 _) =
    (Ret (None, Some e),
     {| ethereum.heap := []; ethereum.calls := [ethereum.CallBlock 2] |}).
Proof.
  apply (GetTransactionFromBlock_refuses ethereum.testLibs 2 0 (ethereum.st0 _)).
  left. eexists. reflexivity.
Defined.

Lemma GetTransactionFromBlock_looks_up_hash_witness :
  ethereum.GetTransactionFromBlock ethereum.testLibs 1 0 (ethereum.st0 _) =
  ethereum.GetTransaction ethereum.testLibs "tx0"
    {| ethereum.heap := []; ethereum.calls := [ethereum.CallBlock 1] |}.
Proof.
  apply (GetTransactionFromBlock_looks_up_hash ethereum.testLibs 1 0
           {| ethereum.NumTxs := 1;
              ethereum.Txs := [list_byte_of_string "tx0"] |}
           (list_byte_of_string "tx0") (ethereum.st0 _)).
  - reflexivity.
  - cbn [ethereum.NumTxs]. lia.
  - reflexivity.
Defined.

(** ** More on the stake submission methods *)

Section MoreSubmissionProperties.

Import ethereum.

Context (L : Libs).

Abbreviation onesig_t := (OneSig (PubKey L) (Actor L) (Sig L)).
Abbreviation tx_t := (Tx (PubKey L) (Actor L)).

(** X5.  Without a sender address, or while the backend has no chain id, no
    submission is broadcast and none returns without error. *)
Theorem submission_needs_sender_and_chain (q : Submission) s out s' :
  submission_From q = "" \/ chainID L = "" ->
  submit L q s = (out, s') ->
  broadcasts (calls s') = broadcasts (calls s) /\
  forall res, out <> Ret (res, None).
Proof.
  intros Hempty H.
  apply submit_inv in H as [Hno | (t & Hp & _)]; [exact Hno|].
  destruct Hp as (seq & sg & _ & _ & Hc & Ha & _).
  destruct Hempty; contradiction.
Qed.

(** X6.  A public key string that [stake.GetPubKey] refuses ends the method at
    once: the error is returned with a [nil] result, the node is not
    called and nothing is allocated. *)
Theorem submission_bad_public_key (q : Submission) (pk : string) (e : error) s :
  submission_PubKey q = Some pk ->
  snd (stake_GetPubKey L pk) = Some e ->
  submit L q s = (Ret (None, Some e), s).
Proof.
  intros Hpk He.
  destruct q as [args|args|args|args|args]; cbn in Hpk; try discriminate;
    injection Hpk as <-; cbn [submit];
    unfold DeclareCandidacy, ProposeSlot, CancelSlot,
      prepareDeclareCandidacyTx, prepareProposeSlotTx, prepareCancelSlotTx, bind;
    destruct (stake_GetPubKey L _) as [pubKey err]; cbn [snd] in He; subst err;
    reflexivity.
Qed.

(** The calls of [getSequence]: exactly one, the query of the nonce key. *)
Lemma getSequence_calls (signers : list (Actor L)) (sequence : Z) s out s' :
  getSequence L signers sequence s = (out, s') ->
  heap s' = heap s /\
  calls s' = calls s ++
    [CallABCIQuery "/key"
       (stack_PrefixedKey L (nonce_NameNonce L) (nonce_GetSeqKey L signers))].
Proof.
  unfold getSequence, bind, called, ret, panic. cbn [heap calls].
  destruct (client_ABCIQuery L _ _) as [[r|] [e|]];
    try (intros [= <- <-]; split; reflexivity).
  destruct (length (Value (Response r)) =? 0)%nat;
    [intros [= <- <-]; split; reflexivity|].
  destruct (wire_ReadUint32 L _) as [v0 err].
  intros [= <- <-]; split; reflexivity.
Qed.

(** The heap after [sign]: the object at [r] may have a new signature
    state, nothing else changes. *)
Lemma sign_heap (r : nat) (address : string) (data : onesig_t) s out s' :
  heap s !! r = Some data ->
  sign L r address s = (out, s') ->
  exists sg, heap s' = <[r := {| os_Tx := os_Tx data; os_Sig := sg |}]> (heap s).
Proof.
  intros Hr. unfold sign, bind, deref, store, ret, panic. rewrite Hr.
  assert (heap s = <[r := {| os_Tx := os_Tx data; os_Sig := os_Sig data |}]> (heap s))
    as Hsame.
  { symmetry. apply list_insert_id. rewrite Hr. now destruct data. }
  destruct (am_Find L _) as [[w|] e0]; cbn [fst].
  2:{ intros [= <- <-]. now exists (os_Sig data). }
  destruct (wallet_SignTx L w _ _ 15) as [signed [e|]].
  { intros [= <- <-]. now exists (os_Sig data). }
  destruct (onesig_Sign L data signed) as [sg err].
  intros [= <- <-]. now exists sg.
Qed.

Lemma signTx_heap (r : nat) (address : string) (data : onesig_t) s out s' :
  heap s !! r = Some data ->
  signTx L (SigTx r) address s = (out, s') ->
  calls s' = calls s /\
  exists sg, heap s' = <[r := {| os_Tx := os_Tx data; os_Sig := sg |}]> (heap s).
Proof.
  intros Hr. unfold signTx, get_heap. unfold bind at 1.
  assert (heap s = <[r := {| os_Tx := os_Tx data; os_Sig := os_Sig data |}]> (heap s))
    as Hsame.
  { symmetry. apply list_insert_id. rewrite Hr. now destruct data. }
  destruct (tx_ValidateBasic L (heap s) (SigTx r)) as [e|].
  { intros [= <- <-]. split; [reflexivity | now exists (os_Sig data)]. }
  destruct (String.eqb address "").
  { intros [= <- <-]. split; [reflexivity | now exists (os_Sig data)]. }
  unfold bind. destruct (sign L r address s) as [o1 s1] eqn:Hs.
  pose proof (sign_inv L r address data s o1 s1 Hr Hs) as (Hc & _).
  apply (sign_heap _ _ _ _ _ _ Hr) in Hs as (sg & Hh).
  destruct o1 as [[e|]|msg|msg]; intros [= <- <-];
    (split; [exact Hc | now exists sg]).
Qed.

(** What [wrapAndSignTx] touches: it asks the node for the stored nonce
    exactly when the requested sequence is not positive, and allocates at
    most one object. *)
Lemma wrapAndSignTx_footprint (tx : tx_t) (address : string) (sequence : Z)
    s out s' :
  wrapAndSignTx L tx address sequence s = (out, s') ->
  calls s' = calls s ++
    (if sequence <=? 0
     then [CallABCIQuery "/key" (sequenceKey L address)] else []) /\
  exists new, heap s' = heap s ++ new /\ (length new <= 1)%nat.
Proof.
  unfold wrapAndSignTx. unfold bind at 1. intros H.
  assert (forall seq s1,
    (let tx0 := NonceTx seq [getSignerAct L address] tx in
     let (chainID, err) := getChainID L in
     match err with
     | Some e => ret (EmptyTx, Some e)
     | None =>
         let tx1 := ChainTx chainID 0 tx0 in
         tx2 <- auth_NewSig_Wrap L tx1 ;;
         err0 <- signTx L tx2 address ;;
         match err0 with
         | Some e => ret (EmptyTx, Some e)
         | None => ret (tx2, err0)
         end
     end) s1 = (out, s') ->
    calls s' = calls s1 /\
    exists new, heap s' = heap s1 ++ new /\ (length new <= 1)%nat) as Htail.
  { intros seq s1. cbn zeta. unfold getChainID.
    destruct (String.eqb (chainID L) "").
    { intros [= <- <-]. split; [reflexivity|]. exists [].
      split; [now rewrite app_nil_r | cbn; lia]. }
    unfold auth_NewSig_Wrap, alloc. unfold bind at 1 2. unfold ret at 1.
    unfold bind.
    set (u := {| os_Tx := ChainTx (chainID L) 0
                            (NonceTx seq [getSignerAct L address] tx);
                 os_Sig := auth_emptySig L |}).
    set (s2 := {| heap := heap s1 ++ [u]; calls := calls s1 |}).
    destruct (signTx L (SigTx (length (heap s1))) address s2) as [o1 s3] eqn:Hs.
    apply (signTx_heap _ _ u) in Hs as (Hc & sg & Hh); [|apply lookup_alloc].
    cbn [heap calls s2] in Hc, Hh. rewrite insert_alloc in Hh.
    intros Hout.
    assert (s' = s3) as ->.
    { destruct o1 as [[e|]|msg|msg]; now injection Hout. }
    split; [exact Hc|]. eexists. split; [exact Hh | cbn; lia]. }
  destruct (sequence <=? 0).
  - unfold bind at 1 in H.
    destruct (getSequence L _ sequence s) as [o1 s1] eqn:Hgs.
    apply getSequence_calls in Hgs as (Hh & Hc). fold (sequenceKey L address) in Hc.
    assert (o1 = o1 -> calls s1 = calls s' /\ heap s1 = heap s' \/
            (calls s' = calls s1 /\
             exists new, heap s' = heap s1 ++ new /\ (length new <= 1)%nat)) as Hcases.
    { intros _. destruct o1 as [[[e|] v]|msg|msg]; cbn [fst snd] in H.
      - unfold ret at 1 in H. injection H as <- <-. now left.
      - unfold ret at 1 in H. right. now apply Htail in H.
      - injection H as <- <-. now left.
      - injection H as <- <-. now left. }
    destruct (Hcases eq_refl) as [[Hc' Hh'] | [Hc' (new & Hh' & Hlen)]].
    + rewrite <- Hc', Hc. split; [reflexivity|]. exists [].
      rewrite app_nil_r. split; [congruence | cbn; lia].
    + rewrite Hc', Hc. split; [reflexivity|]. exists new.
      split; [congruence | exact Hlen].
  - unfold ret at 1 in H. apply Htail in H as [Hc Hh].
    rewrite app_nil_r. split; [exact Hc | exact Hh].
Qed.

(** X8.  The footprint of a submission.  It calls the node at most twice, in
    this order: the query of the stored nonce, only for a request whose
    sequence is not positive, and one broadcast.  It allocates at most one
    object and leaves the objects that exist as they are. *)
Theorem submission_footprint (q : Submission) s out s' :
  submit L q s = (out, s') ->
  exists nonceQuery broadcast new,
    calls s' = calls s ++ nonceQuery ++ broadcast /\
    (nonceQuery = [] \/
     submission_Sequence q <= 0 /\
     nonceQuery = [CallABCIQuery "/key" (sequenceKey L (submission_From q))]) /\
    (broadcast = [] \/ exists tx, broadcast = [CallBroadcastTxCommit tx]) /\
    heap s' = heap s ++ new /\ (length new <= 1)%nat.
Proof.
  rewrite submit_prepare. unfold bind.
  destruct (prepare L q s) as [o1 s1] eqn:Hp.
  assert (exists nonceQuery new,
            calls s1 = calls s ++ nonceQuery /\
            (nonceQuery = [] \/
             submission_Sequence q <= 0 /\
             nonceQuery = [CallABCIQuery "/key" (sequenceKey L (submission_From q))]) /\
            heap s1 = heap s ++ new /\ (length new <= 1)%nat)
    as (nq & new & Hc & Hnq & Hh & Hlen).
  { assert (forall tx,
      wrapAndSignTx L tx (submission_From q) (submission_Sequence q) s = (o1, s1) ->
      exists nonceQuery new,
        calls s1 = calls s ++ nonceQuery /\
        (nonceQuery = [] \/
         submission_Sequence q <= 0 /\
         nonceQuery = [CallABCIQuery "/key" (sequenceKey L (submission_From q))]) /\
        heap s1 = heap s ++ new /\ (length new <= 1)%nat) as Hw.
    { intros tx Hw. apply wrapAndSignTx_footprint in Hw as (Hc & new & Hh & Hlen).
      eexists _, new. split; [exact Hc|]. split; [|split; assumption].
      destruct (Z.leb_spec (submission_Sequence q) 0); [right | left]; auto. }
    destruct q as [args|args|args|args|args]; cbn [prepare] in Hp;
      unfold prepareDeclareCandidacyTx, prepareProposeSlotTx, prepareAcceptSlotTx,
        prepareWithdrawSlotTx, prepareCancelSlotTx in Hp;
      try (eapply Hw; exact Hp).
    all: destruct (stake_GetPubKey L _) as [pubKey [e|]];
      [ injection Hp as <- <-; exists [], []; rewrite !app_nil_r;
        split; [reflexivity|]; split; [now left|]; split; [reflexivity | cbn; lia]
      | eapply Hw; exact Hp ]. }
  destruct o1 as [[t [e|]]|msg|msg]; cbn [fst snd].
  2:{ rewrite broadcastTx_run. intros [= <- <-]. cbn [heap calls].
      exists nq, [CallBroadcastTxCommit (wire_BinaryBytes L (heap s1) t)], new.
      rewrite Hc, <- app_assoc. split; [reflexivity|]. split; [exact Hnq|].
      split; [right; eauto|]. split; assumption. }
  all: intros [= <- <-]; exists nq, [], new; rewrite app_nil_r;
    split; [exact Hc|]; split; [exact Hnq|]; split; [now left|];
    split; assumption.
Qed.

(** X7.  While the backend has no chain id, a request with a positive sequence
    (and an accepted public key, if it has one) is refused at once with
    the chain id error: the node is not called and nothing is allocated. *)
Theorem submission_without_chain_id (q : Submission) s :
  chainID L = "" ->
  0 < submission_Sequence q ->
  (forall pk, submission_PubKey q = Some pk -> snd (stake_GetPubKey L pk) = None) ->
  submit L q s =
  (Ret (None,
        Some (Err "Empty chain id. Please wait for tendermint to finish starting up. ")),
   s).
Proof.
  intros Hc Hseq Hpk.
  assert (forall tx,
    wrapAndSignTx L tx (submission_From q) (submission_Sequence q) s =
    (Ret (EmptyTx,
          Some (Err "Empty chain id. Please wait for tendermint to finish starting up. ")),
     s)) as Hw.
  { intros tx. unfold wrapAndSignTx, bind, getChainID.
    destruct (Z.leb_spec (submission_Sequence q) 0) as [Hle|_]; [lia|].
    unfold ret at 1. rewrite Hc. reflexivity. }
  destruct q as [args|args|args|args|args]; cbn [submit];
    unfold DeclareCandidacy, ProposeSlot, AcceptSlot, WithdrawSlot, CancelSlot,
      prepareDeclareCandidacyTx, prepareProposeSlotTx, prepareAcceptSlotTx,
      prepareWithdrawSlotTx, prepareCancelSlotTx;
    cbn [submission_From submission_Sequence submission_PubKey] in *;
    try (unfold bind at 1; rewrite Hw; reflexivity).
  all: specialize (Hpk _ eq_refl);
    destruct (stake_GetPubKey L _) as [pubKey err]; cbn [snd] in Hpk; subst err;
    unfold bind at 1; rewrite Hw; reflexivity.
Qed.

End MoreSubmissionProperties.

Lemma submission_needs_sender_and_chain_witness :
  exists out s',
    ethereum.submit ethereum.testLibs ethereum.declareNoSender (ethereum.st0 _)
    = (out, s') /\
    ethereum.broadcasts (ethereum.calls s') = [] /\
    forall res, out <> Ret (res, None).
Proof.
  eexists _, _. split; [lazy; reflexivity|].
  apply (submission_needs_sender_and_chain ethereum.testLibs
           ethereum.declareNoSender (ethereum.st0 _)).
  - left. reflexivity.
  - lazy; reflexivity.
Defined.

Lemma submission_bad_public_key_witness :
  ethereum.submit ethereum.testLibs ethereum.cancelBadKey (ethereum.st0 _)
  = (Ret (None, Some (Err "invalid public key")), ethereum.st0 _).
Proof.
  apply (submission_bad_public_key ethereum.testLibs ethereum.cancelBadKey "").
  - reflexivity.
  - reflexivity.
Defined.

Lemma submission_footprint_witness :
  exists out s',
    ethereum.submit ethereum.testLibs ethereum.declareDefault (ethereum.st0 _)
    = (out, s') /\
    exists nonceQuery broadcast new,
      ethereum.calls s' = nonceQuery ++ broadcast /\
      (nonceQuery = [] \/
       0 <= 0 /\
       nonceQuery =
         [ethereum.CallABCIQuery "/key"
            (ethereum.sequenceKey ethereum.testLibs ethereum.testAccount)]) /\
      (broadcast = [] \/
       exists tx, broadcast = [ethereum.CallBroadcastTxCommit tx]) /\
      ethereum.heap s' = new /\ (length new <= 1)%nat.
Proof.
  eexists _, _. split; [lazy; reflexivity|].
  eapply (submission_footprint ethereum.testLibs ethereum.declareDefault
            (ethereum.st0 _)).
  lazy; reflexivity.
Defined.

Lemma submission_without_chain_id_witness :
  ethereum.submit (ethereum.withChainID ethereum.testLibs "")
    ethereum.declareSeven (ethereum.st0 _) =
  (Ret (None,
        Some (Err "Empty chain id. Please wait for tendermint to finish starting up. ")),
   ethereum.st0 _).
Proof.
  apply (submission_without_chain_id (ethereum.withChainID ethereum.testLibs "")
           ethereum.declareSeven (ethereum.st0 _)).
  - reflexivity.
  - cbn. lia.
  - intros pk [= <-]. reflexivity.
Defined.

(** ** More on the stake queries *)

Section MoreQueryProperties.

Import ethereum.

Context (L : Libs).

Abbreviation data_t :=
  (Data (PubKey L) (Candidate L) (Slot L) (SlotDelegate L)).

(** The errors of [getParsed]: the error of the query comes back first,
    whatever the response holds; then the error of the decoding. *)
Lemma getParsed_errors (path : string) (key : bytes) (data : data_t)
    (height : Z) s :
  let o := {| opt_Height := cast_ToInt64 L height; opt_Trusted := true |} in
  exists h err d,
    getParsed L path key data height s =
    (Ret (h, err, d),
     {| heap := heap s;
        calls := calls s ++ [CallABCIQueryWithOptions path key o] |}) /\
    (forall e, snd (client_ABCIQueryWithOptions L path key o) = Some e ->
               err = Some e) /\
    (forall r d' e,
       client_ABCIQueryWithOptions L path key o = (Some r, None) ->
       Value (Response r) <> [] ->
       wire_ReadData L (Value (Response r)) data = (d', Some e) ->
       err = Some e).
Proof.
  intros o. unfold getParsed, get, bind, called. fold o.
  destruct (client_ABCIQueryWithOptions L path key o) as [resp qerr] eqn:Hq.
  cbn [fst snd].
  destruct resp as [r|]; unfold ret at 1.
  - destruct qerr as [e|].
    { eexists _, _, _. split; [reflexivity|]. split; [congruence | discriminate]. }
    destruct (Value (Response r)) as [|b bs] eqn:Hv; cbn [length Nat.eqb].
    { eexists _, _, _. split; [reflexivity|]. split; [discriminate|].
      intros r' d' e [= <-] Hne. now rewrite Hv in Hne. }
    destruct (wire_ReadData L (b :: bs) data) as [d1 [e1|]] eqn:Hr.
    + eexists _, _, _. split; [reflexivity|]. split; [discriminate|].
      intros r' d' e [= <-] _. rewrite Hv, Hr. congruence.
    + eexists _, _, _. split; [reflexivity|]. split; [discriminate|].
      intros r' d' e [= <-] _. rewrite Hv, Hr. discriminate.
  - destruct qerr as [e|].
    { eexists _, _, _. split; [reflexivity|]. split; [congruence | discriminate]. }
    cbn [length Nat.eqb].
    eexists _, _, _. split; [reflexivity|]. split; discriminate.
Qed.

(** X9.  The query methods only read.  They never panic; they allocate
    nothing; they call the node at most once, with a trusted query at the
    height of the request (as [cast.ToInt64] converts it), and broadcast
    nothing; and they return either a result or an error, never both and
    never neither. *)
Theorem query_read_only (q : Query) s :
  exists res err s',
    query L q s = (Ret (res, err), s') /\
    heap s' = heap s /\
    (calls s' = calls s \/
     exists path key,
       calls s' = calls s ++
         [CallABCIQueryWithOptions path key
            {| opt_Height := cast_ToInt64 L (query_Height q);
               opt_Trusted := true |}]) /\
    broadcasts (calls s') = broadcasts (calls s) /\
    (res = None <-> is_Some err).
Proof.
  assert (forall path key height,
    height = query_Height q ->
    forall k : Z * option error * data_t ->
               option (StakeQueryResult data_t) * option error,
    (forall h err d,
       k (h, err, d) = match err with
                       | Some e => (None, Some e)
                       | None => (Some {| sqr_Height := h; sqr_Data := d |}, None)
                       end) ->
    exists res err s',
      (let (r, s1) := getParsed L path key (queryTarget L q) height s in
       match r with
       | Ret a => (Ret (k a), s1)
       | Panic msg => (Panic msg, s1)
       | Exit msg => (Exit msg, s1)
       end) = (Ret (res, err), s') /\
      heap s' = heap s /\
      (calls s' = calls s \/
       exists path key,
         calls s' = calls s ++
           [CallABCIQueryWithOptions path key
              {| opt_Height := cast_ToInt64 L (query_Height q);
                 opt_Trusted := true |}]) /\
      broadcasts (calls s') = broadcasts (calls s) /\
      (res = None <-> is_Some err)) as Hmain.
  { intros path key height -> k Hk.
    destruct (getParsed_inv L path key (queryTarget L q) (query_Height q) s)
      as (h & err & d & -> & _).
    rewrite Hk.
    destruct err as [e|]; eexists _, _, _; (split; [reflexivity|]);
      cbn [heap calls]; (split; [reflexivity|]); (split; [right; eauto|]);
      (split; [now rewrite broadcasts_snoc, app_nil_r|]);
      split; try discriminate; eauto.
    intros [? [=]]. }
  assert (forall e : error,
    exists res err s',
      (Ret (@None (StakeQueryResult data_t), Some e), s) = (Ret (res, err), s') /\
      heap s' = heap s /\
      (calls s' = calls s \/
       exists path key,
         calls s' = calls s ++
           [CallABCIQueryWithOptions path key
              {| opt_Height := cast_ToInt64 L (query_Height q);
                 opt_Trusted := true |}]) /\
      broadcasts (calls s') = broadcasts (calls s) /\
      (res = None <-> is_Some err)) as Hearly.
  { intros e. eexists _, _, _. split; [reflexivity|].
    split; [reflexivity|]. split; [now left|]. split; [reflexivity|].
    split; eauto. }
  destruct q as [height|pubkey height|address height|slotId height|address height];
    cbn [query];
    unfold QueryValidators, QueryValidator, QuerySlots, QuerySlot, QueryDelegator.
  2: destruct (stake_GetPubKey L pubkey) as [pk [e|]]; [apply Hearly|].
  3: destruct (commands_ParseActor L address) as [delegator [e|]]; [apply Hearly|].
  all: unfold bind, ret;
    match goal with
    | |- context [getParsed L ?p ?k ?d ?h ?s0] =>
        specialize (Hmain p k h eq_refl
          (fun r : Z * option error * data_t =>
             let '(h0, err, d0) := r in
             match err with
             | Some e => (None, Some e)
             | None => (Some {| sqr_Height := h0; sqr_Data := d0 |}, None)
             end) ltac:(reflexivity))
    end;
    destruct Hmain as (res & err & s' & Hrun & Hrest);
    exists res, err, s'; split; [|exact Hrest];
    rewrite <- Hrun; cbn [queryTarget];
    destruct (getParsed L _ _ _ _ s) as [[[[h0 [e0|]] d0]|msg|msg] s1];
    reflexivity.
Qed.

(** X10.  Errors pass through a query method unchanged: the error of the ABCI
    query, whatever the response holds, and the error of decoding a
    response that has a value. *)
Theorem query_passes_errors (q : Query) s out s' path key o (e : error) :
  query L q s = (out, s') ->
  queries (calls s') = queries (calls s) ++ [(path, key, o)] ->
  snd (client_ABCIQueryWithOptions L path key o) = Some e \/
  (exists r d,
     client_ABCIQueryWithOptions L path key o = (Some r, None) /\
     Value (Response r) <> [] /\
     wire_ReadData L (Value (Response r)) (queryTarget L q) = (d, Some e)) ->
  out = Ret (None, Some e).
Proof.
  intros H Hcalls Herr. apply query_inv in H
    as [(Hsame & _) | (path' & key' & height & h & err & d & Hg & ->)].
  { rewrite Hsame in Hcalls. apply (f_equal length) in Hcalls.
    rewrite length_app in Hcalls. cbn in Hcalls. lia. }
  destruct (getParsed_errors path' key' (queryTarget L q) height s)
    as (h' & err' & d' & Hrun & Hq & Hd).
  rewrite Hrun in Hg. injection Hg as -> -> -> <-.
  cbn [calls] in Hcalls. rewrite queries_snoc in Hcalls.
  apply app_inv_head in Hcalls. injection Hcalls as -> -> <-.
  destruct Herr as [He | (r & d0 & Hr & Hv & Hdec)].
  - now rewrite (Hq e He).
  - now rewrite (Hd r d0 e Hr Hv Hdec).
Qed.

End MoreQueryProperties.

Lemma query_passes_errors_witness :
  exists out s' path key o,
    ethereum.query ethereum.timedOut (ethereum.AskValidators 3) (ethereum.st0 _)
    = (out, s') /\
    ethereum.queries (ethereum.calls s') = [(path, key, o)] /\
    out = Ret (None, Some (Err "Timed out waiting for query")).
Proof.
  eexists _, _, _, _, _. split; [lazy; reflexivity|].
  split; [lazy; reflexivity|].
  eapply (query_passes_errors ethereum.timedOut (ethereum.AskValidators 3)
            (ethereum.st0 _)).
  - lazy; reflexivity.
  - lazy; reflexivity.
  - left. reflexivity.
Defined.

(** ** More on the init command *)

Section MoreInitProperties.

Import commands.

Context (L : InitLibs).

Abbreviation world := (World (ChainDb L)).

Ltac exec_initTendermint :=
  unfold initTendermint, Save, SaveAs, WriteFile, FileExists,
    LoadPrivValidatorFS, GenPrivValidatorFS, logInfo, bind, ret, panic;
  cbn [files dirs dbs entropy logs set_files];
  repeat (first [ case_bool_decide | case_match ];
          simplify_eq;
          cbn [files dirs dbs entropy logs set_files] in * ).

Ltac paths_cases :=
  repeat match goal with
         | H : ¬ is_Some _ |- _ => apply eq_None_not_Some in H
         | H : is_Some (Some _) |- _ => clear H
         end;
  destruct (decide (PrivValidatorFile L = GenesisFile L)) as [E|E];
  [rewrite ?E in *|]; simplify_map_eq.

(** X11.  The frame of [initTendermint], however it ends: it touches no
    database and no directory, no file other than the private validator
    file and the genesis file, and it generates a key only when there is no
    private validator file, and then one. *)
Theorem initTendermint_frame (w : world) out w' :
  initTendermint L w = (out, w') ->
  dbs w' = dbs w /\
  dirs w' = dirs w /\
  (forall p, p <> PrivValidatorFile L -> p <> GenesisFile L ->
             files w' !! p = files w !! p) /\
  (entropy w' = entropy w \/
   files w !! PrivValidatorFile L = None /\ entropy w' = S (entropy w)).
Proof.
  exec_initTendermint; intros [= <- <-]; cbn [files dirs dbs entropy];
    (split; [reflexivity|]); (split; [reflexivity|]);
    (split; [intros p Hp Hg; now rewrite ?lookup_insert_ne by congruence|]);
    first [ left; reflexivity
          | right; split; [now apply eq_None_not_Some | reflexivity] ].
Qed.

(** X12.  A private validator file that does not parse ends the process: no
    key is generated, no file is written and no genesis is made, even
    when there is none. *)
Theorem initTendermint_damaged_validator (w : world) (c : string) :
  files w !! PrivValidatorFile L = Some c ->
  privValidator_parse L c = None ->
  exists msg, initTendermint L w = (Exit msg, w).
Proof.
  intros Hc Hp. unfold initTendermint, FileExists, LoadPrivValidatorFS.
  unfold bind at 1. rewrite Hc. rewrite bool_decide_eq_true_2 by eauto.
  unfold bind. rewrite Hc, Hp. eauto.
Qed.

(** X13.  A run that finds neither file and returns has generated one key and
    written both files for it: the private validator file holds the new
    validator, and the genesis document names its public key. *)
Theorem initTendermint_fresh (w : world) w' :
  files w !! PrivValidatorFile L = None ->
  files w !! GenesisFile L = None ->
  PrivValidatorFile L <> GenesisFile L ->
  initTendermint L w = (Ret tt, w') ->
  let pv := newPrivValidator L (entropy w) in
  entropy w' = S (entropy w) /\
  files w' !! PrivValidatorFile L = Some (privValidator_JSON L pv) /\
  files w' !! GenesisFile L =
  Some (genesisDoc_JSON L
          {| gd_ChainID := viper_GetString L FlagChainID;
             gd_Validators :=
               [ {| gv_PubKey := GetPubKey L pv; gv_Power := 10 |} ] |}).
Proof.
  intros Hp Hg Hne H. revert Hp Hg Hne H.
  exec_initTendermint; intros Hp Hg Hne [= <-]; cbn [files entropy];
    repeat match goal with
           | H : ¬ is_Some _ |- _ => apply eq_None_not_Some in H
           | H : is_Some (Some _) |- _ => clear H
           | H : is_Some _ |- _ => destruct H as [? H]
           end;
    simplify_map_eq; eauto.
Qed.

(** X14.  The two files are not written together: when there is neither
    file, the private validator file can be written and the genesis file
    cannot, the run panics with the error of the write, after it has
    generated a key and put the new validator on disk. *)
Theorem initTendermint_genesis_write_fails (w : world) (e : error) :
  files w !! PrivValidatorFile L = None ->
  files w !! GenesisFile L = None ->
  PrivValidatorFile L <> GenesisFile L ->
  io_fails L (OpWriteFile (PrivValidatorFile L)) = None ->
  io_fails L (OpWriteFile (GenesisFile L)) = Some e ->
  exists w',
    initTendermint L w = (Panic (error_msg e), w') /\
    entropy w' = S (entropy w) /\
    files w' !! PrivValidatorFile L
    = Some (privValidator_JSON L (newPrivValidator L (entropy w))).
Proof.
  intros Hp Hg Hne Hw1 Hw2.
  unfold initTendermint, FileExists, GenPrivValidatorFS, Save, SaveAs, WriteFile.
  unfold bind, ret, logInfo, panic. cbn [files dirs dbs entropy logs set_files].
  rewrite Hp. rewrite bool_decide_eq_false_2 by (intros [? [=]]).
  rewrite Hw1. cbn [files dirs dbs entropy logs set_files].
  rewrite lookup_insert_ne by exact Hne. rewrite Hg.
  rewrite bool_decide_eq_false_2 by (intros [? [=]]).
  rewrite Hw2. eexists. split; [reflexivity|]. cbn [files entropy].
  split; [reflexivity | apply lookup_insert_eq].
Qed.

End MoreInitProperties.

Section KeystoreProperties.

Import commands.

Context (L : InitLibs).

Abbreviation world := (World (ChainDb L)).

(** The invariant of the loop that seeds the keystore, by induction on
    the entries that are left. *)
Lemma seedKeystore_loop_inv (dir : string) (entries : list (string * string)) :
  forall w : world,
  exists r w',
    seedKeystore L dir entries w = (Ret r, w') /\
    dbs w' = dbs w /\ dirs w' = dirs w /\ entropy w' = entropy w /\
    (forall p,
       (forall fn c, (fn, c) ∈ entries -> p <> filepath_Join L dir fn) ->
       files w' !! p = files w !! p) /\
    (forall e, r = Some e ->
       exists fn c,
         (fn, c) ∈ entries /\
         io_fails L (OpCreate (filepath_Join L dir fn)) = None /\
         io_fails L (OpClose (filepath_Join L dir fn)) = Some e).
Proof.
  induction entries as [|[fn c] rest IH]; intros w.
  - exists None, w. cbn [seedKeystore]. unfold ret.
    do 4 (split; [reflexivity|]). split; [reflexivity | discriminate].
  - cbn [seedKeystore]. unfold bind at 1. unfold os_Create.
    destruct (io_fails L (OpCreate (filepath_Join L dir fn))) as [e1|] eqn:Hcreate;
      cbn [fst snd].
    + unfold bind, logError, logInfo.
      match goal with
      | |- context [seedKeystore L dir rest ?w1] =>
          destruct (IH w1) as (r & w' & -> & Hd & Hdir & He & Hf & Herr)
      end.
      exists r, w'. cbn [dbs dirs entropy files] in *.
      split; [reflexivity|]. do 3 (split; [assumption|]). split.
      * intros p Hp. apply Hf. intros fn' c' Hin. apply (Hp fn' c').
        now apply list_elem_of_further.
      * intros e Hr. destruct (Herr e Hr) as (fn' & c' & Hin & H1 & H2).
        exists fn', c'. split; [now apply list_elem_of_further | auto].
    + set (p0 := filepath_Join L dir fn) in *.
      unfold bind, file_Write, file_Close, logError, logInfo, ret.
      cbn [fst snd files dirs dbs entropy logs set_files].
      destruct (io_fails L (OpWrite p0)) as [e2|] eqn:Hwrite;
        cbn [fst snd files dirs dbs entropy logs set_files];
        destruct (io_fails L (OpClose p0)) as [e3|] eqn:Hclose.
      all: try (eexists (Some e3), _; split; [reflexivity|];
                cbn [files dirs dbs entropy logs set_files];
                do 3 (split; [reflexivity|]); split;
                [ intros p Hp; rewrite !lookup_insert_ne;
                  [reflexivity | ..]; apply not_eq_sym, (Hp fn c),
                    list_elem_of_here
                | intros e [= <-]; exists fn, c;
                  split; [apply list_elem_of_here | auto] ]).
      all: match goal with
           | |- context [seedKeystore L _ _ ?w1] =>
               destruct (IH w1) as (r & w' & -> & Hd & Hdir & He & Hf & Herr)
           end;
        exists r, w'; cbn [files dirs dbs entropy logs set_files] in *;
        split; [reflexivity|]; do 3 (split; [assumption|]); split;
        [ intros p Hp; rewrite Hf;
          [ rewrite !lookup_insert_ne;
            [reflexivity | ..]; apply not_eq_sym, (Hp fn c), list_elem_of_here
          | intros fn' c' Hin; apply (Hp fn' c');
            now apply list_elem_of_further ]
        | intros e Hr; destruct (Herr e Hr) as (fn' & c' & Hin & H1 & H2);
          exists fn', c'; split; [now apply list_elem_of_further | auto] ].
Qed.

(** The entries one by one: the log grows by a line for an entry whose
    file cannot be created or written, and the loop goes on with the
    entries that are left. *)
Lemma seedKeystore_loop_steps (dir : string) (entries : list (string * string)) :
  forall (w : world) r w',
    seedKeystore L dir entries w = (Ret r, w') ->
    exists lines,
      logs w' = logs w ++ lines /\
      (length lines <= length (List.filter (seedFailed L dir) entries))%nat /\
      (NoDup (map (fun entry => filepath_Join L dir (fst entry)) entries) ->
       (forall fn c,
          (fn, c) ∈ entries ->
          io_fails L (OpCreate (filepath_Join L dir fn)) = None ->
          io_fails L (OpClose (filepath_Join L dir fn)) = None) ->
       r = None /\
       length lines = length (List.filter (seedFailed L dir) entries) /\
       forall fn c,
         (fn, c) ∈ entries ->
         match io_fails L (OpCreate (filepath_Join L dir fn)) with
         | Some _ =>
             files w' !! filepath_Join L dir fn
             = files w !! filepath_Join L dir fn
         | None =>
             match io_fails L (OpWrite (filepath_Join L dir fn)) with
             | Some _ => is_Some (files w' !! filepath_Join L dir fn)
             | None => files w' !! filepath_Join L dir fn = Some c
             end
         end).
Proof.
  induction entries as [|[fn c] rest IH]; intros w r w'.
  - cbn [seedKeystore]. unfold ret. intros [= <- <-]. exists [].
    split; [now rewrite app_nil_r|]. split; [reflexivity|].
    intros _ _. split; [reflexivity|]. split; [reflexivity|].
    intros fn c Hin. now apply elem_of_nil in Hin.
  - cbn [seedKeystore map fst List.filter].
    change (seedFailed L dir (fn, c))
      with (match io_fails L (OpCreate (filepath_Join L dir fn)) with
            | Some _ => true
            | None =>
                match io_fails L (OpWrite (filepath_Join L dir fn)) with
                | Some _ => true
                | None => false
                end
            end).
    set (p0 := filepath_Join L dir fn).
    unfold bind at 1. unfold os_Create.
    destruct (io_fails L (OpCreate p0)) as [e1|] eqn:Hcreate; cbn [fst snd].
    + unfold bind at 1. unfold logError, logInfo. intros Hrun.
      destruct (seedKeystore_loop_inv dir rest
                  {| files := files w; dirs := dirs w; dbs := dbs w;
                     entropy := entropy w;
                     logs := logs w ++ ["create " +:+ p0 +:+ " err: " +:+ error_msg e1] |})
        as (r0 & w0 & Hrun0 & _ & _ & _ & Hframe & _).
      rewrite Hrun in Hrun0. injection Hrun0 as <- <-.
      apply IH in Hrun as (lines & Hlogs & Hle & Hall).
      cbn [files logs] in *.
      exists (("create " +:+ p0 +:+ " err: " +:+ error_msg e1) :: lines).
      split; [now rewrite Hlogs, <- app_assoc|].
      split; [cbn [length]; lia|].
      intros Hnodup Hclose. apply NoDup_cons in Hnodup as [Hnotin Hnodup].
      destruct Hall as (Hr & Hlen & Hentries); [exact Hnodup | |].
      { intros fn' c' Hin. apply (Hclose fn' c'). now apply list_elem_of_further. }
      split; [exact Hr|]. split; [cbn [length]; now rewrite Hlen|].
      intros fn' c' Hin. apply elem_of_cons in Hin as [[= -> ->] | Hin].
      * fold p0. rewrite Hcreate. apply Hframe.
        intros fn' c' Hin' Heq. apply Hnotin. rewrite Heq.
        apply (list_elem_of_fmap_2 (fun entry => filepath_Join L dir (fst entry))
                 rest (fn', c')). exact Hin'.
      * now apply Hentries.
    + unfold bind at 1. unfold file_Write.
      cbn [fst snd files dirs dbs entropy logs set_files].
      rewrite lookup_insert_eq, insert_insert_eq. cbn [default].
      destruct (io_fails L (OpWrite p0)) as [e2|] eqn:Hwrite;
        unfold bind at 1; unfold logError, logInfo, ret;
        unfold bind at 1; unfold file_Close;
        cbn [fst snd files dirs dbs entropy logs set_files];
        (destruct (io_fails L (OpClose p0)) as [e3|] eqn:Hclose0;
         [ intros [= <- <-]; cbn [files logs];
           eexists; split; [reflexivity || (now rewrite app_nil_r)|];
           split; [cbn [length]; lia|];
           intros _ Hclose; exfalso;
           specialize (Hclose fn c (list_elem_of_here _ _) Hcreate);
           fold p0 in Hclose; congruence
         | ]).
      all: intros Hrun;
        match goal with
        | _ : seedKeystore _ ?d ?es ?w1 = _ |- _ =>
            destruct (seedKeystore_loop_inv d es w1)
              as (r0 & w0 & Hrun0 & _ & _ & _ & Hframe & _)
        end;
        rewrite Hrun in Hrun0; injection Hrun0 as <- <-;
        apply IH in Hrun as (lines & Hlogs & Hle & Hall);
        cbn [files logs dirs dbs entropy set_files id] in *;
        change ("" +:+ c) with c in *.
      * exists (("write content " +:+ p0 +:+ " err: " +:+ error_msg e2) :: lines).
        split; [now rewrite Hlogs, <- app_assoc|].
        split; [cbn [length]; lia|].
        intros Hnodup Hclose. apply NoDup_cons in Hnodup as [Hnotin Hnodup].
        destruct Hall as (Hr & Hlen & Hentries); [exact Hnodup | |].
        { intros fn' c' Hin. apply (Hclose fn' c'). now apply list_elem_of_further. }
        split; [exact Hr|]. split; [cbn [length]; now rewrite Hlen|].
        intros fn' c' Hin. apply elem_of_cons in Hin as [[= -> ->] | Hin].
        -- fold p0. rewrite Hcreate, Hwrite. rewrite Hframe.
           ++ rewrite lookup_insert_eq. eauto.
           ++ intros fn' c' Hin' Heq. apply Hnotin. rewrite Heq.
              apply (list_elem_of_fmap_2
                       (fun entry => filepath_Join L dir (fst entry))
                       rest (fn', c')). exact Hin'.
        -- specialize (Hentries fn' c' Hin).
           assert (filepath_Join L dir fn' <> p0) as Hne.
           { intros Heq. apply Hnotin. rewrite <- Heq.
             apply (list_elem_of_fmap_2
                      (fun entry => filepath_Join L dir (fst entry))
                      rest (fn', c')). exact Hin. }
           rewrite !lookup_insert_ne in Hentries by congruence. exact Hentries.
      * exists lines.
        split; [exact Hlogs|]. split; [exact Hle|].
        intros Hnodup Hclose. apply NoDup_cons in Hnodup as [Hnotin Hnodup].
        destruct Hall as (Hr & Hlen & Hentries); [exact Hnodup | |].
        { intros fn' c' Hin. apply (Hclose fn' c'). now apply list_elem_of_further. }
        split; [exact Hr|]. split; [exact Hlen|].
        intros fn' c' Hin. apply elem_of_cons in Hin as [[= -> ->] | Hin].
        -- fold p0. rewrite Hcreate, Hwrite. rewrite Hframe.
           ++ apply lookup_insert_eq.
           ++ intros fn' c' Hin' Heq. apply Hnotin. rewrite Heq.
              apply (list_elem_of_fmap_2
                       (fun entry => filepath_Join L dir (fst entry))
                       rest (fn', c')). exact Hin'.
        -- specialize (Hentries fn' c' Hin).
           assert (filepath_Join L dir fn' <> p0) as Hne.
           { intros Heq. apply Hnotin. rewrite <- Heq.
             apply (list_elem_of_fmap_2
                      (fun entry => filepath_Join L dir (fst entry))
                      rest (fn', c')). exact Hin. }
           rewrite !lookup_insert_ne in Hentries by congruence. exact Hentries.
Qed.

(** X15.  The loop that seeds the keystore, over any entries, never panics and
    never ends the process.  The only error the loop returns is that of
    closing a file it has created.  It touches no database, directory or
    key, and no file other than those of its entries; it only adds to the
    log, at most one line for each entry whose file cannot be created or
    written.  A file that cannot be created or written is passed over with
    a log line, and the loop goes on: when the entries have different
    paths and no file that can be created fails to close, the loop returns
    no error, it has logged exactly one line for each entry whose file
    cannot be created or written, and afterwards every entry that cannot
    be created has its file as it was, every entry that can be created has
    a file, and every entry that can also be written has a file that holds
    its contents. *)
Theorem seedKeystore_loop (dir : string) (entries : list (string * string))
    (w : world) :
  exists r w',
    seedKeystore L dir entries w = (Ret r, w') /\
    dbs w' = dbs w /\ dirs w' = dirs w /\ entropy w' = entropy w /\
    (forall p,
       (forall fn c, (fn, c) ∈ entries -> p <> filepath_Join L dir fn) ->
       files w' !! p = files w !! p) /\
    (forall e, r = Some e ->
       exists fn c,
         (fn, c) ∈ entries /\
         io_fails L (OpCreate (filepath_Join L dir fn)) = None /\
         io_fails L (OpClose (filepath_Join L dir fn)) = Some e) /\
    exists lines,
      logs w' = logs w ++ lines /\
      (length lines <= length (List.filter (seedFailed L dir) entries))%nat /\
      (NoDup (map (fun entry => filepath_Join L dir (fst entry)) entries) ->
       (forall fn c,
          (fn, c) ∈ entries ->
          io_fails L (OpCreate (filepath_Join L dir fn)) = None ->
          io_fails L (OpClose (filepath_Join L dir fn)) = None) ->
       r = None /\
       length lines = length (List.filter (seedFailed L dir) entries) /\
       forall fn c,
         (fn, c) ∈ entries ->
         match io_fails L (OpCreate (filepath_Join L dir fn)) with
         | Some _ =>
             files w' !! filepath_Join L dir fn
             = files w !! filepath_Join L dir fn
         | None =>
             match io_fails L (OpWrite (filepath_Join L dir fn)) with
             | Some _ => is_Some (files w' !! filepath_Join L dir fn)
             | None => files w' !! filepath_Join L dir fn = Some c
             end
         end).
Proof.
  destruct (seedKeystore_loop_inv dir entries w)
    as (r & w' & Hrun & Hdbs & Hdirs & Hent & Hframe & Herr).
  exists r, w'. do 6 (split; [assumption|]).
  exact (seedKeystore_loop_steps dir entries w r w' Hrun).
Qed.

End KeystoreProperties.

Section EthermintProperties.

Import commands.

Context (L : InitLibs).

Abbreviation world := (World (ChainDb L)).

(** The ends of [initEthermint]: it exits, panics on a genesis without
    configuration, or reaches the loop over the keystore files in a state
    that differs in the chain database, the log and the keystore
    directory. *)
Lemma initEthermint_cases (w : world) out w' :
  initEthermint L w = (out, w') ->
  (files w' = files w /\ entropy w' = entropy w /\
   (forall p, p <> chaindataPath L -> dbs w' !! p = dbs w !! p) /\
   ((exists msg, out = Exit msg) \/ out = Panic nil_dereference)) \/
  (exists (w1 : world) (g : Genesis L) (db : ChainDb L),
     files w1 = files w /\ entropy w1 = entropy w /\
     (forall p, p <> chaindataPath L -> dbs w1 !! p = dbs w !! p) /\
     snd (ParseGenesisOrDefault L (genesisPath L)) = None /\
     io_fails L (OpOpenDb (chaindataPath L)) = None /\
     snd (SetupGenesisBlock L db g) = None /\
     io_fails L (OpMkdirAll (keystoreDir L)) = None /\
     exists r,
       seedKeystore L (keystoreDir L) (map_to_list keystoreFilesMap) w1
       = (Ret r, w') /\
       out = Ret r).
Proof.
  unfold initEthermint. fold (chaindataPath L). fold (keystoreDir L).
  destruct (ParseGenesisOrDefault L (genesisPath L)) as [genesis [e|]] eqn:Hparse.
  { intros [= <- <-]. left. repeat split; eauto. }
  destruct (genesis_setChainId L genesis (EthChainId L)) as [g|].
  2:{ intros [= <- <-]. left. repeat split; eauto. }
  unfold bind at 1. unfold NewLDBDatabase.
  destruct (io_fails L (OpOpenDb (chaindataPath L))) as [e|] eqn:Hopen;
    cbn [fst snd].
  { intros [= <- <-]. left. repeat split; eauto. }
  match goal with |- _ -> ?G => set (post := G) end.
  assert (forall w0 : world,
    files w0 = files w -> entropy w0 = entropy w ->
    (forall p, p <> chaindataPath L -> dbs w0 !! p = dbs w !! p) ->
    is_Some (dbs w0 !! chaindataPath L) ->
    (g0 <- core_SetupGenesisBlock L (chaindataPath L) g ;;
     match snd g0 with
     | Some e => Fatalf L ("failed to write genesis block: " +:+ error_msg e)
     | None =>
         _ <- logInfo L
                ("successfully wrote genesis block and/or chain rule set hash="
                 +:+ hash_String L (fst g0)) ;;
         err <- MkdirAll L (keystoreDir L) ;;
         match err with
         | Some e => Fatalf L ("mkdirAll keyStoreDir: " +:+ error_msg e)
         | None =>
             r <- seedKeystore L (keystoreDir L) (map_to_list keystoreFilesMap) ;;
             match r with
             | Some e => ret (Some e)
             | None => ret None
             end
         end
     end) w0 = (out, w') -> post) as Hrest.
  2:{ destruct (dbs w !! chaindataPath L) as [db0|] eqn:Hdb; cbn [fst snd];
        intros H; eapply Hrest; try exact H; try reflexivity;
        cbn [dbs set_dbs files entropy]; eauto.
      - intros p Hp. now rewrite lookup_insert_ne by congruence.
      - rewrite lookup_insert_eq. eauto. }
  subst post.
  intros w0 Hf He Hd [db0 Hdb]. unfold bind at 1. unfold core_SetupGenesisBlock.
  rewrite Hdb.
  destruct (SetupGenesisBlock L db0 g) as [[db' hash] [e|]] eqn:Hsetup;
    cbn [fst snd].
  { intros [= <- <-]. left. cbn [files entropy dbs set_dbs].
    split; [exact Hf|]. split; [exact He|]. split; [|eauto].
    intros p Hp. rewrite lookup_insert_ne by congruence. now apply Hd. }
  unfold bind at 1. unfold logInfo at 1. unfold bind at 1. unfold MkdirAll.
  cbn [files dirs dbs entropy logs set_dbs].
  destruct (io_fails L (OpMkdirAll (keystoreDir L))) as [e|] eqn:Hmk.
  { intros [= <- <-]. left. cbn [files entropy dbs set_dbs].
    split; [exact Hf|]. split; [exact He|]. split; [|eauto].
    intros p Hp. rewrite lookup_insert_ne by congruence. now apply Hd. }
  unfold bind.
  match goal with
  | |- context [seedKeystore L ?d ?es ?w1] =>
      destruct (seedKeystore_loop_inv L d es w1) as (r & w3 & Hrun & _);
      set (w1' := w1) in *
  end.
  rewrite Hrun. intros Hout. right. exists w1', g, db0.
  cbn [files entropy dbs w1'].
  split; [exact Hf|]. split; [exact He|]. split.
  { intros p Hp. rewrite lookup_insert_ne by congruence. now apply Hd. }
  split; [reflexivity|]. split; [reflexivity|].
  split; [now rewrite Hsetup|]. split; [reflexivity|].
  exists r. destruct r; injection Hout as <- <-; (split; [exact Hrun | reflexivity]).
Qed.

(** A genesis block that cannot be set up in the chain database at hand
    ends the process. *)
Lemma initEthermint_setup_fails (w : world) g0 g out w' :
  ParseGenesisOrDefault L (genesisPath L) = (g0, None) ->
  genesis_setChainId L g0 (EthChainId L) = Some g ->
  is_Some (snd (SetupGenesisBlock L
                  (default (emptyDb L) (dbs w !! chaindataPath L)) g)) ->
  initEthermint L w = (out, w') ->
  exists msg, out = Exit msg.
Proof.
  intros Hp Hc [e He]. unfold initEthermint. fold (chaindataPath L).
  rewrite Hp, Hc. unfold bind at 1. unfold NewLDBDatabase.
  destruct (io_fails L (OpOpenDb (chaindataPath L))) as [e1|]; cbn [fst snd].
  { intros [= <- <-]. eauto. }
  destruct (dbs w !! chaindataPath L) as [db0|] eqn:Hdb;
    cbn [default] in He; cbn [fst snd];
    unfold bind at 1; unfold core_SetupGenesisBlock; cbn [dbs set_dbs];
    rewrite ?lookup_insert_eq, ?Hdb;
    destruct (SetupGenesisBlock L _ g) as [[db' h] err];
    cbn [snd] in He; subst err; cbn [fst snd];
    intros [= <- <-]; eauto.
Qed.

(** The keystore file after the loop over [keystoreFilesMap]: left alone
    when it cannot be created, there when it has been created, and holding
    the fixed contents when it has been written. *)
Lemma seedKeystore_keystore_file (wa : world) r wb :
  seedKeystore L (keystoreDir L) (map_to_list keystoreFilesMap) wa
  = (Ret r, wb) ->
  entropy wb = entropy wa /\
  (forall p, p <> keystorePath L -> files wb !! p = files wa !! p) /\
  match io_fails L (OpCreate (keystorePath L)) with
  | Some _ => files wb = files wa
  | None =>
      match io_fails L (OpWrite (keystorePath L)) with
      | Some _ => is_Some (files wb !! keystorePath L)
      | None => files wb = <[keystorePath L := keystoreContent]> (files wa)
      end
  end.
Proof.
  unfold keystoreFilesMap. rewrite map_to_list_singleton.
  cbn [seedKeystore]. fold (keystorePath L).
  unfold bind, os_Create, file_Write, file_Close, logError, logInfo, ret.
  destruct (io_fails L (OpCreate (keystorePath L))) as [e1|];
    cbn [fst snd files dirs dbs entropy logs set_files].
  { intros [= <- <-]. repeat split; reflexivity. }
  destruct (io_fails L (OpWrite (keystorePath L))) as [e2|];
    cbn [fst snd files dirs dbs entropy logs set_files];
    destruct (io_fails L (OpClose (keystorePath L))) as [e3|];
    intros [= <- <-]; cbn [files entropy set_files];
    rewrite ?lookup_insert_eq, ?insert_insert_eq;
    (split; [reflexivity|]); (split;
      [intros p Hp; now rewrite lookup_insert_ne by congruence|]);
    rewrite ?lookup_insert_eq; eauto.
Qed.

End EthermintProperties.

Section EthermintTheorems.

Import commands.

Context (L : InitLibs).

Abbreviation world := (World (ChainDb L)).

(** What the loop makes of the files, for the one entry of
    [keystoreFilesMap]: a function of the failures of the machine only,
    which keeps the files that exist and changes nothing when applied
    again. *)
Lemma seedKeystore_files :
  exists F : gmap string string -> gmap string string,
    (forall (wa : world) r wb,
       seedKeystore L (keystoreDir L) (map_to_list keystoreFilesMap) wa
       = (Ret r, wb) ->
       files wb = F (files wa) /\ entropy wb = entropy wa) /\
    (forall m, F (F m) = F m) /\
    (forall m p, is_Some (m !! p) -> is_Some (F m !! p)) /\
    (forall m p, p <> keystorePath L -> F m !! p = m !! p) /\
    (forall m, is_Some (io_fails L (OpCreate (keystorePath L))) -> F m = m).
Proof.
  unfold keystoreFilesMap. rewrite map_to_list_singleton.
  fold (keystorePath L).
  exists (fun m =>
            match io_fails L (OpCreate (keystorePath L)) with
            | Some _ => m
            | None =>
                match io_fails L (OpWrite (keystorePath L)) with
                | Some _ => <[keystorePath L := ""]> m
                | None => <[keystorePath L := keystoreContent]> m
                end
            end).
  split; [|split; [|split; [|split]]].
  - intros wa r wb. cbn [seedKeystore].
    fold (keystorePath L).
    unfold bind, os_Create, file_Write, file_Close, logError, logInfo, ret.
    destruct (io_fails L (OpCreate (keystorePath L))) as [e1|];
      cbn [fst snd files dirs dbs entropy logs set_files].
    { intros [= <- <-]. split; reflexivity. }
    destruct (io_fails L (OpWrite (keystorePath L))) as [e2|];
      cbn [fst snd files dirs dbs entropy logs set_files];
      destruct (io_fails L (OpClose (keystorePath L))) as [e3|];
      intros [= <- <-]; cbn [files entropy]; (split; [|reflexivity]);
      rewrite ?lookup_insert_eq, ?insert_insert_eq; reflexivity.
  - intros m.
    destruct (io_fails L (OpCreate (keystorePath L))); [reflexivity|].
    destruct (io_fails L (OpWrite (keystorePath L)));
      now rewrite insert_insert_eq.
  - intros m p Hp.
    destruct (io_fails L (OpCreate (keystorePath L))); [exact Hp|].
    destruct (io_fails L (OpWrite (keystorePath L)));
      rewrite lookup_insert_is_Some'; now right.
  - intros m p Hp.
    destruct (io_fails L (OpCreate (keystorePath L))); [reflexivity|].
    destruct (io_fails L (OpWrite (keystorePath L)));
      now rewrite lookup_insert_ne by congruence.
  - intros m [e He]. now rewrite He.
Qed.

(** X16.  The frame of [initEthermint], however it ends: it generates no key,
    and touches no file other than the keystore file and no database other
    than the chain database. *)
Theorem initEthermint_frame (w : world) out w' :
  initEthermint L w = (out, w') ->
  entropy w' = entropy w /\
  (forall p, p <> keystorePath L -> files w' !! p = files w !! p) /\
  (forall p, p <> chaindataPath L -> dbs w' !! p = dbs w !! p).
Proof.
  intros H. apply initEthermint_cases in H
    as [(Hf & He & Hd & _)
       | (w1 & g & db & Hf & He & Hd & _ & _ & _ & _ & r & Hrun & _)].
  - split; [exact He|]. split; [|exact Hd]. intros p _. now rewrite Hf.
  - destruct seedKeystore_files as (F & HF & _ & _ & Hother & _).
    destruct (HF _ _ _ Hrun) as [Hfiles Hent].
    destruct (seedKeystore_loop_inv L (keystoreDir L)
                (map_to_list keystoreFilesMap) w1)
      as (r' & w'' & Hrun' & Hdbs & _).
    rewrite Hrun in Hrun'. injection Hrun' as <- <-.
    split; [congruence|]. split.
    + intros p Hp. now rewrite Hfiles, Hother, Hf.
    + intros p Hp. rewrite Hdbs. now apply Hd.
Qed.

(** X17.  A failure before the keystore is fatal: when the genesis cannot be
    parsed, the chain database cannot be opened, the genesis block cannot
    be set up in the chain database of the machine (the one it holds, or
    the empty one that opening creates) or the keystore directory cannot be
    made, [initEthermint] ends the process (or panics on a genesis without
    configuration) and has written no file. *)
Theorem initEthermint_fatal (w : world) out w' :
  is_Some (snd (ParseGenesisOrDefault L (genesisPath L))) \/
  is_Some (io_fails L (OpOpenDb (chaindataPath L))) \/
  (exists g0 g,
     ParseGenesisOrDefault L (genesisPath L) = (g0, None) /\
     genesis_setChainId L g0 (EthChainId L) = Some g /\
     is_Some (snd (SetupGenesisBlock L
                     (default (emptyDb L) (dbs w !! chaindataPath L)) g))) \/
  is_Some (io_fails L (OpMkdirAll (keystoreDir L))) ->
  initEthermint L w = (out, w') ->
  files w' = files w /\
  ((exists msg, out = Exit msg) \/ out = Panic nil_dereference).
Proof.
  intros Hfail H. pose proof H as H0. apply initEthermint_cases in H
    as [(Hf & _ & _ & Hout)
       | (w1 & g & db & _ & _ & _ & Hp & Ho & Hs & Hm & r & _ & ->)].
  - split; assumption.
  - exfalso.
    destruct Hfail as [[e He] | [[e He] | [(g0 & g' & Hp' & Hc & Hs') | [e He]]]];
      try congruence.
    destruct (initEthermint_setup_fails L w g0 g' _ _ Hp' Hc Hs' H0) as [msg [=]].
Qed.

(** X18.  A keystore file that cannot be created is passed over: when
    [initEthermint] returns, it returns no error, and the files are as
    they were: no keystore has been seeded. *)
Theorem initEthermint_unseeded (w : world) r w' :
  is_Some (io_fails L (OpCreate (keystorePath L))) ->
  initEthermint L w = (Ret r, w') ->
  r = None /\ files w' = files w.
Proof.
  intros Hcreate H. apply initEthermint_cases in H
    as [(_ & _ & _ & [[msg [=]] | [=]])
       | (w1 & g & db & Hf & _ & _ & _ & _ & _ & _ & r' & Hrun & [= <-])].
  destruct seedKeystore_files as (F & HF & _ & _ & _ & Hsame).
  destruct (HF _ _ _ Hrun) as [Hfiles _].
  split; [|now rewrite Hfiles, Hsame, Hf].
  destruct (seedKeystore_loop_inv L (keystoreDir L) (map_to_list keystoreFilesMap) w1)
    as (r' & w'' & Hrun' & _ & _ & _ & _ & Herr).
  rewrite Hrun in Hrun'. injection Hrun' as <- <-.
  destruct r as [e|]; [|reflexivity].
  destruct (Herr e eq_refl) as (fn & c & Hin & Hc & _).
  unfold keystoreFilesMap in Hin. rewrite map_to_list_singleton in Hin.
  apply list_elem_of_singleton in Hin. injection Hin as -> ->.
  fold (keystorePath L) in Hc. destruct Hcreate as [e' He']. congruence.
Qed.

(** X19.  Running the init command again, whatever fails the second time:
    after a run that returned, a second run on the same machine with
    failures of its own, however it ends, generates no key and changes no
    file other than the keystore file.  The keystore file is left as the
    first run left it, or it is created again, and then it holds the fixed
    contents when the write does not fail.  So a second run whose write
    does not fail changes no file at all once the first run has seeded the
    keystore. *)
Theorem initFiles_again (fails2 : IoOp -> option error) (w : world) r w1 out2 w2 :
  initFiles L w = (Ret r, w1) ->
  initFiles (withFaults L fails2) w1 = (out2, w2) ->
  entropy w2 = entropy w1 /\
  (forall p, p <> keystorePath L -> files w2 !! p = files w1 !! p) /\
  (files w2 !! keystorePath L = files w1 !! keystorePath L \/
   fails2 (OpCreate (keystorePath L)) = None /\
   is_Some (fails2 (OpWrite (keystorePath L))) /\
   is_Some (files w2 !! keystorePath L) \/
   fails2 (OpCreate (keystorePath L)) = None /\
   fails2 (OpWrite (keystorePath L)) = None /\
   files w2 !! keystorePath L = Some keystoreContent) /\
  (files w1 !! keystorePath L = Some keystoreContent ->
   fails2 (OpWrite (keystorePath L)) = None ->
   files w2 = files w1).
Proof.
  unfold initFiles, bind. intros H1 H2.
  destruct (initTendermint L w) as [[[]|msg|msg] wm] eqn:Ht1; try discriminate.
  apply initTendermint_returns_files in Ht1 as [Hp Hg].
  apply initEthermint_cases in H1
    as [(_ & _ & _ & [[msg [=]] | [=]])
       | (wa & g & db & Hfa & _ & _ & _ & _ & _ & _ & r' & Hrun1 & _)].
  destruct seedKeystore_files as (F & HF & _ & Hkeep & _ & _).
  destruct (HF _ _ _ Hrun1) as [Hfiles1 _]. rewrite Hfa in Hfiles1.
  assert (is_Some (files w1 !! PrivValidatorFile L)) as Hp1.
  { rewrite Hfiles1. now apply Hkeep. }
  assert (is_Some (files w1 !! GenesisFile L)) as Hg1.
  { rewrite Hfiles1. now apply Hkeep. }
  clear F HF Hkeep Hfiles1.
  set (L2 := withFaults L fails2) in *.
  destruct (initTendermint L2 w1) as [ot wt] eqn:Ht2.
  destruct (initTendermint_finds_both L2 _ _ _ Hp1 Hg1 Ht2) as [Hft Het].
  assert (files w2 = files w1 /\ entropy w2 = entropy w1 ->
          entropy w2 = entropy w1 /\
          (forall p, p <> keystorePath L -> files w2 !! p = files w1 !! p) /\
          (files w2 !! keystorePath L = files w1 !! keystorePath L \/
           fails2 (OpCreate (keystorePath L)) = None /\
           is_Some (fails2 (OpWrite (keystorePath L))) /\
           is_Some (files w2 !! keystorePath L) \/
           fails2 (OpCreate (keystorePath L)) = None /\
           fails2 (OpWrite (keystorePath L)) = None /\
           files w2 !! keystorePath L = Some keystoreContent) /\
          (files w1 !! keystorePath L = Some keystoreContent ->
           fails2 (OpWrite (keystorePath L)) = None ->
           files w2 = files w1)) as Hsame.
  { intros [Hf He]. split; [exact He|]. split; [now rewrite Hf|].
    split; [left; now rewrite Hf | intros _ _; exact Hf]. }
  destruct ot as [[]|msg|msg]; try (injection H2 as <- <-; apply Hsame; now split).
  apply initEthermint_cases in H2
    as [(Hf2 & He2 & _)
       | (wb & g2 & db2 & Hfb & Heb & _ & _ & _ & _ & _ & r2 & Hrun2 & _)].
  { apply Hsame. split; [exact (eq_trans Hf2 Hft) | exact (eq_trans He2 Het)]. }
  clear Hsame.
  apply (seedKeystore_keystore_file L2) in Hrun2 as (Hent & Hother & Hks).
  change (keystorePath L2) with (keystorePath L) in *.
  change (io_fails L2) with fails2 in Hks.
  assert (files wb = files w1) as Hb by exact (eq_trans Hfb Hft).
  split; [exact (eq_trans Hent (eq_trans Heb Het))|]. split.
  { intros p Hne. rewrite Hother by exact Hne. now rewrite Hb. }
  destruct (fails2 (OpCreate (keystorePath L))) as [e1|] eqn:Hc.
  { split; [left; congruence | intros _ _; congruence]. }
  destruct (fails2 (OpWrite (keystorePath L))) as [e2|] eqn:Hw.
  { split; [right; left; eauto | discriminate]. }
  split.
  - right. right. split; [reflexivity|]. split; [reflexivity|].
    rewrite Hks. apply lookup_insert_eq.
  - intros Hseeded _. rewrite Hks, Hb. now apply insert_id.
Qed.

End EthermintTheorems.

Lemma initTendermint_frame_witness :
  exists out w',
    commands.initTendermint commands.testInit commands.w0 = (out, w') /\
    commands.dbs w' = commands.dbs commands.w0 /\
    commands.dirs w' = commands.dirs commands.w0 /\
    (forall p,
       p <> commands.PrivValidatorFile commands.testInit ->
       p <> commands.GenesisFile commands.testInit ->
       commands.files w' !! p = commands.files commands.w0 !! p) /\
    (commands.entropy w' = commands.entropy commands.w0 \/
     commands.files commands.w0 !! commands.PrivValidatorFile commands.testInit
     = None /\
     commands.entropy w' = S (commands.entropy commands.w0)).
Proof.
  exists (fst (commands.initTendermint commands.testInit commands.w0)),
         (snd (commands.initTendermint commands.testInit commands.w0)).
  split; [apply surjective_pairing|].
  eapply (initTendermint_frame commands.testInit commands.w0).
  apply surjective_pairing.
Defined.

Lemma initTendermint_damaged_validator_witness :
  exists msg,
    commands.initTendermint commands.testInit commands.damaged
    = (Exit msg, commands.damaged).
Proof.
  apply (initTendermint_damaged_validator commands.testInit commands.damaged "???").
  - vm_compute. reflexivity.
  - vm_compute. reflexivity.
Defined.

Lemma initTendermint_fresh_witness :
  exists w',
    commands.initTendermint commands.testInit commands.w0 = (Ret tt, w') /\
    commands.entropy w' = 1%nat /\
    commands.files w' !! "/travis/priv_validator.json" = Some "validator 0" /\
    commands.files w' !! "/travis/genesis.json"
    = Some "genesis local:pubkey 0=10".
Proof.
  eexists. split; [vm_compute; reflexivity|].
  apply (initTendermint_fresh commands.testInit commands.w0).
  - vm_compute. reflexivity.
  - vm_compute. reflexivity.
  - discriminate.
  - vm_compute. reflexivity.
Defined.

Lemma initTendermint_genesis_write_fails_witness :
  exists w',
    commands.initTendermint commands.diskFull commands.w0
    = (Panic "no space left on device", w') /\
    commands.entropy w' = 1%nat /\
    commands.files w' !! "/travis/priv_validator.json" = Some "validator 0".
Proof.
  apply (initTendermint_genesis_write_fails commands.diskFull commands.w0
           (Err "no space left on device")).
  - vm_compute. reflexivity.
  - vm_compute. reflexivity.
  - discriminate.
  - reflexivity.
  - reflexivity.
Defined.

Lemma seedKeystore_loop_witness :
  exists r w' lines,
    commands.seedKeystore commands.flakyKeystore "/k" commands.threeKeys
      commands.w0 = (Ret r, w') /\
    r = None /\
    commands.logs w' = commands.logs commands.w0 ++ lines /\
    length lines = 2%nat /\
    commands.files w' !! "/k/a" = commands.files commands.w0 !! "/k/a" /\
    is_Some (commands.files w' !! "/k/b") /\
    commands.files w' !! "/k/c" = Some "3".
Proof.
  destruct (seedKeystore_loop commands.flakyKeystore "/k" commands.threeKeys
              commands.w0)
    as (r & w' & Hrun & _ & _ & _ & _ & _ & lines & Hlogs & _ & Hall).
  destruct Hall as (Hr & Hlen & Hentries).
  { apply (bool_decide_unpack _). vm_compute. exact I. }
  { intros fn c _ _. reflexivity. }
  exists r, w', lines.
  split; [exact Hrun|]. split; [exact Hr|]. split; [exact Hlogs|].
  split; [exact Hlen|].
  split; [exact (Hentries "a" "1" (list_elem_of_here _ _))|].
  split; [exact (Hentries "b" "2" (list_elem_of_further _ _ _ (list_elem_of_here _ _)))|].
  exact (Hentries "c" "3"
           (list_elem_of_further _ _ _
              (list_elem_of_further _ _ _ (list_elem_of_here _ _)))).
Defined.

Lemma initEthermint_frame_witness :
  exists out w',
    commands.initEthermint commands.testInit commands.w0 = (out, w') /\
    commands.entropy w' = commands.entropy commands.w0 /\
    (forall p,
       p <> commands.keystorePath commands.testInit ->
       commands.files w' !! p = commands.files commands.w0 !! p) /\
    (forall p,
       p <> commands.chaindataPath commands.testInit ->
       commands.dbs w' !! p = commands.dbs commands.w0 !! p).
Proof.
  exists (fst (commands.initEthermint commands.testInit commands.w0)),
         (snd (commands.initEthermint commands.testInit commands.w0)).
  split; [apply surjective_pairing|].
  eapply (initEthermint_frame commands.testInit commands.w0).
  apply surjective_pairing.
Defined.

Lemma initEthermint_fatal_witness :
  exists out w',
    commands.initEthermint commands.otherGenesis commands.populated = (out, w') /\
    commands.files w' = commands.files commands.populated /\
    ((exists msg, out = Exit msg) \/ out = Panic nil_dereference).
Proof.
  exists (fst (commands.initEthermint commands.otherGenesis commands.populated)),
         (snd (commands.initEthermint commands.otherGenesis commands.populated)).
  split; [apply surjective_pairing|].
  apply (initEthermint_fatal commands.otherGenesis commands.populated).
  - right. right. left. exists ("default", 0), ("default", 111).
    split; [reflexivity|]. split; [reflexivity|].
    vm_compute. eexists. reflexivity.
  - apply surjective_pairing.
Defined.

(** On a machine whose chain database holds another genesis block, the
    process ends at the set-up of the genesis block. *)
Example initEthermint_other_genesis :
  fst (commands.initEthermint commands.otherGenesis commands.populated)
  = Exit ("failed to write genesis block: "
          +:+ "database already contains an incompatible genesis block").
Proof. vm_compute. reflexivity. Qed.

Lemma initEthermint_unseeded_witness :
  exists w',
    commands.initEthermint commands.readOnlyKeystore commands.w0
    = (Ret None, w') /\
    None = @None error /\
    commands.files w' = commands.files commands.w0.
Proof.
  eexists. split; [vm_compute; reflexivity|].
  apply (initEthermint_unseeded commands.readOnlyKeystore commands.w0).
  - eexists. reflexivity.
  - vm_compute. reflexivity.
Defined.

Lemma initFiles_again_witness :
  exists out2 w2,
    commands.initFiles (commands.withFaults commands.testInit commands.writeFails)
      commands.w1 = (out2, w2) /\
    commands.entropy w2 = commands.entropy commands.w1 /\
    (forall p,
       p <> commands.keystorePath commands.testInit ->
       commands.files w2 !! p = commands.files commands.w1 !! p) /\
    (commands.files w2 !! commands.keystorePath commands.testInit
     = commands.files commands.w1 !! commands.keystorePath commands.testInit \/
     commands.writeFails (commands.OpCreate (commands.keystorePath commands.testInit))
     = None /\
     is_Some (commands.writeFails
                (commands.OpWrite (commands.keystorePath commands.testInit))) /\
     is_Some (commands.files w2 !! commands.keystorePath commands.testInit) \/
     commands.writeFails (commands.OpCreate (commands.keystorePath commands.testInit))
     = None /\
     commands.writeFails (commands.OpWrite (commands.keystorePath commands.testInit))
     = None /\
     commands.files w2 !! commands.keystorePath commands.testInit
     = Some commands.keystoreContent) /\
    (commands.files commands.w1 !! commands.keystorePath commands.testInit
     = Some commands.keystoreContent ->
     commands.writeFails (commands.OpWrite (commands.keystorePath commands.testInit))
     = None ->
     commands.files w2 = commands.files commands.w1).
Proof.
  exists (fst (commands.initFiles
                 (commands.withFaults commands.testInit commands.writeFails)
                 commands.w1)),
         (snd (commands.initFiles
                 (commands.withFaults commands.testInit commands.writeFails)
                 commands.w1)).
  split; [apply surjective_pairing|].
  eapply (initFiles_again commands.testInit commands.writeFails
            commands.w0 None commands.w1).
  - vm_compute. reflexivity.
  - apply surjective_pairing.
Defined.
